(** * Robust volatility service

    A shallow embedding of [robust_volatility_calculation.py]: the request
    handler, the paginated price retrieval and the four numeric stages
    (daily aggregation, exponentially weighted volatility, absolute minimum,
    rolling quantile floor), followed by the properties proved about them.

    Numbers are IEEE 754 binary64 values ([PrimFloat.float]), as in numpy and
    pandas; "no data" is NaN.  The pandas and numpy routines the source calls
    are transcribed in the modules [Np] and [Pd]; the functions of the source
    file keep their names and are built from them. *)

From Stdlib Require Import ZArith List Bool String Ascii Lia Floats Sorted Permutation.
Import ListNotations.

Set Warnings "-inexact-float,-register-all".

(* ================================================================= *)
(** * Part I: the model *)
(* ================================================================= *)

(** ** numpy scalars *)

Module Np.

(** [np.isnan]: the only value that differs from itself. *)
Definition isnan (x : float) : bool := PrimFloat.is_nan x.

(** [np.isinf]. *)
Definition isinf (x : float) : bool := PrimFloat.is_infinity x.

(** [a >= b] on doubles: false as soon as one side is NaN. *)
Definition ge (a b : float) : bool := PrimFloat.leb b a.

(** [a != b] on doubles: true as soon as one side is NaN. *)
Definition ne (a b : float) : bool := negb (PrimFloat.eqb a b).

(** The scalar loop of [np.maximum]:
    [(in1 >= in2 || npy_isnan(in1)) ? in1 : in2], so NaN on either side
    gives NaN. *)
Definition maximum (in1 in2 : float) : float :=
  if ge in1 in2 || isnan in1 then in1 else in2.

(** Conversion of a (small) count to a double. *)
Definition of_nat (n : nat) : float :=
  PrimFloat.of_uint63 (Uint63.of_Z (Z.of_nat n)).

(** The C cast [<int> x] and Python's [int(x)] on a finite double:
    truncation towards zero. [None] for NaN and the infinities. *)
Definition trunc (x : float) : option Z :=
  match Prim2SF x with
  | S754_zero _ => Some 0%Z
  | S754_finite s m e =>
      let a := match e with
               | Zneg p => Z.shiftr (Zpos m) (Zpos p)
               | _ => Z.shiftl (Zpos m) e
               end in
      Some (if s then Z.opp a else a)
  | S754_infinity _ | S754_nan => None
  end.

End Np.

(** ** Python values, exceptions and [int()] *)

Module Py.

(** A raised exception: its class and its message. These are the instances
    of [Exception] that an [except Exception] clause catches. *)
Record exn : Type := mkExn { exn_class : string; exn_msg : string }.

Definition KeyError (k : string) : exn := mkExn "KeyError" k.
Definition TypeError (m : string) : exn := mkExn "TypeError" m.
Definition ValueError (m : string) : exn := mkExn "ValueError" m.
Definition IndexError (m : string) : exn := mkExn "IndexError" m.
Definition OverflowError (m : string) : exn := mkExn "OverflowError" m.
Definition OutOfBoundsDatetime (m : string) : exn := mkExn "OutOfBoundsDatetime" m.

(** The outcome of a pure computation: a value or a raised exception. *)
Inductive result (A : Type) : Type :=
| Ok (a : A)
| Raise (e : exn).
Arguments Ok {A} a.
Arguments Raise {A} e.

Definition bind {A B : Type} (r : result A) (k : A -> result B) : result B :=
  match r with
  | Ok a => k a
  | Raise e => Raise e
  end.

(** JSON values as [json.loads] builds them. *)
Inductive json : Type :=
| JNull
| JBool (b : bool)
| JInt (n : Z)
| JFloat (x : float)
| JStr (s : string)
| JArr (l : list json)
| JObj (kvs : list (string * json)).

(** Lookup in the dict built from a JSON object: the last binding of a
    repeated key wins. *)
Fixpoint dict_get (k : string) (kvs : list (string * json)) : option json :=
  match kvs with
  | [] => None
  | (k', v) :: rest =>
      match dict_get k rest with
      | Some v' => Some v'
      | None => if String.eqb k k' then Some v else None
      end
  end.

(** [type(v).__name__]. *)
Definition type_name (v : json) : string :=
  match v with
  | JNull => "NoneType"
  | JBool _ => "bool"
  | JInt _ => "int"
  | JFloat _ => "float"
  | JStr _ => "str"
  | JArr _ => "list"
  | JObj _ => "dict"
  end.

(** [data[key]] for a string key. *)
Definition getitem (data : json) (key : string) : result json :=
  match data with
  | JObj kvs =>
      match dict_get key kvs with
      | Some v => Ok v
      | None => Raise (KeyError key)
      end
  | JArr _ => Raise (TypeError "list indices must be integers or slices, not str")
  | JStr _ => Raise (TypeError "string indices must be integers, not 'str'")
  | _ => Raise (TypeError ("'" ++ type_name data ++ "' object is not subscriptable")%string)
  end.

(** *** [str(n)] on an integer: the decimal numeral. *)

Definition digit_char (d : Z) : ascii := ascii_of_nat (48 + Z.to_nat d).

Fixpoint numeral (fuel : nat) (n : Z) (acc : list ascii) : list ascii :=
  let acc' := digit_char (n mod 10) :: acc in
  match fuel with
  | O => acc'
  | S fuel' => if (n <? 10)%Z then acc' else numeral fuel' (n / 10) acc'
  end.

Definition str (n : Z) : string :=
  let a := Z.abs n in
  let ds := numeral (Z.to_nat (Z.log2 a)) a [] in
  string_of_list_ascii (if (n <? 0)%Z then "-"%char :: ds else ds).

(** *** [repr(s)] on a string.

    A [string] stands for a Python [str] whose code points are all below
    256: its characters are the code points U+0000 to U+00FF. *)

Definition double_quote : ascii := ascii_of_nat 34.

Definition hex_digit (n : nat) : ascii :=
  if (n <? 10)%nat then ascii_of_nat (48 + n) else ascii_of_nat (87 + n).

(** [str.isprintable] below 256. *)
Definition is_printable (c : ascii) : bool :=
  let n := nat_of_ascii c in
  ((32 <=? n) && (n <? 127) || (161 <=? n) && negb (n =? 173))%nat.

Definition repr_char (quote c : ascii) : list ascii :=
  let n := nat_of_ascii c in
  if Ascii.eqb c quote || Ascii.eqb c "\" then ["\"%char; c]
  else if (n =? 9)%nat then ["\"%char; "t"%char]
  else if (n =? 10)%nat then ["\"%char; "n"%char]
  else if (n =? 13)%nat then ["\"%char; "r"%char]
  else if is_printable c then [c]
  else ["\"%char; "x"%char; hex_digit (n / 16); hex_digit (n mod 16)].

Definition repr (s : string) : string :=
  let cs := list_ascii_of_string s in
  let quote :=
    if existsb (Ascii.eqb "'") cs && negb (existsb (Ascii.eqb double_quote) cs)
    then double_quote else "'"%char in
  string_of_list_ascii
    (quote :: List.concat (map (repr_char quote) cs) ++ [quote]).

(** *** [int(s)] on a string: white space, an optional sign, decimal digits
    with single underscores between them, white space.  The white space is
    the six ASCII characters of C's [isspace] and, beyond ASCII, NEL and the
    no-break space; the digits are the ASCII ones (no other code point
    below 256 is a decimal digit). *)

Definition is_space (c : ascii) : bool :=
  let n := nat_of_ascii c in
  ((9 <=? n) && (n <=? 13) || (n =? 32) || (n =? 133) || (n =? 160))%nat.

Definition digit_value (c : ascii) : option Z :=
  let n := nat_of_ascii c in
  if ((48 <=? n) && (n <=? 57))%nat then Some (Z.of_nat n - 48)%Z else None.

Fixpoint lstrip (s : list ascii) : list ascii :=
  match s with
  | c :: s' => if is_space c then lstrip s' else s
  | [] => []
  end.

(** The scan of the digits that follow a digit already read: the value, the
    number of digits and what is left at the first character that is neither
    a digit nor an underscore.  It fails on an underscore that no digit
    follows. *)
Fixpoint more_digits (acc : Z) (count : nat) (s : list ascii)
    : option (Z * nat * list ascii) :=
  match s with
  | [] => Some (acc, count, [])
  | c :: s' =>
      match digit_value c with
      | Some d => more_digits (10 * acc + d) (S count) s'
      | None =>
          if Ascii.eqb c "_" then
            match s' with
            | c' :: s'' =>
                match digit_value c' with
                | Some d => more_digits (10 * acc + d) (S count) s''
                | None => None
                end
            | [] => None
            end
          else Some (acc, count, s)
      end
  end.

Definition digits (s : list ascii) : option (Z * nat * list ascii) :=
  match s with
  | c :: s' =>
      match digit_value c with
      | Some d => more_digits d 1 s'
      | None => None
      end
  | [] => None
  end.

(** [sys.get_int_max_str_digits()]. *)
Definition int_max_str_digits : nat := 4300.

Inductive literal : Type :=
| Converted (n : Z)
| Invalid
| TooLong (ndigits : nat).

(** The limit on the number of digits is checked when the digits have been
    scanned, before what follows them is looked at. *)
Definition parse_int (s : string) : literal :=
  let s1 := lstrip (list_ascii_of_string s) in
  let '(negative, s2) :=
    match s1 with
    | c :: s' =>
        if Ascii.eqb c "-" then (true, s')
        else if Ascii.eqb c "+" then (false, s')
        else (false, s1)
    | [] => (false, [])
    end in
  match digits s2 with
  | Some (n, count, rest) =>
      if (int_max_str_digits <? count)%nat then TooLong count
      else
        match lstrip rest with
        | [] => Converted (if negative then - n else n)%Z
        | _ :: _ => Invalid
        end
  | None => Invalid
  end.

(** The message names the literal, cut after 200 characters. *)
Definition invalid_literal (s : string) : exn :=
  ValueError
    ("invalid literal for int() with base 10: "
     ++ string_of_list_ascii (firstn 200 (list_ascii_of_string (repr s))))%string.

Definition exceeds_limit (ndigits : nat) : exn :=
  ValueError
    ("Exceeds the limit (4300 digits) for integer string conversion: value has "
     ++ str (Z.of_nat ndigits)
     ++ " digits; use sys.set_int_max_str_digits() to increase the limit")%string.

(** [int(v)] for a value taken from a JSON body. *)
Definition int (v : json) : result Z :=
  match v with
  | JInt n => Ok n
  | JBool b => Ok (if b then 1 else 0)%Z
  | JFloat x =>
      if Np.isnan x then Raise (ValueError "cannot convert float NaN to integer")
      else match Np.trunc x with
           | Some n => Ok n
           | None => Raise (OverflowError "cannot convert float infinity to integer")
           end
  | JStr s =>
      match parse_int s with
      | Converted n => Ok n
      | Invalid => Raise (invalid_literal s)
      | TooLong ndigits => Raise (exceeds_limit ndigits)
      end
  | JNull | JArr _ | JObj _ =>
      Raise (TypeError
               ("int() argument must be a string, a bytes-like object or a real number, not '"
                ++ type_name v ++ "'")%string)
  end.


End Py.

Declare Scope result_scope.
Delimit Scope result_scope with result.
Notation "x <- c ;; k" := (Py.bind c (fun x => k))
  (at level 61, c at next level, right associativity) : result_scope.

(** ** The price store *)

Module Dynamo.

(** An item of the [multiple_prices] table as the projection
    [UnixDateTime,Price] returns it, after [pd.to_numeric]: the time stamp in
    seconds and the price as a double. *)
Record Item : Type := mkItem { UnixDateTime : Z; Price : float }.

Definition Key : Type := Py.json.

(** The arguments of one [table.query] call. *)
Record Query : Type := mkQuery {
  TableName : string;
  Instrument : Py.json;
  between_lo : Z;
  between_hi : Z;
  ProjectionExpression : string;
  ExclusiveStartKey : option Key
}.

(** A response of [table.query]: a dict that should hold ['Items'] and holds
    ['LastEvaluatedKey'] when more pages follow. *)
Record Response : Type := mkResponse {
  Items : option (list Item);
  LastEvaluatedKey : option Key
}.

(** The store: what the n-th query issued so far answers, a response or an
    exception (network, permission, throttling). *)
Definition Table : Type := nat -> Query -> Py.result Response.

(** [response['Items']]. *)
Definition get_Items (r : Response) : Py.result (list Item) :=
  match Items r with
  | Some its => Py.Ok its
  | None => Py.Raise (Py.KeyError "Items")
  end.

End Dynamo.

(** ** pandas *)

Module Pd.

Import PrimFloat.
Local Open Scope float_scope.

(** A float64 [pd.Series] (or one-column frame): the index labels and the
    values, position by position.  The daily index holds day numbers
    (days since 1970-01-01, UTC). *)
Record Series : Type := mkSeries { index : list Z; values : list float }.

(** Operations that keep the index and rewrite the values. *)
Definition with_values (s : Series) (vs : list float) : Series :=
  {| index := index s; values := vs |}.

(** *** Frames and daily resampling *)

(** [pd.DataFrame.from_dict(records)]: one column per key of the records,
    hence no column at all for an empty list. *)
Record DataFrame : Type := mkFrame {
  columns : list string;
  rows : list Dynamo.Item
}.

Definition DataFrame_from_dict (records : list Dynamo.Item) : DataFrame :=
  {| columns := match records with
                | [] => []
                | _ :: _ => ["UnixDateTime"; "Price"]%string
                end;
     rows := records |}.

(** A frame indexed by time stamp (seconds) with its [Price] column. *)
Definition TimeFrame : Type := list (Z * float).

(** [df.set_index(key)] for the time-stamp column: [KeyError] when the frame
    has no such column. *)
Definition set_index (df : DataFrame) (key : string) : Py.result TimeFrame :=
  if existsb (String.eqb key) (columns df)
  then Py.Ok (map (fun it => (Dynamo.UnixDateTime it, Dynamo.Price it)) (rows df))
  else Py.Raise (Py.KeyError "None of ['UnixDateTime'] are in the columns").

Definition seconds_per_day : Z := 86400.

(** The calendar day (UTC) of a time stamp. *)
Definition day_of (t : Z) : Z := (t / seconds_per_day)%Z.

(** Resampling first sorts the rows by time stamp with a stable sort. *)
Fixpoint insert_by_time (r : Z * float) (l : TimeFrame) : TimeFrame :=
  match l with
  | [] => [r]
  | r' :: l' =>
      if (fst r <=? fst r')%Z then r :: l else r' :: insert_by_time r l'
  end.

Definition sort_by_time (l : TimeFrame) : TimeFrame :=
  fold_right insert_by_time [] l.

(** The grouped mean: the observations are added with compensated (Kahan)
    summation and the sum is divided by their number; NaN entries are
    skipped and a group without observation gives NaN. *)
Definition kahan_step (st : float * float) (val : float) : float * float :=
  let '(sumx, compensation) := st in
  let y := val - compensation in
  let t := sumx + y in
  let c := (t - sumx) - y in
  (t, if Np.isnan c then 0 else c).

Definition group_mean (vals : list float) : float :=
  let obs := filter (fun v => negb (Np.isnan v)) vals in
  match obs with
  | [] => nan
  | _ :: _ => fst (fold_left kahan_step obs (0, 0)) / Np.of_nat (List.length obs)
  end.

Fixpoint take_while {A : Type} (p : A -> bool) (l : list A) : list A :=
  match l with
  | x :: l' => if p x then x :: take_while p l' else []
  | [] => []
  end.

Fixpoint drop_while {A : Type} (p : A -> bool) (l : list A) : list A :=
  match l with
  | x :: l' => if p x then drop_while p l' else l
  | [] => []
  end.

(** The bins of [n] consecutive days from day [d]: each takes the rows
    before its right edge (the next midnight), in order. *)
Fixpoint daily_bins (d : Z) (n : nat) (sorted : TimeFrame) : list (Z * float) :=
  match n with
  | O => []
  | S n' =>
      let before_edge := fun r : Z * float => (fst r <? (d + 1) * seconds_per_day)%Z in
      (d, group_mean (map snd (take_while before_edge sorted)))
        :: daily_bins (d + 1) n' (drop_while before_edge sorted)
  end.

(** A [Timestamp] is a signed 64-bit count of nanoseconds since 1970-01-01,
    the least value standing for "not a time": in whole seconds, a time from
    1677-09-21 00:12:44 to 2262-04-11 23:47:16. *)
Definition timestamp_max : Z := (2 ^ 63 - 1)%Z.
Definition nanoseconds_per_second : Z := 1000000000.

Definition is_timestamp (seconds : Z) : bool :=
  ((- timestamp_max <=? seconds * nanoseconds_per_second)
   && (seconds * nanoseconds_per_second <=? timestamp_max))%Z.

(** [pd.to_datetime(index, unit='s')] on an index of whole numbers:
    [OutOfBoundsDatetime] when one of them is no time stamp. *)
Definition to_datetime (frame : TimeFrame) : Py.result TimeFrame :=
  if forallb (fun r => is_timestamp (fst r)) frame
  then Py.Ok frame
  else Py.Raise (Py.OutOfBoundsDatetime "cannot convert input with unit 's'").

(** [frame.resample('D').mean()]: one entry per calendar day from the day of
    the earliest row to the day of the latest one.  The edges of the bins,
    from the midnight before the earliest row to the midnight after the
    latest one, are time stamps themselves: [OutOfBoundsDatetime] when one of
    these two is not. *)
Definition resample_D_mean (frame : TimeFrame) : Py.result Series :=
  let sorted := sort_by_time frame in
  match sorted with
  | [] => Py.Ok {| index := []; values := [] |}
  | r :: _ =>
      let first := day_of (fst r) in
      let last := day_of (fst (List.last sorted r)) in
      if is_timestamp (first * seconds_per_day)
         && is_timestamp ((last + 1) * seconds_per_day)
      then
        let bins := daily_bins first (S (Z.to_nat (last - first))) sorted in
        Py.Ok {| index := map fst bins; values := map snd bins |}
      else Py.Raise (Py.OutOfBoundsDatetime "Out of bounds nanosecond timestamp")
  end.

(** *** Window functions *)

(** The window routines receive the values with the infinities replaced by
    NaN. *)
Definition prep_values (vals : list float) : list float :=
  map (fun v => if Np.isinf v then nan else v) vals.

(** **** Exponentially weighted variance ([ewmcov] of a series with itself,
    [adjust=True], [ignore_na=False], [bias=False]) *)

Record EwmState : Type := mkEwm {
  mean_x : float;
  cov : float;
  sum_wt : float;
  sum_wt2 : float;
  old_wt : float;
  nobs : nat
}.

Definition ewm_init (x0 : float) : EwmState :=
  let is_observation := negb (Np.isnan x0) in
  {| mean_x := if is_observation then x0 else nan;
     cov := 0; sum_wt := 1; sum_wt2 := 1; old_wt := 1;
     nobs := if is_observation then 1 else 0 |}.

Definition ewm_update (old_wt_factor new_wt : float) (st : EwmState)
    (cur : float) : EwmState :=
  let is_observation := negb (Np.isnan cur) in
  let nobs' := if is_observation then S (nobs st) else nobs st in
  if negb (Np.isnan (mean_x st)) then
    let sum_wt' := sum_wt st * old_wt_factor in
    let sum_wt2' := sum_wt2 st * (old_wt_factor * old_wt_factor) in
    let old_wt' := old_wt st * old_wt_factor in
    if is_observation then
      let old_mean := mean_x st in
      let mean :=
        if Np.ne old_mean cur
        then ((old_wt' * old_mean) + (new_wt * cur)) / (old_wt' + new_wt)
        else old_mean in
      let cov' :=
        ((old_wt' * (cov st + ((old_mean - mean) * (old_mean - mean))))
         + (new_wt * ((cur - mean) * (cur - mean)))) / (old_wt' + new_wt) in
      {| mean_x := mean; cov := cov';
         sum_wt := sum_wt' + new_wt;
         sum_wt2 := sum_wt2' + (new_wt * new_wt);
         old_wt := old_wt' + new_wt;
         nobs := nobs' |}
    else
      {| mean_x := mean_x st; cov := cov st;
         sum_wt := sum_wt'; sum_wt2 := sum_wt2'; old_wt := old_wt';
         nobs := nobs' |}
  else
    {| mean_x := if is_observation then cur else mean_x st;
       cov := cov st;
       sum_wt := sum_wt st; sum_wt2 := sum_wt2 st; old_wt := old_wt st;
       nobs := nobs' |}.

(** The value written at a position from the state reached there. *)
Definition ewm_emit (minp : nat) (st : EwmState) : float :=
  if (minp <=? nobs st)%nat then
    let numerator := sum_wt st * sum_wt st in
    let denominator := numerator - sum_wt2 st in
    if 0 <? denominator then (numerator / denominator) * cov st else nan
  else nan.

Fixpoint ewm_loop (old_wt_factor new_wt : float) (minp : nat)
    (st : EwmState) (vals : list float) : list float :=
  match vals with
  | [] => []
  | cur :: vals' =>
      let st' := ewm_update old_wt_factor new_wt st cur in
      ewm_emit minp st' :: ewm_loop old_wt_factor new_wt minp st' vals'
  end.

Definition ewmcov (minp : nat) (com : float) (vals : list float) : list float :=
  let alpha := 1 / (1 + com) in
  let old_wt_factor := 1 - alpha in
  let new_wt := 1 in
  match vals with
  | [] => []
  | x0 :: vals' => nan :: ewm_loop old_wt_factor new_wt minp (ewm_init x0) vals'
  end.

(** [zsqrt]: the square root, with 0 where the argument is negative. *)
Definition zsqrt (x : float) : float :=
  if x <? 0 then 0 else PrimFloat.sqrt x.

(** [s.ewm(adjust=True, span=span, min_periods=min_periods).std()]. *)
Definition ewm_std (span : float) (min_periods : nat) (s : Series) : Series :=
  let com := (span - 1) / 2 in
  with_values s
    (map zsqrt (ewmcov (Nat.max min_periods 1) com (prep_values (values s)))).

(** **** Rolling quantile *)

(** The bounds of the fixed trailing window that ends at position [i]:
    [start = max(0, i + 1 - window)], [end = i + 1]. *)
Definition window_bounds (window i : nat) : nat * nat :=
  ((i + 1 - window)%nat, (i + 1)%nat).

(** [l[s:e]]. *)
Definition slice {A : Type} (l : list A) (s e : nat) : list A :=
  firstn (e - s) (skipn s l).

(** The sorted store of the window's observations. *)
Fixpoint insert_sorted (x : float) (l : list float) : list float :=
  match l with
  | [] => [x]
  | y :: l' => if x <=? y then x :: l else y :: insert_sorted x l'
  end.

Definition sort_values (l : list float) : list float :=
  fold_right insert_sorted [] l.

(** [roll_quantile] at one position, with linear interpolation: NaN when
    the window holds fewer than [minp] observations. *)
Definition interpolate_linear (quantile : float) (sorted : list float) : float :=
  let n := List.length sorted in
  if (n =? 1)%nat then nth 0 sorted nan
  else
    let idx_with_fraction := quantile * Np.of_nat (n - 1) in
    match Np.trunc idx_with_fraction with
    | Some z =>
        let idx := Z.to_nat z in
        if idx_with_fraction =? Np.of_nat idx then nth idx sorted nan
        else
          let vlow := nth idx sorted nan in
          let vhigh := nth (idx + 1) sorted nan in
          vlow + (vhigh - vlow) * (idx_with_fraction - Np.of_nat idx)
    | None => nan
    end.

Definition window_quantile (minp : nat) (quantile : float)
    (w : list float) : float :=
  let obs := filter (fun v => negb (Np.isnan v)) w in
  if (minp <=? List.length obs)%nat
  then interpolate_linear quantile (sort_values obs)
  else nan.

Definition roll_quantile (window minp : nat) (quantile : float)
    (vals : list float) : list float :=
  map (fun i =>
         let '(s, e) := window_bounds window i in
         window_quantile minp quantile (slice vals s e))
      (seq 0 (List.length vals)).

(** [s.rolling(min_periods=minp, window=window).quantile(quantile=q)]. *)
Definition rolling_quantile (window minp : nat) (q : float) (s : Series) : Series :=
  with_values s (roll_quantile window minp q (prep_values (values s))).

(** *** Assignment and filling *)

(** [s.iloc[0] = x]: [IndexError] on an empty series. *)
Definition iloc0_set (s : Series) (x : float) : Py.result Series :=
  match values s with
  | [] => Py.Raise (Py.IndexError "index 0 is out of bounds for axis 0 with size 0")
  | _ :: vs => Py.Ok (with_values s (x :: vs))
  end.

(** [s.ffill()]: a NaN takes the last value seen that is not NaN; leading
    NaN stay. *)
Fixpoint ffill_from (last : float) (vals : list float) : list float :=
  match vals with
  | [] => []
  | v :: vals' =>
      let v' := if Np.isnan v then last else v in
      v' :: ffill_from v' vals'
  end.

Definition ffill (s : Series) : Series :=
  with_values s (ffill_from nan (values s)).

(** [s[s < c] = c]: boolean-mask assignment of a scalar. The mask is false
    at NaN, which is therefore kept. *)
Definition mask_lt_assign (c : float) (s : Series) : Series :=
  with_values s (map (fun v => if v <? c then c else v) (values s)).

(** [np.maximum(a, b)] on two series over the same index. *)
Fixpoint map2 {A B C : Type} (f : A -> B -> C) (l : list A) (l' : list B) : list C :=
  match l, l' with
  | x :: t, y :: t' => f x y :: map2 f t t'
  | _, _ => []
  end.

Definition np_maximum (a b : Series) : Series :=
  with_values a (map2 Np.maximum (values a) (values b)).

End Pd.

(** ** The numeric stages of the source *)

Open Scope result_scope.

(** [aggregate_to_day_based_prices], lines 60-66. *)
Definition aggregate_to_day_based_prices (raw_prices : list Dynamo.Item)
    : Py.result Pd.Series :=
  let df := Pd.DataFrame_from_dict raw_prices in
  series <- Pd.set_index df "UnixDateTime" ;;
  series <- Pd.to_datetime series ;;
  daily_summary <- Pd.resample_D_mean series ;;
  Py.Ok daily_summary.

(** [simple_ewvol_calc], lines 68-74. *)
Definition simple_ewvol_calc (daily_returns : Pd.Series) : Pd.Series :=
  let days := 35%float in
  let min_periods := 10%nat in
  let vol := Pd.ewm_std days min_periods daily_returns in
  vol.

(** [apply_min_vol], lines 92-95. *)
Definition vol_abs_min : float := 0.0000000001%float.

Definition apply_min_vol (vol : Pd.Series) : Pd.Series :=
  Pd.mask_lt_assign vol_abs_min vol.

(** [apply_vol_floor], lines 76-90, at the default arguments the handler
    uses. [vol_floor_reference] is [vol_min] as it stands after line 85. *)
Definition floor_min_quant : float := 0.05%float.
Definition floor_min_periods : nat := 100.
Definition floor_days : nat := 500.

Definition vol_floor_reference (vol : Pd.Series) : Py.result Pd.Series :=
  let vol_min :=
    Pd.rolling_quantile floor_days floor_min_periods floor_min_quant vol in
  vol_min <- Pd.iloc0_set vol_min 0%float ;;
  Py.Ok (Pd.ffill vol_min).

Definition apply_vol_floor (vol : Pd.Series) : Py.result Pd.Series :=
  vol_min <- vol_floor_reference vol ;;
  let vol_floored := Pd.np_maximum vol vol_min in
  Py.Ok vol_floored.

Close Scope result_scope.

(** ** The runtime: logger, store handle, clock *)

Module Runtime.

(** A call of [logger.error(msg, *args)]. *)
Record LogRecord : Type := mkLog {
  levelname : string;
  message : string;
  args : list Py.exn
}.

(** What a request leaves behind: the log and the queries sent to the
    store, oldest first. *)
Record World : Type := mkWorld {
  log : list LogRecord;
  queries : list Dynamo.Query
}.

(** What a request reads: the table behind [dynamodb.Table] and the value
    of [int(datetime.now().timestamp())]. *)
Record Env : Type := mkEnv {
  table : Dynamo.Table;
  now : Z
}.

(** Effectful code: from a world to an outcome and the world after it;
    [None] when the pagination loop was cut short by lack of fuel. *)
Definition M (A : Type) : Type := World -> option (Py.result A * World).

Definition ret {A : Type} (a : A) : M A := fun w => Some (Py.Ok a, w).

Definition raise {A : Type} (e : Py.exn) : M A := fun w => Some (Py.Raise e, w).

Definition lift {A : Type} (r : Py.result A) : M A := fun w => Some (r, w).

Definition bind {A B : Type} (m : M A) (k : A -> M B) : M B :=
  fun w =>
    match m w with
    | Some (Py.Ok a, w') => k a w'
    | Some (Py.Raise e, w') => Some (Py.Raise e, w')
    | None => None
    end.

(** [try: body  except Exception as e: handler(e)]. *)
Definition try_except {A : Type} (body : M A) (handler : Py.exn -> M A) : M A :=
  fun w =>
    match body w with
    | Some (Py.Raise e, w') => handler e w'
    | other => other
    end.

Definition out_of_fuel {A : Type} : M A := fun _ => None.

(** [logger.error(msg, e)]. *)
Definition logger_error (msg : string) (e : Py.exn) : M unit :=
  fun w =>
    Some (Py.Ok tt,
          {| log := log w ++ [mkLog "ERROR" msg [e]]; queries := queries w |}).

(** [table.query(...)]: the query is recorded and the store answers. *)
Definition table_query (env : Env) (q : Dynamo.Query) : M Dynamo.Response :=
  fun w =>
    Some (table env (List.length (queries w)) q,
          {| log := log w; queries := queries w ++ [q] |}).

End Runtime.

Declare Scope io_scope.
Delimit Scope io_scope with io.
Notation "x <- c ;; k" := (Runtime.bind c (fun x => k))
  (at level 61, c at next level, right associativity) : io_scope.
Notation "c ;;; k" := (Runtime.bind c (fun _ => k))
  (at level 61, right associativity) : io_scope.

(** ** Retrieval and the request handler *)

Open Scope io_scope.

Definition retrieval_error_message : string :=
  "Error occurred while retrieving prices from DynamoDB".

(** The key condition and projection of lines 41-44 and 47-51. *)
Definition price_query (table_name : string) (instrument : Py.json)
    (start_time end_time : Z) (start_key : option Dynamo.Key) : Dynamo.Query :=
  {| Dynamo.TableName := table_name;
     Dynamo.Instrument := instrument;
     Dynamo.between_lo := start_time;
     Dynamo.between_hi := end_time;
     Dynamo.ProjectionExpression := "UnixDateTime,Price";
     Dynamo.ExclusiveStartKey := start_key |}.

(** The loop of lines 46-52: [while 'LastEvaluatedKey' in response]. *)
Fixpoint query_more_pages (fuel : nat) (env : Runtime.Env)
    (query : option Dynamo.Key -> Dynamo.Query)
    (items : list Dynamo.Item) (response : Dynamo.Response)
    : Runtime.M (list Dynamo.Item) :=
  match Dynamo.LastEvaluatedKey response with
  | None => Runtime.ret items
  | Some key =>
      match fuel with
      | O => Runtime.out_of_fuel
      | S fuel' =>
          response' <- Runtime.table_query env (query (Some key)) ;;
          page <- Runtime.lift (Dynamo.get_Items response') ;;
          query_more_pages fuel' env query (items ++ page) response'
      end
  end.

(** [retrieve_prices_from_dynamodb], lines 35-58. *)
Definition retrieve_prices_from_dynamodb (fuel : nat) (env : Runtime.Env)
    (instrument : Py.json) (start_time : Z) : Runtime.M (list Dynamo.Item) :=
  let table_name := "multiple_prices"%string in
  let end_time := Runtime.now env in
  let query := price_query table_name instrument start_time end_time in
  Runtime.try_except
    (let items := [] in
     response <- Runtime.table_query env (query None) ;;
     page <- Runtime.lift (Dynamo.get_Items response) ;;
     query_more_pages fuel env query (items ++ page) response)
    (fun e =>
       Runtime.logger_error retrieval_error_message e ;;;
       Runtime.raise (Py.ValueError retrieval_error_message)).

(** The success response of the handler. *)
Record Response : Type := mkResponse {
  rule : string;
  instrument : Py.json
}.

(** [robust_volatility_calculation], lines 16-33; [data] is the parsed
    request body. *)
Definition robust_volatility_calculation (fuel : nat) (env : Runtime.Env)
    (data : Py.json) : Runtime.M Response :=
  instrument <- Runtime.lift (Py.getitem data "instrument") ;;
  start_time_field <- Runtime.lift (Py.getitem data "start_time") ;;
  start_time <- Runtime.lift (Py.int start_time_field) ;;
  raw_prices <- retrieve_prices_from_dynamodb fuel env instrument start_time ;;
  prices <- Runtime.lift (aggregate_to_day_based_prices raw_prices) ;;
  let volatility := simple_ewvol_calc prices in
  let cutted_vol := apply_min_vol volatility in
  floored_volatility <- Runtime.lift (apply_vol_floor cutted_vol) ;;
  Runtime.ret {| rule := "Robust Volatility Series"; instrument := instrument |}.

Close Scope io_scope.

(** ** Vocabulary of the statements *)

(** A value is present, or is "no data". *)
Definition has_value (x : float) : Prop := Np.isnan x = false.
Definition no_data (x : float) : Prop := Np.isnan x = true.
Definition non_negative (x : float) : Prop := PrimFloat.leb 0 x = true.

(** The order of doubles as a relation. *)
Definition fle (a b : float) : Prop := PrimFloat.leb a b = true.

(** The value MinimumClamp writes at a position. *)
Definition clamp (v : float) : float :=
  if PrimFloat.ltb v vol_abs_min then vol_abs_min else v.

(** What the window routines count as missing: NaN, and the infinities
    they turn into NaN. *)
Definition missing (v : float) : bool := Np.isnan v || Np.isinf v.

Definition observations (w : list float) : list float :=
  filter (fun v => negb (missing v)) w.

Definition count_obs (l : list float) : nat :=
  List.length (filter (fun v => negb (Np.isnan v)) l).

(** The number of valid points accumulated up to and including position
    [i]. *)
Definition accumulated (vals : list float) (i : nat) : nat :=
  List.length (observations (firstn (S i) vals)).

(** The last [n] entries of a list (all of it when it is shorter). *)
Definition lastn {A : Type} (n : nat) (l : list A) : list A :=
  skipn (List.length l - n) l.

(** The trailing window of a day: the last [width] entries up to and
    including position [i], fewer at the start. *)
Definition trailing_window (width : nat) (vals : list float) (i : nat)
    : list float :=
  lastn width (firstn (S i) vals).

(** The 5th percentile of [n] order statistics by linear interpolation: the
    position is [0.05 (n - 1)], between the statistics of rank
    [(n - 1) / 20] and the next one. *)
Definition percentile5_linear (sorted : list float) : float :=
  let n := List.length sorted in
  let lo := ((n - 1) / 20)%nat in
  if ((n - 1) mod 20 =? 0)%nat then nth lo sorted PrimFloat.nan
  else
    let vlow := nth lo sorted PrimFloat.nan in
    let vhigh := nth (lo + 1) sorted PrimFloat.nan in
    (vlow + (vhigh - vlow) * (0.05 * Np.of_nat (n - 1) - Np.of_nat lo))%float.

(** The observations of the 500-day trailing window of a day. *)
Definition window_observations (vals : list float) (i : nat) : list float :=
  observations (trailing_window 500 vals i).

(** The reference of a day as the specification words it. *)
Definition trailing_percentile (vals : list float) (i : nat) : float :=
  let obs := window_observations vals i in
  if (100 <=? List.length obs)%nat
  then percentile5_linear (Pd.sort_values obs)
  else PrimFloat.nan.

(** The raw reference: [vol_min] as line 78 computes it. *)
Definition raw_reference (vol : Pd.Series) : list float :=
  Pd.values
    (Pd.rolling_quantile floor_days floor_min_periods floor_min_quant vol).

(** The rank computation of [roll_quantile] checked against integer
    arithmetic for a window of [n] observations. *)
Definition rank_agrees (n : nat) : bool :=
  let idx_with_fraction := (floor_min_quant * Np.of_nat (n - 1))%float in
  match Np.trunc idx_with_fraction with
  | Some z =>
      (z =? Z.of_nat ((n - 1) / 20))%Z &&
      Bool.eqb (PrimFloat.eqb idx_with_fraction (Np.of_nat (Z.to_nat z)))
               ((n - 1) mod 20 =? 0)%nat
  | None => false
  end.

(** The floored output is above the clamped input and the reference at
    position [i]. *)
Definition floored_above (vol ref out : Pd.Series) (i : nat) : Prop :=
  forall v r o : float,
    nth_error (Pd.values vol) i = Some v ->
    nth_error (Pd.values ref) i = Some r ->
    nth_error (Pd.values out) i = Some o ->
    Np.ge o v = true /\ Np.ge o r = true.

(** A double without a negative sign: NaN, a zero, or positive. *)
Definition sign_free (y : spec_float) : Prop :=
  match y with
  | S754_nan | S754_zero _ => True
  | S754_infinity s | S754_finite s _ _ => s = false
  end.

(** A time stamp whose calendar day lies wholly inside the range of
    [Timestamp]: from 1677-09-22 00:00:00 to 2262-04-10 23:59:59. *)
Definition in_whole_days (t : Z) : Prop := (-9223286400 <= t < 9223286400)%Z.

Definition within_range (raw : list Dynamo.Item) : Prop :=
  Forall (fun it => in_whole_days (Dynamo.UnixDateTime it)) raw.

(** The rows of the frame built from the raw observations. *)
Definition observation_rows (raw : list Dynamo.Item) : Pd.TimeFrame :=
  map (fun it => (Dynamo.UnixDateTime it, Dynamo.Price it)) raw.

Definition row_day (r : Z * float) : Z := Pd.day_of (fst r).

Definition on_day (d : Z) (r : Z * float) : bool := (Pd.day_of (fst r) =? d)%Z.

Definition time_le (a b : Z * float) : Prop := (fst a <= fst b)%Z.

Definition before_edge (d : Z) (r : Z * float) : bool :=
  (fst r <? (d + 1) * Pd.seconds_per_day)%Z.

Definition from_day (d : Z) (r : Z * float) : Prop := (d <= Pd.day_of (fst r))%Z.

(** The prices observed on day [d], in time order. *)
Definition day_prices (raw : list Dynamo.Item) (d : Z) : list float :=
  map snd (Pd.sort_by_time (filter (on_day d) (observation_rows raw))).

(** The first and the last observed day. *)
Definition first_day (raw : list Dynamo.Item) : Z :=
  match observation_rows raw with
  | [] => 0%Z
  | r :: rest =>
      fold_left (fun m r' => Z.min m (row_day r')) rest (row_day r)
  end.

Definition last_day (raw : list Dynamo.Item) : Z :=
  match observation_rows raw with
  | [] => 0%Z
  | r :: rest =>
      fold_left (fun m r' => Z.max m (row_day r')) rest (row_day r)
  end.

(** [n] consecutive days from day [d]. *)
Definition calendar (d : Z) (n : nat) : list Z :=
  map (fun k => (d + Z.of_nat k)%Z) (seq 0 n).

(** A character that is a decimal digit. *)
Definition is_digit (c : ascii) : Prop := exists d, Py.digit_value c = Some d.

(** Reading one more digit after the number [acc]. *)
Definition read_digit (acc : Z) (c : ascii) : Z :=
  (10 * acc + match Py.digit_value c with Some d => d | None => 0 end)%Z.

(** How a query fails: the store raises, or its response has no ['Items']. *)
Definition query_failure (env : Runtime.Env) (n : nat) (q : Dynamo.Query)
    : option Py.exn :=
  match Runtime.table env n q with
  | Py.Raise e => Some e
  | Py.Ok r =>
      match Dynamo.Items r with
      | None => Some (Py.KeyError "Items")
      | Some _ => None
      end
  end.

(** [fails_after env query n k m cause]: when the store has answered [n]
    queries and the next one starts at key [k], [m] more pages are read
    and the query after them fails with [cause]. *)
Inductive fails_after (env : Runtime.Env)
    (query : option Dynamo.Key -> Dynamo.Query)
    : nat -> option Dynamo.Key -> nat -> Py.exn -> Prop :=
| fails_now (n : nat) (k : option Dynamo.Key) (cause : Py.exn) :
    query_failure env n (query k) = Some cause ->
    fails_after env query n k 0 cause
| fails_later (n : nat) (k : option Dynamo.Key) (page : list Dynamo.Item)
    (key : Dynamo.Key) (m : nat) (cause : Py.exn) :
    Runtime.table env n (query k)
      = Py.Ok {| Dynamo.Items := Some page; Dynamo.LastEvaluatedKey := Some key |} ->
    fails_after env query (S n) (Some key) m cause ->
    fails_after env query n k (S m) cause.

(** The handler from line 21 on, once the request was read. *)
Definition serve (fuel : nat) (env : Runtime.Env) (instrument : Py.json)
    (start_time : Z) : Runtime.M Response :=
  Runtime.bind (retrieve_prices_from_dynamodb fuel env instrument start_time)
    (fun raw_prices =>
  Runtime.bind (Runtime.lift (aggregate_to_day_based_prices raw_prices))
    (fun prices =>
  Runtime.bind (Runtime.lift
                  (apply_vol_floor (apply_min_vol (simple_ewvol_calc prices))))
    (fun _ =>
  Runtime.ret {| rule := "Robust Volatility Series"; instrument := instrument |}))).

Definition error_record (cause : Py.exn) : Runtime.LogRecord :=
  Runtime.mkLog "ERROR" retrieval_error_message [cause].


(** ** Scenarios *)

(** Two observations on one day and one on the next. *)
Definition scenario_A : list Dynamo.Item :=
  [ Dynamo.mkItem 1700000000 100; Dynamo.mkItem 1700003600 102;
    Dynamo.mkItem 1700086400 101 ].

Definition scenario_B : list Dynamo.Item :=
  [ Dynamo.mkItem 1700000000 7; Dynamo.mkItem 1700400000 9 ].

(** A series with a single day and no data on it. *)
Definition only_no_data : Pd.Series :=
  {| Pd.index := [0%Z]; Pd.values := [PrimFloat.nan] |}.

Definition empty_series : Pd.Series := {| Pd.index := []; Pd.values := [] |}.

(** Twelve valid days. *)
Definition twelve_days : Pd.Series :=
  {| Pd.index := map Z.of_nat (seq 0 12);
     Pd.values := map Np.of_nat (seq 1 12) |}.


(** 101 valid days in decreasing order. *)
Definition hundred_and_one_days : Pd.Series :=
  {| Pd.index := map Z.of_nat (seq 0 101);
     Pd.values := map Np.of_nat (rev (seq 0 101)) |}.

Definition world0 : Runtime.World := {| Runtime.log := []; Runtime.queries := [] |}.

(** A store that answers every query with one last page. *)
Definition one_page (items : list Dynamo.Item) : Dynamo.Table :=
  fun _ _ =>
    Py.Ok {| Dynamo.Items := Some items; Dynamo.LastEvaluatedKey := None |}.

(** A store whose first page announces a second one and then fails. *)
Definition throttled : Py.exn :=
  Py.mkExn "ClientError" "ProvisionedThroughputExceededException".

Definition flaky_table : Dynamo.Table :=
  fun n _ =>
    match n with
    | O => Py.Ok {| Dynamo.Items := Some scenario_A;
                    Dynamo.LastEvaluatedKey := Some (Py.JInt 1) |}
    | S _ => Py.Raise throttled
    end.

Definition env_A : Runtime.Env :=
  {| Runtime.table := one_page scenario_A; Runtime.now := 1700100000 |}.
Definition env_B : Runtime.Env :=
  {| Runtime.table := one_page scenario_B; Runtime.now := 1700500000 |}.
Definition env_flaky : Runtime.Env :=
  {| Runtime.table := flaky_table; Runtime.now := 1700100000 |}.

Definition request (start_time : Py.json) : Py.json :=
  Py.JObj [("instrument"%string, Py.JStr "CORN"); ("start_time"%string, start_time)].

(** ** Vocabulary of the further properties *)

(** The place of a double that is not NaN in the order: its class, then its
    exponent and mantissa, signed. *)
Definition SFkey (x : spec_float) : Z * (Z * Z) :=
  match x with
  | S754_infinity true => ((-2)%Z, (0%Z, 0%Z))
  | S754_finite true m e => ((-1)%Z, ((- e)%Z, Zneg m))
  | S754_zero _ | S754_nan => (0%Z, (0%Z, 0%Z))
  | S754_finite false m e => (1%Z, (e, Zpos m))
  | S754_infinity false => (2%Z, (0%Z, 0%Z))
  end.

Definition key_le (a b : Z * (Z * Z)) : Prop :=
  (fst a < fst b)%Z \/
  (fst a = fst b /\
   ((fst (snd a) < fst (snd b))%Z \/
    (fst (snd a) = fst (snd b) /\ (snd (snd a) <= snd (snd b))%Z))).

(** A value of a clamped series: "no data" or at least the minimum. *)
Definition at_least_min (o : float) : Prop := no_data o \/ fle vol_abs_min o.

(** [reads_pages env query n k pages qs]: when the store has answered [n]
    queries, the queries [qs], the first from key [k] and each next one from
    the key the response before it announced, are answered with the pages
    [pages], the last of which announces no further page. *)
Inductive reads_pages (env : Runtime.Env)
    (query : option Dynamo.Key -> Dynamo.Query)
    : nat -> option Dynamo.Key -> list (list Dynamo.Item) -> list Dynamo.Query -> Prop :=
| reads_last (n : nat) (k : option Dynamo.Key) (page : list Dynamo.Item) :
    Runtime.table env n (query k)
      = Py.Ok {| Dynamo.Items := Some page; Dynamo.LastEvaluatedKey := None |} ->
    reads_pages env query n k [page] [query k]
| reads_more (n : nat) (k : option Dynamo.Key) (page : list Dynamo.Item)
    (key : Dynamo.Key) (pages : list (list Dynamo.Item)) (qs : list Dynamo.Query) :
    Runtime.table env n (query k)
      = Py.Ok {| Dynamo.Items := Some page; Dynamo.LastEvaluatedKey := Some key |} ->
    reads_pages env query (S n) (Some key) pages qs ->
    reads_pages env query n k (page :: pages) (query k :: qs).

(** A query of the request for [instrument] from [start_time] to the clock
    of [env]. *)
Definition scoped (env : Runtime.Env) (instrument : Py.json) (start_time : Z)
    (q : Dynamo.Query) : Prop :=
  exists k, q = price_query "multiple_prices" instrument start_time (Runtime.now env) k.

(** A store that announces another page for ever. *)
Definition endless (env : Runtime.Env) : Prop :=
  forall n q, exists page key,
    Runtime.table env n q
      = Py.Ok {| Dynamo.Items := Some page; Dynamo.LastEvaluatedKey := Some key |}.

Definition endless_table : Dynamo.Table :=
  fun n _ =>
    Py.Ok {| Dynamo.Items := Some scenario_A;
             Dynamo.LastEvaluatedKey := Some (Py.JInt (Z.of_nat n)) |}.

Definition env_endless : Runtime.Env :=
  {| Runtime.table := endless_table; Runtime.now := 1700100000 |}.

(** A store with two pages. *)
Definition two_page_table : Dynamo.Table :=
  fun n _ =>
    match n with
    | O => Py.Ok {| Dynamo.Items := Some scenario_A;
                    Dynamo.LastEvaluatedKey := Some (Py.JInt 1) |}
    | S _ => Py.Ok {| Dynamo.Items := Some scenario_B;
                      Dynamo.LastEvaluatedKey := None |}
    end.

Definition env_two_pages : Runtime.Env :=
  {| Runtime.table := two_page_table; Runtime.now := 1700100000 |}.

Definition corn_query : option Dynamo.Key -> Dynamo.Query :=
  price_query "multiple_prices" (Py.JStr "CORN") 123 1700100000.

(** [s.iloc[:k]]: the first [k] days of a series. *)
Definition first_days (k : nat) (s : Pd.Series) : Pd.Series :=
  {| Pd.index := firstn k (Pd.index s); Pd.values := firstn k (Pd.values s) |}.


(** ** Vocabulary of the estimator *)
















(** ** Vocabulary of the aggregation *)

(** The mean of the prices of a day: their sum divided by their number, each
    price counting once.  The sum is accumulated in double arithmetic, with a
    running compensation of the rounding error; NaN prices do not count, and
    a day without price has no mean. *)
Fixpoint compensated_sum (sum compensation : float) (prices : list float) : float :=
  match prices with
  | [] => sum
  | price :: rest =>
      let y := (price - compensation)%float in
      let t := (sum + y)%float in
      let c := ((t - sum) - y)%float in
      compensated_sum t (if Np.isnan c then 0%float else c) rest
  end.

Definition arithmetic_mean (prices : list float) : float :=
  let observed := filter (fun p => negb (Np.isnan p)) prices in
  match observed with
  | [] => PrimFloat.nan
  | _ :: _ =>
      (compensated_sum 0 0 observed / Np.of_nat (List.length observed))%float
  end.

(** The double of a whole number. *)
Definition whole (z : Z) : spec_float := binary_normalize prec emax z 0 false.

(** An observation after the last time stamp pandas can hold. *)
Definition year_2286 : list Dynamo.Item := [ Dynamo.mkItem 10000000000 100 ].

(** ** Vocabulary of the floor and of the request *)

(** 99 valid days and one day with an infinite volatility. *)
Definition hundred_with_infinity : Pd.Series :=
  {| Pd.index := map Z.of_nat (seq 0 100);
     Pd.values := map Np.of_nat (seq 1 99) ++ [PrimFloat.infinity] |}.

(** The values of a window that are not NaN. *)
Definition not_nan (w : list float) : list float :=
  filter (fun v => negb (Np.isnan v)) w.

(** The white space [int()] skips around a numeral, among the code points
    below 256: tab, line feed, vertical tab, form feed, carriage return,
    space, NEL and the no-break space. *)
Definition white_space (c : ascii) : Prop :=
  In (nat_of_ascii c) [9; 10; 11; 12; 13; 32; 133; 160].

(** A character that [int()] takes for nothing: neither white space, nor a
    sign, nor a digit. *)
Definition stray (c : ascii) : Prop :=
  ~ white_space c /\ ~ is_digit c /\ c <> "+"%char /\ c <> "-"%char.

(** A string of decimal digits. *)
Definition all_digits (s : string) : bool :=
  forallb (fun c => match Py.digit_value c with Some _ => true | None => false end)
          (list_ascii_of_string s).

(** A numeral of 4301 digits: 1 followed by 4300 zeros. *)
Definition long_numeral : string :=
  string_of_list_ascii ("1"%char :: repeat "0"%char 4300).


(* ================================================================= *)
(** * Part II: properties *)
(* ================================================================= *)

(** ** Order facts on binary64 values *)

Module FloatOrder.

Lemma isnan_spec (x : float) :
  Np.isnan x = true <-> Prim2SF x = S754_nan.
Proof.
  unfold Np.isnan, PrimFloat.is_nan.
  rewrite FloatAxioms.eqb_spec. unfold SFeqb.
  destruct (Prim2SF x) as [s|s| |s m e]; simpl.
  - split; discriminate.
  - destruct s; simpl; split; discriminate.
  - split; reflexivity.
  - destruct s; rewrite Z.compare_refl, Pos.compare_cont_refl; simpl;
      split; discriminate.
Qed.

Lemma isnan_eq (x : float) : Np.isnan x = true <-> x = PrimFloat.nan.
Proof.
  rewrite isnan_spec. split; intros H.
  - apply Prim2SF_inj. rewrite H. reflexivity.
  - subst x. reflexivity.
Qed.

(** Swapping the arguments of the comparison swaps its result. *)
Lemma SFcompare_swap (x y : spec_float) :
  SFcompare y x = option_map CompOpp (SFcompare x y).
Proof.
  destruct x as [sx|sx| |sx mx ex], y as [sy|sy| |sy my ey]; simpl;
    try reflexivity;
    try (destruct sx; reflexivity);
    try (destruct sy; reflexivity);
    try (destruct sx, sy; reflexivity).
  destruct sx, sy; simpl; try reflexivity;
    rewrite (Z.compare_antisym ey ex);
    destruct (ey ?= ex)%Z; simpl; try reflexivity;
    try rewrite CompOpp_involutive; f_equal.
  - exact (Pos.compare_cont_antisym my mx Eq).
  - exact (ZC4 my mx).
Qed.

Lemma leb_refl (x : float) : Np.isnan x = false -> PrimFloat.leb x x = true.
Proof.
  unfold Np.isnan, PrimFloat.is_nan. intros H.
  apply negb_false_iff in H. rewrite FloatAxioms.eqb_spec in H.
  rewrite FloatAxioms.leb_spec. unfold SFeqb, SFleb in *.
  destruct (SFcompare (Prim2SF x) (Prim2SF x)) as [[ | | ]|];
    try discriminate; reflexivity.
Qed.

Lemma compare_not_nan (x y : float) :
  Np.isnan x = false -> Np.isnan y = false ->
  exists c, SFcompare (Prim2SF x) (Prim2SF y) = Some c.
Proof.
  intros Hx Hy.
  assert (Prim2SF x <> S754_nan) as Nx
    by (intros E; apply isnan_spec in E; congruence).
  assert (Prim2SF y <> S754_nan) as Ny
    by (intros E; apply isnan_spec in E; congruence).
  destruct (Prim2SF x) as [sx|sx| |sx mx ex], (Prim2SF y) as [sy|sy| |sy my ey];
    simpl; try congruence; eauto.
Qed.

(** The order is total away from NaN. *)
Lemma leb_total (x y : float) :
  Np.isnan x = false -> Np.isnan y = false ->
  PrimFloat.leb x y = false -> PrimFloat.leb y x = true.
Proof.
  intros Hx Hy. rewrite !FloatAxioms.leb_spec. unfold SFleb.
  rewrite (SFcompare_swap (Prim2SF x) (Prim2SF y)).
  destruct (compare_not_nan x y Hx Hy) as [c ->].
  destruct c; simpl; congruence.
Qed.

Lemma leb_not_nan (x y : float) :
  PrimFloat.leb x y = true -> Np.isnan x = false /\ Np.isnan y = false.
Proof.
  rewrite FloatAxioms.leb_spec. unfold SFleb. intros H.
  split; apply not_true_is_false; intros E; apply isnan_spec in E;
    rewrite E in H; simpl in H; try discriminate.
  destruct (Prim2SF x); discriminate.
Qed.

Lemma leb_ltb_false (x y : float) :
  PrimFloat.leb x y = true -> PrimFloat.ltb y x = false.
Proof.
  rewrite FloatAxioms.leb_spec, FloatAxioms.ltb_spec. unfold SFleb, SFltb.
  rewrite (SFcompare_swap (Prim2SF x) (Prim2SF y)).
  destruct (SFcompare (Prim2SF x) (Prim2SF y)) as [[ | | ]|]; simpl;
    congruence.
Qed.

Lemma ltb_nan_l (y : float) : PrimFloat.ltb PrimFloat.nan y = false.
Proof. rewrite FloatAxioms.ltb_spec. reflexivity. Qed.

End FloatOrder.

(** ** Lists *)

Module ListFacts.

Lemma map2_length {A B C : Type} (f : A -> B -> C) (l : list A) (l' : list B) :
  List.length (Pd.map2 f l l') = Nat.min (List.length l) (List.length l').
Proof.
  revert l'; induction l as [|x l IH]; intros [|y l']; simpl; auto.
Qed.

Lemma map2_nth_error {A B C : Type} (f : A -> B -> C) (l : list A) (l' : list B)
    (i : nat) (x : A) (y : B) :
  nth_error l i = Some x -> nth_error l' i = Some y ->
  nth_error (Pd.map2 f l l') i = Some (f x y).
Proof.
  revert l' i; induction l as [|a l IH]; intros [|b l'] [|i]; simpl;
    try discriminate; intros Hx Hy.
  - congruence.
  - now apply IH.
Qed.

Lemma nth_error_in_range {A : Type} (l : list A) (i : nat) :
  i < List.length l -> exists x, nth_error l i = Some x.
Proof.
  intros H. destruct (nth_error l i) eqn:E; eauto.
  apply nth_error_None in E. lia.
Qed.

End ListFacts.


(** ** MinimumClamp *)

Module Clamp.

Lemma values_apply_min_vol (vol : Pd.Series) :
  Pd.values (apply_min_vol vol) = map clamp (Pd.values vol).
Proof. reflexivity. Qed.

Lemma clamp_below (v : float) :
  PrimFloat.ltb v vol_abs_min = true -> clamp v = vol_abs_min.
Proof. unfold clamp. now intros ->. Qed.

Lemma clamp_above (v : float) :
  PrimFloat.leb vol_abs_min v = true -> clamp v = v.
Proof.
  intros H. unfold clamp. now rewrite (FloatOrder.leb_ltb_false _ _ H).
Qed.

Lemma clamp_nan (v : float) : Np.isnan v = true -> clamp v = v.
Proof.
  intros H. apply FloatOrder.isnan_eq in H. subst v.
  unfold clamp. now rewrite FloatOrder.ltb_nan_l.
Qed.

Lemma clamp_not_below (v : float) :
  PrimFloat.ltb (clamp v) vol_abs_min = false.
Proof.
  unfold clamp. destruct (PrimFloat.ltb v vol_abs_min) eqn:E.
  - reflexivity.
  - exact E.
Qed.

End Clamp.


(** ** QuantileFloor *)

Module Floor.

Lemma ffill_from_length (last : float) (l : list float) :
  List.length (Pd.ffill_from last l) = List.length l.
Proof. revert last; induction l; intros; simpl; auto. Qed.

Lemma ffill_from_has_value (last : float) (l : list float) :
  has_value last -> Forall has_value (Pd.ffill_from last l).
Proof.
  revert last; induction l as [|v l IH]; intros last H; simpl; constructor.
  - destruct (Np.isnan v) eqn:E; assumption.
  - apply IH. destruct (Np.isnan v) eqn:E; assumption.
Qed.

Lemma roll_quantile_length (window minp : nat) (q : float) (vals : list float) :
  List.length (Pd.roll_quantile window minp q vals) = List.length vals.
Proof. unfold Pd.roll_quantile. now rewrite length_map, length_seq. Qed.

Lemma prep_values_length (vals : list float) :
  List.length (Pd.prep_values vals) = List.length vals.
Proof. apply length_map. Qed.

Lemma raw_reference_length (vol : Pd.Series) :
  List.length (raw_reference vol) = List.length (Pd.values vol).
Proof.
  unfold raw_reference, Pd.rolling_quantile. simpl.
  now rewrite roll_quantile_length, prep_values_length.
Qed.

(** On a series that is not empty the reference is 0 followed by the
    forward fill of the rest of the raw reference. *)
Lemma reference_shape (vol : Pd.Series) :
  Pd.values vol <> [] ->
  vol_floor_reference vol =
    Py.Ok (Pd.with_values vol
             (0%float :: Pd.ffill_from 0%float (tl (raw_reference vol)))).
Proof.
  intros Hne.
  pose proof (raw_reference_length vol) as Hlen.
  unfold vol_floor_reference, Pd.iloc0_set.
  fold (raw_reference vol) in *.
  change (Pd.values (Pd.rolling_quantile floor_days floor_min_periods
                       floor_min_quant vol)) with (raw_reference vol).
  destruct (raw_reference vol) as [|q0 qs] eqn:E.
  - destruct (Pd.values vol); [congruence|discriminate].
  - reflexivity.
Qed.

Lemma reference_empty (vol : Pd.Series) :
  Pd.values vol = [] ->
  vol_floor_reference vol =
    Py.Raise (Py.IndexError "index 0 is out of bounds for axis 0 with size 0").
Proof.
  intros He. pose proof (raw_reference_length vol) as Hlen.
  unfold vol_floor_reference, Pd.iloc0_set.
  change (Pd.values (Pd.rolling_quantile floor_days floor_min_periods
                       floor_min_quant vol)) with (raw_reference vol).
  destruct (raw_reference vol); [reflexivity|].
  rewrite He in Hlen. discriminate.
Qed.

Lemma reference_values_length (vol ref : Pd.Series) :
  vol_floor_reference vol = Py.Ok ref ->
  List.length (Pd.values ref) = List.length (Pd.values vol).
Proof.
  intros H. destruct (Pd.values vol) as [|v vs] eqn:E.
  - rewrite (reference_empty vol E) in H. discriminate.
  - rewrite reference_shape in H by congruence. inversion H; subst ref.
    simpl. rewrite ffill_from_length.
    pose proof (raw_reference_length vol) as Hlen. rewrite E in Hlen.
    destruct (raw_reference vol); simpl in *; lia.
Qed.

Lemma apply_vol_floor_unfold (vol ref : Pd.Series) :
  vol_floor_reference vol = Py.Ok ref ->
  apply_vol_floor vol = Py.Ok (Pd.np_maximum vol ref).
Proof. intros H. unfold apply_vol_floor. now rewrite H. Qed.

Lemma maximum_nan_l (a b : float) : Np.isnan a = true -> Np.maximum a b = a.
Proof. intros H. unfold Np.maximum. rewrite H, orb_true_r. reflexivity. Qed.

(** The maximum of two values that are not NaN is above both. *)
Lemma maximum_above (a b : float) :
  has_value a -> has_value b ->
  Np.ge (Np.maximum a b) a = true /\ Np.ge (Np.maximum a b) b = true.
Proof.
  unfold has_value, Np.maximum, Np.ge. intros Ha Hb.
  rewrite Ha, orb_false_r.
  destruct (PrimFloat.leb b a) eqn:E.
  - split; [now apply FloatOrder.leb_refl|assumption].
  - split; [now apply FloatOrder.leb_total|now apply FloatOrder.leb_refl].
Qed.

End Floor.

(** ** DailyAggregator *)

Module Aggregation.

Lemma insert_by_time_perm (r : Z * float) (l : Pd.TimeFrame) :
  Permutation (r :: l) (Pd.insert_by_time r l).
Proof.
  induction l as [|r' l IH]; simpl; [reflexivity|].
  destruct (fst r <=? fst r')%Z; [reflexivity|].
  rewrite perm_swap. now constructor.
Qed.

Lemma sort_by_time_perm (l : Pd.TimeFrame) : Permutation l (Pd.sort_by_time l).
Proof.
  induction l as [|r l IH]; simpl; [constructor|].
  rewrite <- insert_by_time_perm. now constructor.
Qed.

Lemma insert_by_time_sorted (r : Z * float) (l : Pd.TimeFrame) :
  StronglySorted time_le l -> StronglySorted time_le (Pd.insert_by_time r l).
Proof.
  induction 1 as [|r' l Hs IH Hall]; simpl.
  - repeat constructor.
  - destruct (fst r <=? fst r')%Z eqn:E.
    + apply Z.leb_le in E. constructor; [now constructor|].
      constructor; [exact E|].
      eapply Forall_impl; [|exact Hall]. unfold time_le. intros; lia.
    + apply Z.leb_gt in E. constructor; [exact IH|].
      rewrite <- insert_by_time_perm. constructor; [unfold time_le; lia|exact Hall].
Qed.

Lemma sort_by_time_sorted (l : Pd.TimeFrame) :
  StronglySorted time_le (Pd.sort_by_time l).
Proof.
  induction l; simpl; [constructor|now apply insert_by_time_sorted].
Qed.

(** Inserting a row that is before all the others puts it in front. *)
Lemma insert_by_time_front (r : Z * float) (l : Pd.TimeFrame) :
  Forall (time_le r) l -> Pd.insert_by_time r l = r :: l.
Proof.
  destruct 1 as [|r' l H _]; simpl; [reflexivity|].
  unfold time_le in H. apply Z.leb_le in H. now rewrite H.
Qed.

Lemma filter_insert_by_time (p : Z * float -> bool) (r : Z * float)
    (l : Pd.TimeFrame) :
  StronglySorted time_le l ->
  filter p (Pd.insert_by_time r l) =
    if p r then Pd.insert_by_time r (filter p l) else filter p l.
Proof.
  induction 1 as [|r' l Hs IH Hall]; simpl.
  - destruct (p r); reflexivity.
  - destruct (fst r <=? fst r')%Z eqn:E; simpl.
    + destruct (p r) eqn:Pr; [|reflexivity].
      destruct (p r') eqn:Pr'; simpl; [now rewrite E|].
      rewrite insert_by_time_front; [reflexivity|].
      apply Z.leb_le in E. apply incl_Forall with (l1 := l).
      * intros x Hx. apply filter_In in Hx. tauto.
      * eapply Forall_impl; [|exact Hall]. unfold time_le. intros; lia.
    + rewrite IH. destruct (p r'), (p r); simpl; try rewrite E; reflexivity.
Qed.

(** Sorting and selecting the rows of a day commute. *)
Lemma filter_sort_by_time (p : Z * float -> bool) (l : Pd.TimeFrame) :
  filter p (Pd.sort_by_time l) = Pd.sort_by_time (filter p l).
Proof.
  induction l as [|r l IH]; simpl; [reflexivity|].
  rewrite filter_insert_by_time by apply sort_by_time_sorted.
  rewrite IH. destruct (p r); reflexivity.
Qed.

Lemma take_drop_while {A : Type} (p : A -> bool) (l : list A) :
  Pd.take_while p l ++ Pd.drop_while p l = l.
Proof.
  induction l as [|x l IH]; simpl; [reflexivity|].
  destruct (p x); simpl; [now rewrite IH|reflexivity].
Qed.

Lemma take_while_all {A : Type} (p : A -> bool) (l : list A) :
  Forall (fun x => p x = true) (Pd.take_while p l).
Proof.
  induction l as [|x l IH]; simpl; [constructor|].
  destruct (p x) eqn:E; constructor; assumption.
Qed.

Lemma filter_none {A : Type} (q : A -> bool) (l : list A) :
  Forall (fun x => q x = false) l -> filter q l = [].
Proof.
  induction 1 as [|x l H _ IH]; simpl; [reflexivity|]. now rewrite H.
Qed.

Lemma before_edge_day (d : Z) (r : Z * float) :
  before_edge d r = (Pd.day_of (fst r) <=? d)%Z.
Proof.
  unfold before_edge, Pd.day_of, Pd.seconds_per_day.
  destruct (Z.ltb_spec (fst r) ((d + 1) * 86400)) as [H|H],
           (Z.leb_spec (fst r / 86400) d) as [H0|H0]; try reflexivity; exfalso.
  - assert (fst r / 86400 < d + 1)%Z; [|lia].
    apply Z.div_lt_upper_bound; lia.
  - assert (d + 1 <= fst r / 86400)%Z; [|lia].
    apply Z.div_le_lower_bound; lia.
Qed.

Lemma day_of_mono (a b : Z) : (a <= b)%Z -> (Pd.day_of a <= Pd.day_of b)%Z.
Proof. intros. apply Z.div_le_mono; unfold Pd.seconds_per_day; lia. Qed.

(** On sorted rows, the rows before the edge of day [d] are a prefix. *)
Lemma take_while_filter (d : Z) (l : Pd.TimeFrame) :
  StronglySorted time_le l ->
  Pd.take_while (before_edge d) l = filter (before_edge d) l.
Proof.
  induction 1 as [|r l Hs IH Hall]; simpl; [reflexivity|].
  destruct (before_edge d r) eqn:E; [now rewrite IH|].
  symmetry. apply filter_none.
  eapply Forall_impl; [|exact Hall]. intros r' Hle.
  rewrite before_edge_day in *. apply Z.leb_gt in E. apply Z.leb_gt.
  pose proof (day_of_mono _ _ Hle). lia.
Qed.

Lemma drop_while_sorted (d : Z) (l : Pd.TimeFrame) :
  StronglySorted time_le l ->
  StronglySorted time_le (Pd.drop_while (before_edge d) l) /\
  Forall (from_day (d + 1)) (Pd.drop_while (before_edge d) l).
Proof.
  induction 1 as [|r l Hs IH Hall]; simpl; [split; constructor|].
  destruct (before_edge d r) eqn:E; [exact IH|].
  split; [now constructor|].
  rewrite before_edge_day in E. apply Z.leb_gt in E.
  constructor; [unfold from_day; lia|].
  eapply Forall_impl; [|exact Hall]. intros r' Hle.
  pose proof (day_of_mono _ _ Hle). unfold from_day. lia.
Qed.

Lemma filter_day_take (d : Z) (l : Pd.TimeFrame) :
  StronglySorted time_le l -> Forall (from_day d) l ->
  Pd.take_while (before_edge d) l = filter (on_day d) l.
Proof.
  intros Hs Hall. rewrite take_while_filter by assumption.
  apply filter_ext_in. intros r Hr.
  rewrite Forall_forall in Hall. specialize (Hall r Hr).
  rewrite before_edge_day. unfold on_day, from_day in *.
  destruct (Z.leb_spec (Pd.day_of (fst r)) d), (Z.eqb_spec (Pd.day_of (fst r)) d);
    try reflexivity; lia.
Qed.

Lemma filter_day_drop (d e : Z) (l : Pd.TimeFrame) :
  (d < e)%Z ->
  filter (on_day e) (Pd.drop_while (before_edge d) l) = filter (on_day e) l.
Proof.
  intros Hlt.
  assert (filter (on_day e) (Pd.take_while (before_edge d) l) = []) as Hnone.
  { apply filter_none.
    eapply Forall_impl; [|apply take_while_all]. intros r Hr. simpl in Hr.
    rewrite before_edge_day in Hr. apply Z.leb_le in Hr.
    unfold on_day. apply Z.eqb_neq. lia. }
  transitivity (filter (on_day e)
                  (Pd.take_while (before_edge d) l ++ Pd.drop_while (before_edge d) l)).
  - now rewrite filter_app, Hnone.
  - now rewrite take_drop_while.
Qed.

(** The bins hold, day after day, the mean of the rows of that day. *)
Lemma daily_bins_spec (n : nat) (d : Z) (l : Pd.TimeFrame) :
  StronglySorted time_le l -> Forall (from_day d) l ->
  Pd.daily_bins d n l =
    map (fun e => (e, Pd.group_mean (map snd (filter (on_day e) l))))
        (calendar d n).
Proof.
  revert d l. induction n as [|n IH]; intros d l Hs Hall; [reflexivity|].
  unfold calendar. simpl seq. simpl map.
  cbn [Pd.daily_bins]. fold (before_edge d).
  rewrite Z.add_0_r. f_equal.
  - now rewrite filter_day_take.
  - destruct (drop_while_sorted d l Hs) as [Hs' Hall'].
    rewrite IH by assumption. unfold calendar.
    rewrite <- seq_shift, !map_map. apply map_ext_in.
    intros k _. replace (d + 1 + Z.of_nat k)%Z with (d + Z.of_nat (S k))%Z by lia.
    f_equal. f_equal. f_equal. apply filter_day_drop. lia.
Qed.


Lemma sorted_head_least (r : Z * float) (l : Pd.TimeFrame) :
  StronglySorted time_le (r :: l) -> Forall (time_le r) (r :: l).
Proof.
  intros H. inversion H; subst. constructor; [unfold time_le; lia|assumption].
Qed.

Lemma sorted_last_greatest (l : Pd.TimeFrame) (r0 : Z * float) :
  StronglySorted time_le l -> Forall (fun r => time_le r (last l r0)) l.
Proof.
  induction 1 as [|r l Hs IH Hall]; [constructor|].
  destruct l as [|r' l'].
  - constructor; [unfold time_le; simpl; lia|constructor].
  - change (last (r :: r' :: l') r0) with (last (r' :: l') r0).
    constructor; [|exact IH].
    rewrite Forall_forall in Hall. apply Hall.
    clear. generalize r'. induction l' as [|x l' IH]; intros y; simpl.
    + now left.
    + right. apply (IH x).
Qed.

Lemma last_In {A : Type} (x : A) (l : list A) (d : A) : In (last (x :: l) d) (x :: l).
Proof.
  revert x; induction l as [|y l IH]; intros x; [now left|].
  right. apply (IH y).
Qed.

Lemma fold_min_spec (rest : Pd.TimeFrame) (m0 m : Z) :
  fold_left (fun m r' => Z.min m (row_day r')) rest m0 = m ->
  (m <= m0)%Z /\ Forall (fun r => (m <= row_day r)%Z) rest /\
  (m = m0 \/ exists r, In r rest /\ m = row_day r).
Proof.
  revert m0; induction rest as [|r rest IH]; intros m0; simpl; intros E.
  - subst m. split; [lia|]. split; [constructor|now left].
  - destruct (IH _ E) as (H1 & H2 & H3).
    split; [lia|]. split; [constructor; [lia|exact H2]|].
    destruct H3 as [H3|(r' & Hin & H3)].
    + destruct (Z.min_spec m0 (row_day r)) as [[_ E']|[_ E']]; rewrite E' in H3.
      * now left.
      * right. exists r. split; [now left|exact H3].
    + right. exists r'. split; [now right|exact H3].
Qed.

Lemma fold_max_spec (rest : Pd.TimeFrame) (m0 m : Z) :
  fold_left (fun m r' => Z.max m (row_day r')) rest m0 = m ->
  (m0 <= m)%Z /\ Forall (fun r => (row_day r <= m)%Z) rest /\
  (m = m0 \/ exists r, In r rest /\ m = row_day r).
Proof.
  revert m0; induction rest as [|r rest IH]; intros m0; simpl; intros E.
  - subst m. split; [lia|]. split; [constructor|now left].
  - destruct (IH _ E) as (H1 & H2 & H3).
    split; [lia|]. split; [constructor; [lia|exact H2]|].
    destruct H3 as [H3|(r' & Hin & H3)].
    + destruct (Z.max_spec m0 (row_day r)) as [[_ E']|[_ E']]; rewrite E' in H3.
      * right. exists r. split; [now left|exact H3].
      * now left.
    + right. exists r'. split; [now right|exact H3].
Qed.

(** [first_day] is the least observed day and [last_day] the greatest. *)
Lemma first_day_spec (raw : list Dynamo.Item) :
  raw <> [] ->
  (exists r, In r (observation_rows raw) /\ first_day raw = row_day r) /\
  Forall (fun r => (first_day raw <= row_day r)%Z) (observation_rows raw).
Proof.
  intros Hne. unfold first_day.
  destruct (observation_rows raw) as [|r rest] eqn:E.
  - destruct raw; [congruence|discriminate].
  - destruct (fold_min_spec rest (row_day r) _ eq_refl) as (H1 & H2 & H3).
    fold (row_day r). split.
    + destruct H3 as [H3|(r' & Hin & H3)].
      * exists r. split; [now left|exact H3].
      * exists r'. split; [now right|exact H3].
    + constructor; assumption.
Qed.

Lemma last_day_spec (raw : list Dynamo.Item) :
  raw <> [] ->
  (exists r, In r (observation_rows raw) /\ last_day raw = row_day r) /\
  Forall (fun r => (row_day r <= last_day raw)%Z) (observation_rows raw).
Proof.
  intros Hne. unfold last_day.
  destruct (observation_rows raw) as [|r rest] eqn:E.
  - destruct raw; [congruence|discriminate].
  - destruct (fold_max_spec rest (row_day r) _ eq_refl) as (H1 & H2 & H3).
    fold (row_day r). split.
    + destruct H3 as [H3|(r' & Hin & H3)].
      * exists r. split; [now left|exact H3].
      * exists r'. split; [now right|exact H3].
    + constructor; assumption.
Qed.

Lemma map_fst_bins (l : Pd.TimeFrame) (d : Z) (n : nat) :
  map fst (map (fun e => (e, Pd.group_mean (map snd (filter (on_day e) l))))
               (calendar d n)) = calendar d n.
Proof. rewrite map_map. simpl. apply map_id. Qed.

(** The outcome of the aggregation on observations that are not empty. *)
Lemma aggregate_cases (raw : list Dynamo.Item) :
  raw <> [] ->
  let days := calendar (first_day raw)
                (S (Z.to_nat (last_day raw - first_day raw))) in
  aggregate_to_day_based_prices raw =
    if forallb (fun r => Pd.is_timestamp (fst r)) (observation_rows raw) then
      if Pd.is_timestamp (first_day raw * Pd.seconds_per_day)
         && Pd.is_timestamp ((last_day raw + 1) * Pd.seconds_per_day)
      then Py.Ok {| Pd.index := days;
                    Pd.values := map (fun d => Pd.group_mean (day_prices raw d)) days |}
      else Py.Raise (Py.OutOfBoundsDatetime "Out of bounds nanosecond timestamp")
    else Py.Raise (Py.OutOfBoundsDatetime "cannot convert input with unit 's'").
Proof.
  intros Hne days.
  unfold aggregate_to_day_based_prices, Pd.set_index, Pd.DataFrame_from_dict.
  destruct raw as [|it raw']; [congruence|].
  set (raw := it :: raw') in *.
  simpl existsb. cbn [Pd.rows Py.bind].
  change (map (fun it0 => (Dynamo.UnixDateTime it0, Dynamo.Price it0)) raw)
    with (observation_rows raw).
  unfold Pd.to_datetime.
  destruct (forallb (fun r => Pd.is_timestamp (fst r)) (observation_rows raw));
    [|reflexivity].
  cbn [Py.bind]. unfold Pd.resample_D_mean.
  pose proof (sort_by_time_sorted (observation_rows raw)) as Hs.
  pose proof (sort_by_time_perm (observation_rows raw)) as Hp.
  destruct (Pd.sort_by_time (observation_rows raw)) as [|r sorted] eqn:E.
  { apply Permutation_length in Hp. discriminate. }
  pose proof (sorted_head_least _ _ Hs) as Hleast.
  pose proof (sorted_last_greatest _ r Hs) as Hgreatest.
  destruct (first_day_spec raw Hne) as ((rf & Hrf & Ef) & Hfirst).
  destruct (last_day_spec raw Hne) as ((rl & Hrl & El) & Hlast).
  assert (Pd.day_of (fst r) = first_day raw) as Hf.
  { apply Z.le_antisymm.
    - rewrite Ef. apply day_of_mono.
      rewrite Forall_forall in Hleast. apply Hleast.
      eapply Permutation_in; eassumption.
    - rewrite Forall_forall in Hfirst. apply (Hfirst r).
      eapply Permutation_in; [symmetry; eassumption|now left]. }
  assert (Pd.day_of (fst (last (r :: sorted) r)) = last_day raw) as Hl.
  { apply Z.le_antisymm.
    - rewrite Forall_forall in Hlast. apply (Hlast (last (r :: sorted) r)).
      eapply Permutation_in; [symmetry; eassumption|apply last_In].
    - rewrite El. apply day_of_mono.
      rewrite Forall_forall in Hgreatest. apply (Hgreatest rl).
      eapply Permutation_in; eassumption. }
  rewrite Hf, Hl. fold days.
  destruct (Pd.is_timestamp (first_day raw * Pd.seconds_per_day)
            && Pd.is_timestamp ((last_day raw + 1) * Pd.seconds_per_day));
    [|reflexivity].
  cbn [Py.bind].
  rewrite daily_bins_spec.
  - rewrite map_fst_bins. f_equal. f_equal.
    rewrite map_map. apply map_ext. intros d. cbn [snd].
    unfold day_prices. rewrite <- filter_sort_by_time, E. reflexivity.
  - exact Hs.
  - eapply Forall_impl; [|exact Hleast]. intros r' Hle.
    unfold from_day. rewrite <- Hf. now apply day_of_mono.
Qed.

Lemma is_timestamp_spec (t : Z) :
  Pd.is_timestamp t = true <-> (-9223372036 <= t <= 9223372036)%Z.
Proof.
  unfold Pd.is_timestamp, Pd.nanoseconds_per_second.
  change Pd.timestamp_max with 9223372036854775807%Z.
  rewrite andb_true_iff, !Z.leb_le. lia.
Qed.

Lemma in_whole_days_day (t : Z) :
  in_whole_days t -> (-106751 <= Pd.day_of t <= 106750)%Z.
Proof.
  unfold in_whole_days, Pd.day_of, Pd.seconds_per_day. intros [H1 H2]. split.
  - apply Z.div_le_lower_bound; lia.
  - assert (t / 86400 < 106751)%Z; [|lia].
    apply Z.div_lt_upper_bound; lia.
Qed.

Lemma within_range_rows (raw : list Dynamo.Item) :
  within_range raw ->
  Forall (fun r => in_whole_days (fst r)) (observation_rows raw).
Proof.
  unfold within_range, observation_rows. intros H.
  induction H; simpl; constructor; assumption.
Qed.

(** Inside the range of whole days the time stamps convert and the edges of
    the bins are time stamps. *)
Lemma within_range_checks (raw : list Dynamo.Item) :
  raw <> [] -> within_range raw ->
  forallb (fun r => Pd.is_timestamp (fst r)) (observation_rows raw) = true /\
  (Pd.is_timestamp (first_day raw * Pd.seconds_per_day)
   && Pd.is_timestamp ((last_day raw + 1) * Pd.seconds_per_day))%bool = true.
Proof.
  intros Hne Hin. pose proof (within_range_rows raw Hin) as Hrows.
  rewrite Forall_forall in Hrows. split.
  - apply forallb_forall. intros r Hr. apply is_timestamp_spec.
    specialize (Hrows r Hr). unfold in_whole_days in Hrows. lia.
  - destruct (first_day_spec raw Hne) as ((rf & Hrf & Ef) & _).
    destruct (last_day_spec raw Hne) as ((rl & Hrl & El) & _).
    pose proof (in_whole_days_day _ (Hrows rf Hrf)) as Hf.
    pose proof (in_whole_days_day _ (Hrows rl Hrl)) as Hl.
    fold (row_day rf) in Ef. fold (row_day rl) in El.
    unfold row_day in Ef, El. rewrite <- Ef in Hf. rewrite <- El in Hl.
    apply andb_true_iff. split; apply is_timestamp_spec;
      unfold Pd.seconds_per_day; lia.
Qed.

(** What the aggregation returns on observations that are not empty and
    whose days lie inside the range of time stamps. *)
Lemma aggregate_spec (raw : list Dynamo.Item) :
  raw <> [] -> within_range raw ->
  let days := calendar (first_day raw)
                (S (Z.to_nat (last_day raw - first_day raw))) in
  aggregate_to_day_based_prices raw =
    Py.Ok {| Pd.index := days;
             Pd.values := map (fun d => Pd.group_mean (day_prices raw d)) days |}.
Proof.
  intros Hne Hin days. rewrite (aggregate_cases raw Hne).
  destruct (within_range_checks raw Hne Hin) as [-> ->]. reflexivity.
Qed.

Lemma day_prices_unobserved (raw : list Dynamo.Item) (d : Z) :
  ~ In d (map row_day (observation_rows raw)) -> day_prices raw d = [].
Proof.
  intros Hd. unfold day_prices. rewrite filter_none; [reflexivity|].
  apply Forall_forall. intros r Hr. unfold on_day. apply Z.eqb_neq.
  intros E. apply Hd. apply in_map_iff. exists r. split; assumption.
Qed.

Lemma calendar_In (d : Z) (n : nat) (e : Z) :
  In e (calendar d n) <-> (d <= e < d + Z.of_nat n)%Z.
Proof.
  unfold calendar. rewrite in_map_iff. split.
  - intros (k & <- & Hk). apply in_seq in Hk. lia.
  - intros H. exists (Z.to_nat (e - d)). split; [lia|]. apply in_seq. lia.
Qed.

End Aggregation.

(** ** The rolling quantile *)

Module Rolling.

Lemma insert_sorted_perm (x : float) (l : list float) :
  Permutation (x :: l) (Pd.insert_sorted x l).
Proof.
  induction l as [|y l IH]; simpl; [reflexivity|].
  destruct (PrimFloat.leb x y); [reflexivity|].
  rewrite perm_swap. now constructor.
Qed.

Lemma sort_values_perm (l : list float) : Permutation l (Pd.sort_values l).
Proof.
  induction l as [|x l IH]; simpl; [constructor|].
  rewrite <- insert_sorted_perm. now constructor.
Qed.

Lemma sort_values_length (l : list float) :
  List.length (Pd.sort_values l) = List.length l.
Proof. symmetry. apply Permutation_length, sort_values_perm. Qed.

Lemma insert_sorted_sorted (x : float) (l : list float) :
  has_value x -> Forall has_value l ->
  Sorted fle l -> Sorted fle (Pd.insert_sorted x l).
Proof.
  intros Hx Hall Hs. induction Hs as [|y l Hs IH Hhd]; simpl.
  - repeat constructor.
  - inversion Hall as [|? ? Hy Hl]; subst.
    destruct (PrimFloat.leb x y) eqn:E.
    + constructor; [now constructor|]. now constructor.
    + constructor; [now apply IH|].
      destruct l as [|z l']; simpl.
      * constructor. now apply FloatOrder.leb_total.
      * destruct (PrimFloat.leb x z).
        -- constructor. now apply FloatOrder.leb_total.
        -- constructor. now inversion Hhd.
Qed.

(** The sorted store holds the order statistics of the observations. *)
Lemma sort_values_sorted (l : list float) :
  Forall has_value l -> Sorted fle (Pd.sort_values l).
Proof.
  induction 1 as [|x l Hx Hl IH]; simpl; [constructor|].
  apply insert_sorted_sorted; [assumption| |assumption].
  apply Forall_forall. intros y Hy. rewrite Forall_forall in Hl. apply Hl.
  eapply Permutation_in; [symmetry; apply sort_values_perm|exact Hy].
Qed.

Lemma observations_have_value (w : list float) :
  Forall has_value (observations w).
Proof.
  apply Forall_forall. intros v Hv. apply filter_In in Hv.
  destruct Hv as [_ Hv]. unfold missing in Hv.
  apply negb_true_iff, orb_false_iff in Hv. apply Hv.
Qed.

(** Dropping NaN after the infinities were made NaN keeps the
    observations. *)
Lemma observations_prep (l : list float) :
  filter (fun v => negb (Np.isnan v)) (Pd.prep_values l) = observations l.
Proof.
  unfold observations, missing.
  induction l as [|v l IH]; simpl; [reflexivity|].
  destruct (Np.isinf v) eqn:Ei.
  - rewrite orb_true_r. simpl. exact IH.
  - rewrite orb_false_r. destruct (Np.isnan v); simpl; now rewrite IH.
Qed.

Lemma slice_prep (l : list float) (s e : nat) :
  Pd.slice (Pd.prep_values l) s e = Pd.prep_values (Pd.slice l s e).
Proof.
  unfold Pd.slice, Pd.prep_values. now rewrite skipn_map, firstn_map.
Qed.

(** The bounds of the fixed window select the trailing window. *)
Lemma slice_trailing (window : nat) (l : list float) (i : nat) :
  i < List.length l ->
  Pd.slice l (i + 1 - window) (i + 1) = trailing_window window l i.
Proof.
  intros Hi. unfold Pd.slice, trailing_window, lastn.
  rewrite length_firstn, Nat.min_l by lia.
  rewrite skipn_firstn_comm.
  replace (S i - window) with (i + 1 - window) by lia.
  replace (S i - (i + 1 - window)) with (i + 1 - (i + 1 - window)) by lia.
  reflexivity.
Qed.

Lemma trailing_window_length (window : nat) (l : list float) (i : nat) :
  List.length (trailing_window window l i) <= window.
Proof.
  unfold trailing_window, lastn. rewrite length_skipn. lia.
Qed.

Lemma observations_length (w : list float) :
  List.length (observations w) <= List.length w.
Proof. apply filter_length_le. Qed.

Lemma rank_table : forallb rank_agrees (seq 100 401) = true.
Proof. vm_compute. reflexivity. Qed.

(** For 100 to 500 observations the interpolation of [roll_quantile] is
    the 5th percentile. *)
Lemma interpolate_percentile5 (sorted : list float) :
  100 <= List.length sorted <= 500 ->
  Pd.interpolate_linear floor_min_quant sorted = percentile5_linear sorted.
Proof.
  intros Hn.
  pose proof rank_table as T. rewrite forallb_forall in T.
  specialize (T (List.length sorted)).
  assert (In (List.length sorted) (seq 100 401)) as Hin by (apply in_seq; lia).
  specialize (T Hin). unfold rank_agrees in T.
  unfold Pd.interpolate_linear, percentile5_linear.
  destruct (List.length sorted =? 1)%nat eqn:E1.
  { apply Nat.eqb_eq in E1. lia. }
  change (0.05%float) with floor_min_quant.
  destruct (Np.trunc (floor_min_quant * Np.of_nat (List.length sorted - 1)))
    as [z|]; [|discriminate].
  apply andb_true_iff in T. destruct T as [Tz Te].
  apply Z.eqb_eq in Tz. apply Bool.eqb_prop in Te.
  subst z. rewrite Nat2Z.id in *. rewrite Te.
  reflexivity.
Qed.

Lemma nth_error_map_seq {A : Type} (f : nat -> A) (n i : nat) :
  i < n -> nth_error (map f (seq 0 n)) i = Some (f i).
Proof.
  intros Hi. rewrite nth_error_map.
  rewrite (nth_error_nth' _ 0) by (rewrite length_seq; lia).
  rewrite seq_nth by lia. reflexivity.
Qed.

(** The raw reference at a day is the trailing 5th percentile, or NaN when
    the window holds fewer than 100 observations. *)
Lemma raw_reference_spec (vol : Pd.Series) (i : nat) :
  i < List.length (Pd.values vol) ->
  nth_error (raw_reference vol) i = Some (trailing_percentile (Pd.values vol) i).
Proof.
  intros Hi. unfold raw_reference, Pd.rolling_quantile, Pd.roll_quantile.
  cbn [Pd.values Pd.with_values].
  rewrite nth_error_map_seq by (unfold Pd.prep_values; rewrite length_map; exact Hi).
  f_equal. unfold Pd.window_bounds, Pd.window_quantile, trailing_percentile,
    window_observations.
  rewrite slice_prep, observations_prep.
  change floor_days with 500. change floor_min_periods with 100.
  rewrite slice_trailing by exact Hi.
  set (obs := observations (trailing_window 500 (Pd.values vol) i)).
  destruct (100 <=? List.length obs) eqn:E; [|reflexivity].
  apply Nat.leb_le in E.
  apply interpolate_percentile5. rewrite sort_values_length.
  split; [exact E|].
  etransitivity; [apply observations_length|apply trailing_window_length].
Qed.

End Rolling.

(** ** VolatilityEstimator *)

Module Ewm.

Lemma ewm_update_nobs (f w : float) (st : Pd.EwmState) (cur : float) :
  Pd.nobs (Pd.ewm_update f w st cur) = Pd.nobs st + count_obs [cur].
Proof.
  unfold Pd.ewm_update, count_obs. simpl.
  destruct (negb (Np.isnan (Pd.mean_x st))), (negb (Np.isnan cur)); simpl; lia.
Qed.

Lemma fold_update_nobs (f w : float) (l : list float) (st : Pd.EwmState) :
  Pd.nobs (fold_left (Pd.ewm_update f w) l st) = Pd.nobs st + count_obs l.
Proof.
  revert st; induction l as [|cur l IH]; intros st; simpl.
  - unfold count_obs. simpl. lia.
  - rewrite IH, ewm_update_nobs. unfold count_obs. simpl.
    destruct (negb (Np.isnan cur)); simpl; lia.
Qed.

Lemma ewm_loop_length (f w : float) (minp : nat) (st : Pd.EwmState)
    (vals : list float) :
  List.length (Pd.ewm_loop f w minp st vals) = List.length vals.
Proof. revert st; induction vals; intros; simpl; auto. Qed.

(** The value written at a position comes from the state reached after the
    values up to that position. *)
Lemma ewm_loop_nth (f w : float) (minp : nat) (vals : list float)
    (st : Pd.EwmState) (i : nat) :
  i < List.length vals ->
  nth_error (Pd.ewm_loop f w minp st vals) i =
    Some (Pd.ewm_emit minp (fold_left (Pd.ewm_update f w) (firstn (S i) vals) st)).
Proof.
  revert st i; induction vals as [|cur vals IH]; intros st i Hi; simpl in Hi.
  - lia.
  - destruct i as [|i]; [reflexivity|].
    cbn [Pd.ewm_loop nth_error]. rewrite IH by lia. reflexivity.
Qed.

Lemma ewm_emit_warmup (minp : nat) (st : Pd.EwmState) :
  Pd.nobs st < minp -> Pd.ewm_emit minp st = PrimFloat.nan.
Proof.
  intros H. unfold Pd.ewm_emit.
  destruct (minp <=? Pd.nobs st) eqn:E; [|reflexivity].
  apply Nat.leb_le in E. lia.
Qed.

Lemma ewmcov_length (minp : nat) (com : float) (vals : list float) :
  List.length (Pd.ewmcov minp com vals) = List.length vals.
Proof.
  unfold Pd.ewmcov. destruct vals; simpl; [reflexivity|].
  now rewrite ewm_loop_length.
Qed.

Lemma ewm_init_nobs (x0 : float) : Pd.nobs (Pd.ewm_init x0) = count_obs [x0].
Proof.
  unfold Pd.ewm_init, count_obs. simpl. now destruct (negb (Np.isnan x0)).
Qed.

Lemma count_obs_cons (x : float) (l : list float) :
  count_obs (x :: l) = count_obs [x] + count_obs l.
Proof. unfold count_obs. simpl. now destruct (negb (Np.isnan x)). Qed.

(** No variance before [minp] observations were seen. *)
Lemma ewmcov_warmup (minp : nat) (com : float) (vals : list float)
    (i : nat) (o : float) :
  nth_error (Pd.ewmcov minp com vals) i = Some o ->
  count_obs (firstn (S i) vals) < minp ->
  o = PrimFloat.nan.
Proof.
  unfold Pd.ewmcov. destruct vals as [|x0 vals]; [now destruct i|].
  destruct i as [|i]; simpl nth_error; intros Ho Hc; [congruence|].
  assert (i < List.length vals) as Hi.
  { rewrite <- (ewm_loop_length (1 - 1 / (1 + com)) 1 minp (Pd.ewm_init x0)).
    apply nth_error_Some. congruence. }
  rewrite ewm_loop_nth in Ho by exact Hi. inversion Ho; subst o.
  apply ewm_emit_warmup.
  rewrite fold_update_nobs, ewm_init_nobs.
  change (firstn (S (S i)) (x0 :: vals)) with (x0 :: firstn (S i) vals) in Hc.
  rewrite count_obs_cons in Hc. exact Hc.
Qed.

(** *** The sign of [zsqrt] *)

Lemma binary_round_aux_sign (mx ex : Z) (lx : location) :
  sign_free (binary_round_aux prec emax false mx ex lx).
Proof.
  unfold binary_round_aux.
  destruct (shr_fexp prec emax mx ex lx) as [mrs' e'].
  destruct (shr_fexp prec emax
              (round_nearest_even (shr_m mrs') (loc_of_shr_record mrs'))
              e' loc_Exact) as [mrs'' e''].
  destruct (shr_m mrs'') as [|p|p]; simpl; auto.
  destruct (e'' <=? 971)%Z; reflexivity.
Qed.

Lemma SFsqrt_sign (x : spec_float) : sign_free (SFsqrt prec emax x).
Proof.
  destruct x as [s|s| |s m e]; simpl; auto.
  - destruct s; simpl; auto.
  - destruct s; simpl; auto.
    destruct (SFsqrt_core_binary prec emax (Z.pos m) e) as [[mz ez] lz].
    apply binary_round_aux_sign.
Qed.

Lemma sign_free_above_zero (y : float) :
  sign_free (Prim2SF y) -> no_data y \/ non_negative y.
Proof.
  intros H. unfold no_data, non_negative.
  rewrite FloatOrder.isnan_spec, FloatAxioms.leb_spec.
  change (Prim2SF 0) with (S754_zero false).
  destruct (Prim2SF y) as [s|s| |s m e]; simpl in *; subst; auto.
Qed.

(** [zsqrt] never gives a negative value. *)
Lemma zsqrt_sign (x : float) : no_data (Pd.zsqrt x) \/ non_negative (Pd.zsqrt x).
Proof.
  unfold Pd.zsqrt. destruct (PrimFloat.ltb x 0).
  - right. reflexivity.
  - apply sign_free_above_zero. rewrite FloatAxioms.sqrt_spec. apply SFsqrt_sign.
Qed.

Lemma zsqrt_nan : Pd.zsqrt PrimFloat.nan = PrimFloat.nan.
Proof. reflexivity. Qed.

Lemma values_simple_ewvol_calc (s : Pd.Series) :
  Pd.values (simple_ewvol_calc s) =
    map Pd.zsqrt (Pd.ewmcov 10 17 (Pd.prep_values (Pd.values s))).
Proof. reflexivity. Qed.

(** The estimator at one position. *)
Lemma simple_ewvol_calc_nth (s : Pd.Series) (i : nat) (v : float) :
  nth_error (Pd.values s) i = Some v ->
  exists o,
    nth_error (Pd.values (simple_ewvol_calc s)) i = Some o /\
    (accumulated (Pd.values s) i < 10 -> no_data o) /\
    (no_data o \/ non_negative o).
Proof.
  intros Hv. rewrite values_simple_ewvol_calc.
  assert (i < List.length (Pd.ewmcov 10 17 (Pd.prep_values (Pd.values s)))) as Hi.
  { rewrite ewmcov_length. unfold Pd.prep_values. rewrite length_map.
    apply nth_error_Some. congruence. }
  destruct (nth_error (Pd.ewmcov 10 17 (Pd.prep_values (Pd.values s))) i)
    as [c|] eqn:Ec; [|apply nth_error_None in Ec; lia].
  exists (Pd.zsqrt c). rewrite nth_error_map, Ec. split; [reflexivity|].
  split; [|apply zsqrt_sign].
  intros Hacc. apply ewmcov_warmup in Ec.
  - subst c. reflexivity.
  - unfold count_obs, Pd.prep_values. rewrite firstn_map.
    fold (Pd.prep_values (firstn (S i) (Pd.values s))).
    rewrite Rolling.observations_prep. exact Hacc.
Qed.

End Ewm.

(** ** [int()] and [str()] *)

Module PyInt.

Lemma digit_value_digit_char (d : Z) :
  (0 <= d < 10)%Z -> Py.digit_value (Py.digit_char d) = Some d.
Proof.
  intros H.
  assert (d = 0 \/ d = 1 \/ d = 2 \/ d = 3 \/ d = 4 \/ d = 5 \/ d = 6 \/
          d = 7 \/ d = 8 \/ d = 9)%Z as C by lia.
  repeat (destruct C as [->|C]; [reflexivity|]). now subst.
Qed.

Lemma digit_range (c : ascii) :
  is_digit c -> 48 <= nat_of_ascii c <= 57.
Proof.
  intros [d H]. unfold Py.digit_value in H.
  destruct ((48 <=? nat_of_ascii c) && (nat_of_ascii c <=? 57))%nat eqn:E;
    [|discriminate].
  apply andb_true_iff in E. destruct E as [E1 E2].
  apply Nat.leb_le in E1, E2. lia.
Qed.

Lemma digit_not_space (c : ascii) : is_digit c -> Py.is_space c = false.
Proof.
  intros H. apply digit_range in H. unfold Py.is_space.
  repeat (apply orb_false_iff; split); try (apply Nat.eqb_neq; lia).
  apply andb_false_iff. right. apply Nat.leb_gt. lia.
Qed.

Lemma digit_not_sign (c : ascii) :
  is_digit c -> Ascii.eqb c "-" = false /\ Ascii.eqb c "+" = false.
Proof.
  intros [d H].
  split; destruct (Ascii.eqb_spec c "-"), (Ascii.eqb_spec c "+");
    subst; try reflexivity; discriminate.
Qed.

(** The value read from a list of digits, most significant first. *)
Lemma more_digits_all (l : list ascii) (acc : Z) (count : nat) :
  Forall is_digit l ->
  Py.more_digits acc count l
    = Some (fold_left read_digit l acc, count + List.length l, []).
Proof.
  intros Hl. revert acc count.
  induction Hl as [|c l [d Hd] _ IH]; intros acc count.
  - cbn [Py.more_digits fold_left List.length]. now rewrite Nat.add_0_r.
  - assert (read_digit acc c = (10 * acc + d)%Z) as E
      by (unfold read_digit; now rewrite Hd).
    cbn [Py.more_digits fold_left List.length]. rewrite Hd, IH, E.
    do 2 f_equal. f_equal. lia.
Qed.

Lemma digits_all (l : list ascii) :
  l <> [] -> Forall is_digit l ->
  Py.digits l = Some (fold_left read_digit l 0%Z, List.length l, []).
Proof.
  intros Hne Hl. destruct l as [|c l]; [congruence|].
  inversion Hl as [|? ? [d Hd] Hl']; subst.
  assert (read_digit 0 c = d) as E
    by (unfold read_digit; rewrite Hd; reflexivity).
  cbn [Py.digits fold_left List.length].
  rewrite Hd, more_digits_all, E by assumption. reflexivity.
Qed.

Lemma numeral_acc (fuel : nat) (n : Z) (acc : list ascii) :
  Py.numeral fuel n acc = Py.numeral fuel n [] ++ acc.
Proof.
  revert n acc; induction fuel as [|fuel IH]; intros n acc; simpl.
  - reflexivity.
  - destruct (n <? 10)%Z; [reflexivity|].
    rewrite IH, (IH _ [_]), <- app_assoc. reflexivity.
Qed.

Lemma numeral_step (fuel : nat) (n : Z) :
  Py.numeral (S fuel) n [] =
    if (n <? 10)%Z then [Py.digit_char (n mod 10)]
    else Py.numeral fuel (n / 10) [] ++ [Py.digit_char (n mod 10)].
Proof. simpl. destruct (n <? 10)%Z; [reflexivity|apply numeral_acc]. Qed.

Lemma digit_char_is_digit (n : Z) : is_digit (Py.digit_char (n mod 10)).
Proof.
  exists (n mod 10)%Z. apply digit_value_digit_char.
  apply Z.mod_pos_bound. lia.
Qed.

Lemma numeral_digits (fuel : nat) (n : Z) :
  Forall is_digit (Py.numeral fuel n []) /\ Py.numeral fuel n [] <> [].
Proof.
  revert n; induction fuel as [|fuel IH]; intros n.
  - simpl. split; [|discriminate].
    constructor; [apply digit_char_is_digit|constructor].
  - rewrite numeral_step. destruct (n <? 10)%Z.
    + split; [|discriminate].
      constructor; [apply digit_char_is_digit|constructor].
    + destruct (IH (n / 10)%Z) as [H1 H2]. split.
      * apply Forall_app. split; [exact H1|].
        constructor; [apply digit_char_is_digit|constructor].
      * intros E. apply app_eq_nil in E. destruct E; discriminate.
Qed.

Lemma read_digit_char (acc n : Z) :
  read_digit acc (Py.digit_char (n mod 10)) = (10 * acc + n mod 10)%Z.
Proof.
  unfold read_digit. rewrite digit_value_digit_char; [reflexivity|].
  apply Z.mod_pos_bound. lia.
Qed.

(** Reading the numeral of a natural number gives the number back. *)
Lemma numeral_value (fuel : nat) (n : Z) :
  (0 <= n < 2 ^ Z.of_nat (S fuel))%Z ->
  fold_left read_digit (Py.numeral fuel n []) 0%Z = n.
Proof.
  revert n; induction fuel as [|fuel IH]; intros n Hn.
  - change (2 ^ Z.of_nat 1)%Z with 2%Z in Hn.
    cbn [Py.numeral fold_left]. rewrite read_digit_char, Z.mod_small; lia.
  - rewrite numeral_step. destruct (Z.ltb_spec n 10) as [Hlt|Hge].
    + cbn [fold_left]. rewrite read_digit_char, Z.mod_small; lia.
    + rewrite fold_left_app. cbn [fold_left]. rewrite read_digit_char, IH.
      * symmetry. apply Z.div_mod. lia.
      * split; [apply Z.div_pos; lia|].
        apply Z.div_lt_upper_bound; [lia|].
        rewrite (Nat2Z.inj_succ (S fuel)), Z.pow_succ_r in Hn by lia.
        lia.
Qed.

(** A number below [10 ^ k] has at most [k] digits. *)
Lemma numeral_length (fuel : nat) (n : Z) (k : nat) :
  (0 <= n < 10 ^ Z.of_nat (S k))%Z ->
  List.length (Py.numeral fuel n []) <= S k.
Proof.
  revert n k; induction fuel as [|fuel IH]; intros n k Hn.
  - cbn [Py.numeral List.length]. lia.
  - rewrite numeral_step. destruct (Z.ltb_spec n 10) as [Hlt|Hge].
    + cbn [List.length]. lia.
    + rewrite length_app. cbn [List.length].
      destruct k as [|k].
      { change (10 ^ Z.of_nat 1)%Z with 10%Z in Hn. lia. }
      specialize (IH (n / 10)%Z k).
      assert (0 <= n / 10 < 10 ^ Z.of_nat (S k))%Z as H.
      { split; [apply Z.div_pos; lia|].
        apply Z.div_lt_upper_bound; [lia|].
        rewrite (Nat2Z.inj_succ (S k)), Z.pow_succ_r in Hn by lia. lia. }
      specialize (IH H). lia.
Qed.

Lemma log2_bound (a : Z) :
  (0 <= a)%Z -> (0 <= a < 2 ^ Z.of_nat (S (Z.to_nat (Z.log2 a))))%Z.
Proof.
  intros Ha. split; [exact Ha|].
  rewrite Nat2Z.inj_succ, Z2Nat.id by apply Z.log2_nonneg.
  destruct (Z.eq_dec a 0) as [->|Hz]; [reflexivity|].
  apply Z.log2_spec. lia.
Qed.

(** [int(str(n)) == n] for a numeral of at most 4300 digits. *)
Lemma parse_int_str (n : Z) :
  (Z.abs n < 10 ^ 4300)%Z -> Py.parse_int (Py.str n) = Py.Converted n.
Proof.
  intros Hn. unfold Py.parse_int, Py.str.
  rewrite list_ascii_of_string_of_list_ascii.
  set (a := Z.abs n) in *. set (fuel := Z.to_nat (Z.log2 a)).
  assert (0 <= a)%Z as Ha by apply Z.abs_nonneg.
  pose proof (numeral_value fuel a (log2_bound a Ha)) as Hv.
  destruct (numeral_digits fuel a) as [Hall Hne].
  pose proof (digits_all _ Hne Hall) as Hd. rewrite Hv in Hd.
  assert (List.length (Py.numeral fuel a []) <= 4300) as Hlen.
  { apply (numeral_length fuel a 4299). split; [exact Ha|exact Hn]. }
  assert ((Py.int_max_str_digits <? List.length (Py.numeral fuel a []))%nat = false)
    as Hlim by (apply Nat.ltb_ge; exact Hlen).
  destruct (Z.ltb_spec n 0) as [Hneg|Hpos].
  - cbn [Py.lstrip]. change (Py.is_space "-") with false. cbv iota.
    change (Ascii.eqb "-" "-") with true. cbv iota.
    rewrite Hd, Hlim. cbn [Py.lstrip]. f_equal. lia.
  - destruct (Py.numeral fuel a []) as [|c l] eqn:E; [congruence|].
    inversion Hall as [|? ? Hc _]; subst.
    cbn [Py.lstrip]. rewrite (digit_not_space _ Hc).
    destruct (digit_not_sign _ Hc) as [-> ->].
    rewrite Hd, Hlim. cbn [Py.lstrip]. f_equal. lia.
Qed.

Lemma int_str (n : Z) :
  (Z.abs n < 10 ^ 4300)%Z -> Py.int (Py.JStr (Py.str n)) = Py.Ok n.
Proof. intros H. cbn [Py.int]. now rewrite parse_int_str. Qed.

End PyInt.

(** ** Retrieval and the handler *)

Module Handler.

Import Runtime.

Lemma handler_read (fuel : nat) (env : Env) (data i f : Py.json) (st : Z) (w : World) :
  Py.getitem data "instrument" = Py.Ok i ->
  Py.getitem data "start_time" = Py.Ok f ->
  Py.int f = Py.Ok st ->
  robust_volatility_calculation fuel env data w = serve fuel env i st w.
Proof.
  intros Hi Hf Hst. unfold robust_volatility_calculation, bind at 1, lift at 1.
  rewrite Hi. unfold bind at 1, lift at 1. rewrite Hf.
  unfold bind at 1, lift at 1. rewrite Hst. reflexivity.
Qed.

Lemma handler_bad_start_time (fuel : nat) (env : Env) (data i f : Py.json)
    (e : Py.exn) (w : World) :
  Py.getitem data "instrument" = Py.Ok i ->
  Py.getitem data "start_time" = Py.Ok f ->
  Py.int f = Py.Raise e ->
  robust_volatility_calculation fuel env data w = Some (Py.Raise e, w).
Proof.
  intros Hi Hf Hst. unfold robust_volatility_calculation, bind at 1, lift at 1.
  rewrite Hi. unfold bind at 1, lift at 1. rewrite Hf.
  unfold bind at 1, lift at 1. rewrite Hst. reflexivity.
Qed.

Lemma bind_ok_inv {A B : Type} (m : M A) (k : A -> M B) (w w' : World) (b : B) :
  bind m k w = Some (Py.Ok b, w') ->
  exists a w0, m w = Some (Py.Ok a, w0) /\ k a w0 = Some (Py.Ok b, w').
Proof.
  unfold bind. destruct (m w) as [[[a|e] w0]|]; try discriminate.
  intros H. eauto.
Qed.

Lemma lift_ok_inv {A : Type} (r : Py.result A) (w w' : World) (a : A) :
  lift r w = Some (Py.Ok a, w') -> r = Py.Ok a /\ w' = w.
Proof. unfold lift. intros H. inversion H. auto. Qed.

(** A success response echoes the instrument of the request. *)
Lemma handler_ok_inv (fuel : nat) (env : Env) (data : Py.json) (w w' : World)
    (r : Response) :
  robust_volatility_calculation fuel env data w = Some (Py.Ok r, w') ->
  exists i, Py.getitem data "instrument" = Py.Ok i /\
            r = {| rule := "Robust Volatility Series"; instrument := i |}.
Proof.
  unfold robust_volatility_calculation. intros H.
  apply bind_ok_inv in H. destruct H as (i & w0 & Hi & H).
  apply lift_ok_inv in Hi. destruct Hi as [Hi ->].
  exists i. split; [exact Hi|].
  do 5 (apply bind_ok_inv in H; destruct H as (? & ? & _ & H)).
  unfold ret in H. now inversion H.
Qed.

(** *** Retrieval *)

Lemma more_pages_fail (env : Env) (query : option Dynamo.Key -> Dynamo.Query)
    (n : nat) (k : option Dynamo.Key) (m : nat) (cause : Py.exn) :
  fails_after env query n k m cause ->
  forall (fuel : nat) (key : Dynamo.Key) (items : list Dynamo.Item)
         (response : Dynamo.Response) (w : World),
    k = Some key -> Dynamo.LastEvaluatedKey response = Some key ->
    n = List.length (queries w) -> m < fuel ->
    exists qs,
      query_more_pages fuel env query items response w =
        Some (Py.Raise cause, {| log := log w; queries := queries w ++ qs |}) /\
      List.length qs = S m.
Proof.
  induction 1 as [n k cause Hfail|n k page key' m cause Hok Hrest IH];
    intros fuel key items response w -> Hkey -> Hfuel;
    (destruct fuel as [|fuel]; [lia|]); cbn [query_more_pages]; rewrite Hkey;
    unfold bind at 1, table_query at 1.
  - exists [query (Some key)]. split; [|reflexivity].
    unfold query_failure in Hfail.
    destruct (table env (List.length (queries w)) (query (Some key))) as [r|e].
    + unfold bind at 1, lift at 1, Dynamo.get_Items.
      destruct (Dynamo.Items r); [discriminate|]. now inversion Hfail.
    + now inversion Hfail.
  - rewrite Hok. unfold bind at 1, lift at 1, Dynamo.get_Items. cbn [Dynamo.Items].
    destruct (IH fuel key' (items ++ page)
                {| Dynamo.Items := Some page; Dynamo.LastEvaluatedKey := Some key' |}
                {| log := log w; queries := queries w ++ [query (Some key)] |}
                eq_refl eq_refl) as (qs & Hrun & Hlen).
    + cbn [queries]. rewrite length_app. simpl. lia.
    + lia.
    + exists (query (Some key) :: qs). split; [|simpl; lia].
      rewrite Hrun. cbn [log queries]. rewrite <- app_assoc. reflexivity.
Qed.

(** Whatever page of the retrieval fails, the caller sees the one generic
    error, the cause is logged and the failed query is the last one sent. *)
Lemma retrieve_fail (fuel : nat) (env : Env) (i : Py.json) (st : Z)
    (w : World) (m : nat) (cause : Py.exn) :
  fails_after env (price_query "multiple_prices" i st (now env))
    (List.length (queries w)) None m cause ->
  m <= fuel ->
  exists qs,
    retrieve_prices_from_dynamodb fuel env i st w =
      Some (Py.Raise (Py.ValueError retrieval_error_message),
            {| log := log w ++ [error_record cause];
               queries := queries w ++ qs |}) /\
    List.length qs = S m.
Proof.
  intros Hfail Hfuel. unfold retrieve_prices_from_dynamodb, try_except.
  set (query := price_query "multiple_prices" i st (now env)) in *.
  unfold bind at 1, table_query at 1.
  inversion Hfail as [n k c Hnow|n k page key m' c Hok Hrest]; subst.
  - exists [query None]. split; [|reflexivity].
    unfold query_failure in Hnow.
    destruct (table env (List.length (queries w)) (query None)) as [r|e].
    + unfold bind at 1, lift at 1, Dynamo.get_Items.
      destruct (Dynamo.Items r); [discriminate|]. now inversion Hnow.
    + now inversion Hnow.
  - rewrite Hok. unfold bind at 1, lift at 1, Dynamo.get_Items. cbn [Dynamo.Items].
    destruct (more_pages_fail env query _ _ _ _ Hrest fuel key ([] ++ page)
                {| Dynamo.Items := Some page; Dynamo.LastEvaluatedKey := Some key |}
                {| log := log w; queries := queries w ++ [query None] |}
                eq_refl eq_refl) as (qs & Hrun & Hlen).
    + cbn [queries]. rewrite length_app. simpl. lia.
    + lia.
    + exists (query None :: qs). split; [|simpl; lia].
      rewrite Hrun. cbn [log queries]. rewrite <- app_assoc. reflexivity.
Qed.

End Handler.

(** ** Further facts on the order of doubles and the clamp *)

Module FloatTrans.

Lemma SFleb_key (x y : spec_float) :
  x <> S754_nan -> y <> S754_nan ->
  (SFleb x y = true <-> key_le (SFkey x) (SFkey y)).
Proof.
  intros Hx Hy. unfold SFleb, key_le.
  destruct x as [sx|sx| |sx mx ex], y as [sy|sy| |sy my ey];
    try congruence; clear Hx Hy;
    try (destruct sx); try (destruct sy); cbn [SFcompare SFkey fst snd];
    try (split; [intros _; lia|reflexivity]);
    try (split; [discriminate|lia]).
  - change (PosDef.Pos.compare_cont Eq mx my) with (Pos.compare mx my).
    destruct (Z.compare_spec ex ey), (Pos.compare_spec mx my); cbn [CompOpp];
      split; try discriminate; try reflexivity; lia.
  - change (PosDef.Pos.compare_cont Eq mx my) with (Pos.compare mx my).
    destruct (Z.compare_spec ex ey), (Pos.compare_spec mx my);
      split; try discriminate; try reflexivity; lia.
Qed.

Lemma key_le_trans (a b c : Z * (Z * Z)) : key_le a b -> key_le b c -> key_le a c.
Proof. unfold key_le. lia. Qed.

Lemma not_nan_spec (x : float) : has_value x -> Prim2SF x <> S754_nan.
Proof.
  unfold has_value. intros H E. apply FloatOrder.isnan_spec in E. congruence.
Qed.

(** The order of doubles is transitive. *)
Lemma leb_trans (x y z : float) : fle x y -> fle y z -> fle x z.
Proof.
  unfold fle. intros Hxy Hyz.
  destruct (FloatOrder.leb_not_nan _ _ Hxy) as [Hx Hy].
  destruct (FloatOrder.leb_not_nan _ _ Hyz) as [_ Hz].
  rewrite FloatAxioms.leb_spec in *.
  apply SFleb_key in Hxy; try now apply not_nan_spec.
  apply SFleb_key in Hyz; try now apply not_nan_spec.
  apply SFleb_key; try now apply not_nan_spec.
  eapply key_le_trans; eassumption.
Qed.

Lemma ltb_false_leb (x y : float) :
  has_value x -> has_value y -> PrimFloat.ltb x y = false -> fle y x.
Proof.
  unfold fle. intros Hx Hy. rewrite FloatAxioms.ltb_spec, FloatAxioms.leb_spec.
  unfold SFltb, SFleb. rewrite (FloatOrder.SFcompare_swap (Prim2SF x) (Prim2SF y)).
  destruct (FloatOrder.compare_not_nan x y Hx Hy) as [c ->].
  destruct c; simpl; congruence.
Qed.

Lemma has_value_or_no_data (x : float) : has_value x \/ no_data x.
Proof. unfold has_value, no_data. destruct (Np.isnan x); auto. Qed.

Lemma clamp_at_least_min (v : float) : at_least_min (clamp v).
Proof.
  unfold at_least_min, clamp. destruct (PrimFloat.ltb v vol_abs_min) eqn:E.
  - right. reflexivity.
  - destruct (has_value_or_no_data v) as [Hv|Hv]; [right|now left].
    now apply ltb_false_leb.
Qed.

Lemma clamp_idempotent (v : float) : clamp (clamp v) = clamp v.
Proof.
  unfold clamp at 1. now rewrite Clamp.clamp_not_below.
Qed.

(** The maximum with a reference that has a value keeps a value of a clamped
    series at least the minimum. *)
Lemma maximum_at_least_min (v r : float) :
  at_least_min v -> has_value r -> at_least_min (Np.maximum v r).
Proof.
  intros [Hv|Hv] Hr.
  - left. unfold no_data. now rewrite Floor.maximum_nan_l.
  - right. destruct (FloatOrder.leb_not_nan _ _ Hv) as [_ Hv'].
    unfold Np.maximum, Np.ge. rewrite Hv', orb_false_r.
    destruct (PrimFloat.leb r v) eqn:E; [exact Hv|].
    apply leb_trans with v; [exact Hv|].
    now apply FloatOrder.leb_total.
Qed.

(** Above zero, the maximum with 0.0 changes nothing. *)
Lemma maximum_zero (v : float) : at_least_min v -> Np.maximum v 0 = v.
Proof.
  intros [Hv|Hv].
  - now apply Floor.maximum_nan_l.
  - unfold Np.maximum, Np.ge.
    assert (fle 0 v) as H0 by (apply leb_trans with vol_abs_min; [reflexivity|exact Hv]).
    unfold fle in H0. now rewrite H0.
Qed.

End FloatTrans.

(** ** Further facts on the floor *)

Module FloorMore.

Lemma reference_values (vol : Pd.Series) :
  Pd.values vol <> [] ->
  exists ref,
    vol_floor_reference vol = Py.Ok ref /\
    Pd.index ref = Pd.index vol /\
    Pd.values ref = 0%float :: Pd.ffill_from 0%float (tl (raw_reference vol)).
Proof.
  intros Hne. eexists. split; [now apply Floor.reference_shape|]. split; reflexivity.
Qed.

Lemma ffill_from_step (last : float) (l : list float) (j : nat) (q : float) :
  nth_error l (S j) = Some q ->
  nth_error (Pd.ffill_from last l) (S j) =
    if Np.isnan q then nth_error (Pd.ffill_from last l) j else Some q.
Proof.
  revert last j; induction l as [|x l IH]; intros last j Hq; [discriminate|].
  cbn [Pd.ffill_from nth_error] in Hq |- *.
  destruct j as [|j].
  - destruct l as [|y l]; [discriminate|]. simpl in Hq. inversion Hq; subst y.
    simpl. now destruct (Np.isnan q).
  - now rewrite (IH _ _ Hq).
Qed.

Lemma clamped_at_least_min (vol : Pd.Series) :
  Forall at_least_min (Pd.values (apply_min_vol vol)).
Proof.
  rewrite Clamp.values_apply_min_vol. apply Forall_forall. intros o Ho.
  apply in_map_iff in Ho. destruct Ho as (v & <- & _).
  apply FloatTrans.clamp_at_least_min.
Qed.

(** Forward fill over a stretch without data repeats the value before it. *)
Lemma ffill_from_prefix (last : float) (l : list float) (k i : nat) (q : float) :
  Forall no_data (firstn k l) -> i < k -> nth_error l i = Some q ->
  nth_error (Pd.ffill_from last l) i = Some last.
Proof.
  revert last k i; induction l as [|x l IH]; intros last k i Hall Hi Hq;
    [now destruct i|].
  destruct k as [|k]; [lia|]. simpl in Hall. inversion Hall as [|? ? Hx Hl]; subst.
  unfold no_data in Hx.
  destruct i as [|i]; simpl.
  - now rewrite Hx.
  - rewrite Hx. apply (IH last k i); [exact Hl|lia|exact Hq].
Qed.

(** Fewer than 100 days in all: no raw reference yet. *)
Lemma raw_reference_early (vol : Pd.Series) (i : nat) :
  i < 99 -> i < List.length (Pd.values vol) ->
  nth_error (raw_reference vol) i = Some PrimFloat.nan.
Proof.
  intros Hi Hlen. rewrite Rolling.raw_reference_spec by exact Hlen.
  f_equal. unfold trailing_percentile, window_observations.
  destruct (100 <=? List.length (observations (trailing_window 500 (Pd.values vol) i)))
    eqn:E; [|reflexivity].
  apply Nat.leb_le in E.
  pose proof (Rolling.observations_length (trailing_window 500 (Pd.values vol) i)) as H.
  assert (List.length (trailing_window 500 (Pd.values vol) i) <= S i) as H'.
  { unfold trailing_window, lastn. rewrite length_skipn.
    pose proof (firstn_le_length (S i) (Pd.values vol)). lia. }
  lia.
Qed.

Lemma firstn_all_nth {A : Type} (P : A -> Prop) (l : list A) (k : nat) :
  (forall i x, i < k -> nth_error l i = Some x -> P x) -> Forall P (firstn k l).
Proof.
  revert k; induction l as [|a l IH]; intros k H; [rewrite firstn_nil; constructor|].
  destruct k as [|k]; [constructor|]. simpl. constructor.
  - apply (H 0 a); [lia|reflexivity].
  - apply IH. intros i x Hi Hx. apply (H (S i) x); [lia|exact Hx].
Qed.

Lemma reference_early (vol : Pd.Series) (i : nat) :
  i < 99 -> i < List.length (Pd.values vol) ->
  nth_error (0%float :: Pd.ffill_from 0%float (tl (raw_reference vol))) i
    = Some 0%float.
Proof.
  intros Hi Hlen. destruct i as [|i]; [reflexivity|]. simpl.
  pose proof (Floor.raw_reference_length vol) as Hraw.
  destruct (ListFacts.nth_error_in_range (tl (raw_reference vol)) i) as [q Hq].
  { destruct (raw_reference vol); simpl in *; lia. }
  apply (ffill_from_prefix 0%float _ 98 i q); [|lia|exact Hq].
  apply firstn_all_nth. intros j x Hj Hx.
  assert (nth_error (raw_reference vol) (S j) = Some x) as Hx'.
  { destruct (raw_reference vol); [now destruct j|exact Hx]. }
  rewrite raw_reference_early in Hx'.
  - inversion Hx'. reflexivity.
  - lia.
  - rewrite <- Hraw. apply nth_error_Some. congruence.
Qed.

Lemma values_not_empty_nth (vol : Pd.Series) (i : nat) (v : float) :
  nth_error (Pd.values vol) i = Some v -> Pd.values vol <> [].
Proof. intros H E. rewrite E in H. now destruct i. Qed.

Lemma pipeline_values_length (prices : Pd.Series) :
  List.length (Pd.values (apply_min_vol (simple_ewvol_calc prices)))
    = List.length (Pd.values prices).
Proof.
  rewrite Clamp.values_apply_min_vol, length_map, Ewm.values_simple_ewvol_calc,
    length_map, Ewm.ewmcov_length.
  unfold Pd.prep_values. apply length_map.
Qed.

(** The three stages after the aggregation run on the daily prices of a
    calendar, and the floored volatility is a series over that calendar. *)
Lemma stages_run (raw : list Dynamo.Item) :
  let days := calendar (first_day raw)
                (S (Z.to_nat (last_day raw - first_day raw))) in
  let prices := {| Pd.index := days;
                   Pd.values := map (fun d => Pd.group_mean (day_prices raw d)) days |} in
  exists out : Pd.Series,
    apply_vol_floor (apply_min_vol (simple_ewvol_calc prices)) = Py.Ok out /\
    Pd.index out = days /\
    List.length (Pd.values out) = List.length (Pd.index out).
Proof.
  intros days prices.
  set (cl := apply_min_vol (simple_ewvol_calc prices)).
  assert (List.length (Pd.values cl) = List.length days) as Hlen.
  { subst cl. rewrite pipeline_values_length. subst prices.
    cbn [Pd.values]. apply length_map. }
  assert (Pd.values cl <> []) as Hcl.
  { intros E. rewrite E in Hlen. subst days. unfold calendar in Hlen.
    rewrite length_map, length_seq in Hlen. discriminate. }
  pose proof (Floor.reference_shape cl Hcl) as Href.
  set (ref := Pd.with_values cl
                (0%float :: Pd.ffill_from 0%float (tl (raw_reference cl)))) in *.
  exists (Pd.np_maximum cl ref).
  split; [now apply Floor.apply_vol_floor_unfold|].
  split; [reflexivity|].
  cbn [Pd.np_maximum Pd.values Pd.with_values Pd.index].
  rewrite ListFacts.map2_length, (Floor.reference_values_length cl ref Href).
  change (Pd.index cl) with days. lia.
Qed.

(** On observations that are not empty and lie inside the range of time
    stamps no stage raises, and the floored volatility is a series over the
    calendar of the daily prices. *)
Lemma pipeline_runs (raw : list Dynamo.Item) :
  raw <> [] -> within_range raw ->
  exists prices out : Pd.Series,
    aggregate_to_day_based_prices raw = Py.Ok prices /\
    apply_vol_floor (apply_min_vol (simple_ewvol_calc prices)) = Py.Ok out /\
    Pd.index out = calendar (first_day raw)
                     (S (Z.to_nat (last_day raw - first_day raw))) /\
    List.length (Pd.values out) = List.length (Pd.index out).
Proof.
  intros Hne Hin. eexists.
  destruct (stages_run raw) as (out & Hout & Hidx & Hlen).
  exists out. split; [exact (Aggregation.aggregate_spec raw Hne Hin)|].
  split; [exact Hout|]. split; assumption.
Qed.


End FloorMore.

(** ** Further facts on the retrieval *)

Module Retrieval.

Import Runtime.

Lemma more_pages_ok (env : Env) (query : option Dynamo.Key -> Dynamo.Query)
    (n : nat) (k : option Dynamo.Key) (pages : list (list Dynamo.Item))
    (qs : list Dynamo.Query) :
  reads_pages env query n k pages qs ->
  forall (fuel : nat) (key : Dynamo.Key) (items : list Dynamo.Item)
         (response : Dynamo.Response) (w : World),
    k = Some key -> Dynamo.LastEvaluatedKey response = Some key ->
    n = List.length (queries w) -> List.length pages <= fuel ->
    query_more_pages fuel env query items response w =
      Some (Py.Ok (items ++ List.concat pages),
            {| log := log w; queries := queries w ++ qs |}).
Proof.
  induction 1 as [n k page Hok|n k page key' pages qs Hok Hrest IH];
    intros fuel key items response w -> Hkey -> Hfuel;
    (destruct fuel as [|fuel]; [simpl in Hfuel; lia|]);
    cbn [query_more_pages]; rewrite Hkey;
    unfold bind at 1, table_query at 1; rewrite Hok;
    unfold bind at 1, lift at 1, Dynamo.get_Items; cbn [Dynamo.Items].
  - destruct fuel; cbn [query_more_pages Dynamo.LastEvaluatedKey];
      unfold ret; simpl List.concat; now rewrite app_nil_r.
  - rewrite (IH fuel key' (items ++ page)
               {| Dynamo.Items := Some page; Dynamo.LastEvaluatedKey := Some key' |}
               {| log := log w; queries := queries w ++ [query (Some key)] |}
               eq_refl eq_refl).
    + cbn [log queries List.concat]. now rewrite <- !app_assoc.
    + cbn [queries]. rewrite length_app. simpl. lia.
    + simpl in Hfuel. lia.
Qed.

(** A retrieval whose pages all arrive returns them all, in order. *)
Lemma retrieve_ok (fuel : nat) (env : Env) (i : Py.json) (st : Z) (w : World)
    (pages : list (list Dynamo.Item)) (qs : list Dynamo.Query) :
  reads_pages env (price_query "multiple_prices" i st (now env))
    (List.length (queries w)) None pages qs ->
  List.length pages <= S fuel ->
  retrieve_prices_from_dynamodb fuel env i st w =
    Some (Py.Ok (List.concat pages), {| log := log w; queries := queries w ++ qs |}).
Proof.
  intros Hread Hfuel. unfold retrieve_prices_from_dynamodb, try_except.
  set (query := price_query "multiple_prices" i st (now env)) in *.
  unfold bind at 1, table_query at 1.
  inversion Hread as [n k page Hok|n k page key pages' qs' Hok Hrest]; subst;
    rewrite Hok; unfold bind at 1, lift at 1, Dynamo.get_Items; cbn [Dynamo.Items].
  - destruct fuel; cbn [query_more_pages Dynamo.LastEvaluatedKey];
      unfold ret; simpl; now rewrite app_nil_r.
  - rewrite (more_pages_ok env query _ _ _ _ Hrest fuel key ([] ++ page)
               {| Dynamo.Items := Some page; Dynamo.LastEvaluatedKey := Some key |}
               {| log := log w; queries := queries w ++ [query None] |}
               eq_refl eq_refl).
    + cbn [log queries List.concat app]. now rewrite <- (app_assoc (queries w)).
    + cbn [queries]. rewrite length_app. simpl. lia.
    + simpl in Hfuel. lia.
Qed.

Lemma more_pages_outcome (env : Env) (query : option Dynamo.Key -> Dynamo.Query)
    (fuel : nat) :
  forall (items : list Dynamo.Item) (response : Dynamo.Response) (w w' : World)
         (out : Py.result (list Dynamo.Item)),
    query_more_pages fuel env query items response w = Some (out, w') ->
    log w' = log w /\
    exists qs, queries w' = queries w ++ qs /\
               Forall (fun q => exists k, q = query k) qs.
Proof.
  induction fuel as [|fuel IH]; intros items response w w' out;
    cbn [query_more_pages]; destruct (Dynamo.LastEvaluatedKey response) as [key|].
  - discriminate.
  - unfold ret. intros H. inversion H; subst. split; [reflexivity|].
    exists []. split; [now rewrite app_nil_r|constructor].
  - unfold bind at 1, table_query at 1.
    destruct (table env (List.length (queries w)) (query (Some key))) as [r|e].
    + unfold bind at 1, lift at 1.
      destruct (Dynamo.get_Items r) as [page|e].
      * intros H. apply IH in H. cbn [log queries] in H.
        destruct H as (Hlog & qs & Hqs & Hall). split; [exact Hlog|].
        exists (query (Some key) :: qs). split; [now rewrite Hqs, <- app_assoc|].
        constructor; eauto.
      * intros H. inversion H; subst. split; [reflexivity|].
        exists [query (Some key)]. split; [reflexivity|]. constructor; eauto.
    + intros H. inversion H; subst. split; [reflexivity|].
      exists [query (Some key)]. split; [reflexivity|]. constructor; eauto.
  - unfold ret. intros H. inversion H; subst. split; [reflexivity|].
    exists []. split; [now rewrite app_nil_r|constructor].
Qed.

(** What a finished retrieval can have done. *)
Lemma retrieve_outcome (fuel : nat) (env : Env) (i : Py.json) (st : Z)
    (w w' : World) (out : Py.result (list Dynamo.Item)) :
  retrieve_prices_from_dynamodb fuel env i st w = Some (out, w') ->
  (exists qs, queries w' = queries w
                ++ price_query "multiple_prices" i st (now env) None :: qs /\
              Forall (scoped env i st) qs) /\
  ((exists items, out = Py.Ok items /\ log w' = log w) \/
   (exists cause, out = Py.Raise (Py.ValueError retrieval_error_message) /\
                  log w' = log w ++ [error_record cause])).
Proof.
  unfold retrieve_prices_from_dynamodb, try_except.
  set (query := price_query "multiple_prices" i st (now env)).
  unfold bind at 1, table_query at 1.
  destruct (table env (List.length (queries w)) (query None)) as [r|e].
  - unfold bind at 1, lift at 1. destruct (Dynamo.get_Items r) as [page|e].
    + destruct (query_more_pages fuel env query ([] ++ page) r
                  {| log := log w; queries := queries w ++ [query None] |})
        as [[[items|e] w1]|] eqn:E; [| |discriminate];
        apply more_pages_outcome in E; cbn [log queries] in E;
        destruct E as (Hlog & qs & Hqs & Hall).
      * intros H. inversion H; subst. split.
        -- exists qs. split; [now rewrite Hqs, <- app_assoc|exact Hall].
        -- left. eauto.
      * unfold bind, logger_error, raise. intros H. inversion H; subst.
        cbn [log queries]. split.
        -- exists qs. split; [now rewrite Hqs, <- app_assoc|exact Hall].
        -- right. exists e. rewrite Hlog. split; reflexivity.
    + unfold bind, logger_error, raise. intros H. inversion H; subst.
      cbn [log queries]. split.
      * exists []. split; [reflexivity|constructor].
      * right. exists e. split; reflexivity.
  - unfold bind, logger_error, raise. intros H. inversion H; subst.
    cbn [log queries]. split.
    + exists []. split; [reflexivity|constructor].
    + right. exists e. split; reflexivity.
Qed.

Lemma more_pages_endless (env : Env) (query : option Dynamo.Key -> Dynamo.Query)
    (fuel : nat) :
  endless env ->
  forall (items : list Dynamo.Item) (response : Dynamo.Response) (key : Dynamo.Key)
         (w : World),
    Dynamo.LastEvaluatedKey response = Some key ->
    query_more_pages fuel env query items response w = None.
Proof.
  intros Hend. induction fuel as [|fuel IH]; intros items response key w Hkey;
    cbn [query_more_pages]; rewrite Hkey; [reflexivity|].
  unfold bind at 1, table_query at 1.
  destruct (Hend (List.length (queries w)) (query (Some key))) as (page & key' & ->).
  unfold bind at 1, lift at 1, Dynamo.get_Items. cbn [Dynamo.Items].
  now apply IH with key'.
Qed.

Lemma retrieve_endless (fuel : nat) (env : Env) (i : Py.json) (st : Z) (w : World) :
  endless env -> retrieve_prices_from_dynamodb fuel env i st w = None.
Proof.
  intros Hend. unfold retrieve_prices_from_dynamodb, try_except.
  unfold bind at 1, table_query at 1.
  destruct (Hend (List.length (queries w))
              (price_query "multiple_prices" i st (now env) None))
    as (page & key & ->).
  unfold bind at 1, lift at 1, Dynamo.get_Items. cbn [Dynamo.Items].
  now rewrite (more_pages_endless env _ fuel Hend _ _ key).
Qed.

End Retrieval.

(** ** Further facts on the aggregation and the handler *)

Module AggregationMore.

(** Two sorted frames with the same rows, no two at the same time stamp, are
    the same frame. *)
Lemma sorted_perm_unique (l1 : Pd.TimeFrame) :
  forall l2 : Pd.TimeFrame,
    StronglySorted time_le l1 -> StronglySorted time_le l2 ->
    Permutation l1 l2 -> NoDup (map fst l1) -> l1 = l2.
Proof.
  induction l1 as [|a l1 IH]; intros l2 Hs1 Hs2 Hp Hnd.
  - apply Permutation_nil in Hp. now subst.
  - destruct l2 as [|b l2].
    { apply Permutation_sym, Permutation_nil in Hp. discriminate. }
    pose proof (Aggregation.sorted_head_least _ _ Hs1) as H1.
    pose proof (Aggregation.sorted_head_least _ _ Hs2) as H2.
    rewrite Forall_forall in H1, H2.
    assert (In b (a :: l1)) as Hb
      by (eapply Permutation_in; [symmetry; exact Hp|now left]).
    assert (In a (b :: l2)) as Ha
      by (eapply Permutation_in; [exact Hp|now left]).
    pose proof (H1 b Hb) as Hab. pose proof (H2 a Ha) as Hba.
    unfold time_le in Hab, Hba.
    assert (a = b) as E.
    { destruct Hb as [Hb|Hb]; [exact Hb|].
      inversion Hnd as [|? ? Hnotin _]; subst. exfalso. apply Hnotin.
      replace (fst a) with (fst b) by lia. now apply in_map. }
    subst b. f_equal. apply IH.
    + now inversion Hs1.
    + now inversion Hs2.
    + eapply Permutation_cons_inv; exact Hp.
    + now inversion Hnd.
Qed.

Lemma sort_by_time_perm_eq (l1 l2 : Pd.TimeFrame) :
  Permutation l1 l2 -> NoDup (map fst l1) ->
  Pd.sort_by_time l1 = Pd.sort_by_time l2.
Proof.
  intros Hp Hnd. apply sorted_perm_unique.
  - apply Aggregation.sort_by_time_sorted.
  - apply Aggregation.sort_by_time_sorted.
  - rewrite <- (Aggregation.sort_by_time_perm l1), <- (Aggregation.sort_by_time_perm l2).
    exact Hp.
  - eapply Permutation_NoDup; [|exact Hnd].
    apply Permutation_map, Aggregation.sort_by_time_perm.
Qed.

Lemma forallb_perm {A : Type} (p : A -> bool) (l l' : list A) :
  Permutation l l' -> forallb p l = forallb p l'.
Proof.
  induction 1 as [|x l l' _ IH|x y l|l l' l'' _ IH1 _ IH2]; simpl.
  - reflexivity.
  - now rewrite IH.
  - destruct (p x), (p y); reflexivity.
  - congruence.
Qed.

Lemma aggregate_perm (raw raw' : list Dynamo.Item) :
  Permutation raw raw' -> NoDup (map Dynamo.UnixDateTime raw) ->
  aggregate_to_day_based_prices raw' = aggregate_to_day_based_prices raw.
Proof.
  intros Hp Hnd.
  unfold aggregate_to_day_based_prices, Pd.set_index, Pd.DataFrame_from_dict.
  destruct raw as [|it raw0], raw' as [|it' raw0'].
  - reflexivity.
  - apply Permutation_nil in Hp. discriminate.
  - apply Permutation_sym, Permutation_nil in Hp. discriminate.
  - simpl existsb. cbn [Pd.rows Py.bind].
    change (map (fun it0 => (Dynamo.UnixDateTime it0, Dynamo.Price it0)) (it' :: raw0'))
      with (observation_rows (it' :: raw0')).
    change (map (fun it0 => (Dynamo.UnixDateTime it0, Dynamo.Price it0)) (it :: raw0))
      with (observation_rows (it :: raw0)).
    assert (Permutation (observation_rows (it :: raw0))
                        (observation_rows (it' :: raw0'))) as Hrows
      by now apply Permutation_map.
    unfold Pd.to_datetime.
    rewrite <- (forallb_perm _ _ _ Hrows).
    destruct (forallb _ (observation_rows (it :: raw0))); [|reflexivity].
    cbn [Py.bind]. unfold Pd.resample_D_mean.
    rewrite (sort_by_time_perm_eq (observation_rows (it :: raw0))
               (observation_rows (it' :: raw0'))); [reflexivity|exact Hrows|].
    unfold observation_rows. rewrite map_map. exact Hnd.
Qed.

End AggregationMore.

Module HandlerMore.

Import Runtime.

Lemma handler_no_instrument (fuel : nat) (env : Env) (data : Py.json)
    (e : Py.exn) (w : World) :
  Py.getitem data "instrument" = Py.Raise e ->
  robust_volatility_calculation fuel env data w = Some (Py.Raise e, w).
Proof.
  intros H. unfold robust_volatility_calculation, bind at 1, lift at 1.
  now rewrite H.
Qed.

Lemma handler_no_start_time (fuel : nat) (env : Env) (data i : Py.json)
    (e : Py.exn) (w : World) :
  Py.getitem data "instrument" = Py.Ok i ->
  Py.getitem data "start_time" = Py.Raise e ->
  robust_volatility_calculation fuel env data w = Some (Py.Raise e, w).
Proof.
  intros Hi H. unfold robust_volatility_calculation, bind at 1, lift at 1.
  rewrite Hi. unfold bind at 1, lift at 1. now rewrite H.
Qed.

Lemma serve_ok (fuel : nat) (env : Env) (i : Py.json) (st : Z) (w : World)
    (pages : list (list Dynamo.Item)) (qs : list Dynamo.Query) :
  reads_pages env (price_query "multiple_prices" i st (now env))
    (List.length (queries w)) None pages qs ->
  List.length pages <= S fuel ->
  List.concat pages <> [] ->
  within_range (List.concat pages) ->
  serve fuel env i st w =
    Some (Py.Ok {| rule := "Robust Volatility Series"; instrument := i |},
          {| log := log w; queries := queries w ++ qs |}).
Proof.
  intros Hread Hfuel Hne Hin. unfold serve, bind at 1.
  rewrite (Retrieval.retrieve_ok fuel env i st w pages qs Hread Hfuel).
  destruct (FloorMore.pipeline_runs _ Hne Hin) as (prices & out & Hagg & Hout & _).
  unfold bind at 1, lift at 1. rewrite Hagg.
  unfold bind at 1, lift at 1. rewrite Hout. reflexivity.
Qed.

Lemma serve_fail (fuel : nat) (env : Env) (i : Py.json) (st : Z) (w : World)
    (m : nat) (cause : Py.exn) :
  fails_after env (price_query "multiple_prices" i st (now env))
    (List.length (queries w)) None m cause ->
  m <= fuel ->
  exists qs,
    serve fuel env i st w =
      Some (Py.Raise (Py.ValueError retrieval_error_message),
            {| log := log w ++ [error_record cause]; queries := queries w ++ qs |}) /\
    List.length qs = S m.
Proof.
  intros Hfail Hfuel.
  destruct (Handler.retrieve_fail fuel env i st w m cause Hfail Hfuel)
    as (qs & Hrun & Hlen).
  exists qs. split; [|exact Hlen]. unfold serve, bind at 1. now rewrite Hrun.
Qed.

End HandlerMore.

(** ** The stages on the first days of a series *)

Module Prefix.

Lemma prep_values_firstn (k : nat) (l : list float) :
  Pd.prep_values (firstn k l) = firstn k (Pd.prep_values l).
Proof. unfold Pd.prep_values. symmetry. apply firstn_map. Qed.

Lemma ewm_loop_firstn (f w : float) (minp : nat) (l : list float) :
  forall (st : Pd.EwmState) (k : nat),
    Pd.ewm_loop f w minp st (firstn k l) = firstn k (Pd.ewm_loop f w minp st l).
Proof.
  induction l as [|x l IH]; intros st k.
  - now destruct k.
  - destruct k as [|k]; [reflexivity|]. simpl. now rewrite IH.
Qed.

Lemma ewmcov_firstn (minp : nat) (com : float) (l : list float) (k : nat) :
  Pd.ewmcov minp com (firstn k l) = firstn k (Pd.ewmcov minp com l).
Proof.
  unfold Pd.ewmcov. destruct l as [|x0 l]; [now destruct k|].
  destruct k as [|k]; [reflexivity|]. simpl. now rewrite ewm_loop_firstn.
Qed.

Lemma slice_firstn {A : Type} (l : list A) (k s e : nat) :
  e <= k -> Pd.slice (firstn k l) s e = Pd.slice l s e.
Proof.
  intros He. unfold Pd.slice. rewrite skipn_firstn_comm, firstn_firstn.
  f_equal. lia.
Qed.

Lemma firstn_seq_min (k a n : nat) : firstn k (seq a n) = seq a (Nat.min k n).
Proof.
  revert a n; induction k as [|k IH]; intros a n; [reflexivity|].
  destruct n as [|n]; [reflexivity|]. simpl. now rewrite IH.
Qed.

Lemma roll_quantile_firstn (window minp : nat) (q : float) (l : list float)
    (k : nat) :
  Pd.roll_quantile window minp q (firstn k l)
    = firstn k (Pd.roll_quantile window minp q l).
Proof.
  unfold Pd.roll_quantile. rewrite firstn_map, firstn_seq_min, length_firstn.
  apply map_ext_in. intros i Hi. apply in_seq in Hi.
  unfold Pd.window_bounds. rewrite slice_firstn by lia. reflexivity.
Qed.

Lemma ffill_from_firstn (l : list float) :
  forall (last : float) (k : nat),
    Pd.ffill_from last (firstn k l) = firstn k (Pd.ffill_from last l).
Proof.
  induction l as [|x l IH]; intros last k.
  - now destruct k.
  - destruct k as [|k]; [reflexivity|]. simpl. now rewrite IH.
Qed.

Lemma map2_firstn {A B C : Type} (f : A -> B -> C) (l : list A) :
  forall (l' : list B) (k : nat),
    Pd.map2 f (firstn k l) (firstn k l') = firstn k (Pd.map2 f l l').
Proof.
  induction l as [|x l IH]; intros l' k.
  - now destruct k.
  - destruct l' as [|y l'].
    + now destruct k.
    + destruct k as [|k]; [reflexivity|]. simpl. now rewrite IH.
Qed.

Lemma raw_reference_firstn (k : nat) (s : Pd.Series) :
  raw_reference (first_days k s) = firstn k (raw_reference s).
Proof.
  unfold raw_reference, Pd.rolling_quantile, first_days.
  cbn [Pd.values Pd.with_values].
  now rewrite prep_values_firstn, roll_quantile_firstn.
Qed.

Lemma estimator_firstn (k : nat) (s : Pd.Series) :
  apply_min_vol (simple_ewvol_calc (first_days k s))
    = first_days k (apply_min_vol (simple_ewvol_calc s)).
Proof.
  unfold apply_min_vol, Pd.mask_lt_assign, simple_ewvol_calc, Pd.ewm_std,
    Pd.with_values, first_days. cbn [Pd.index Pd.values]. f_equal.
  now rewrite prep_values_firstn, ewmcov_firstn, !firstn_map.
Qed.

(** The floor of the first days is the first days of the floor. *)
Lemma floor_firstn (k : nat) (vol : Pd.Series) :
  1 <= k -> Pd.values vol <> [] ->
  apply_vol_floor (first_days k vol) =
    Py.Ok (first_days k
             (Pd.np_maximum vol
                (Pd.with_values vol
                   (0%float :: Pd.ffill_from 0%float (tl (raw_reference vol)))))).
Proof.
  intros Hk Hne.
  assert (Pd.values (first_days k vol) <> []) as Hne'.
  { unfold first_days. cbn [Pd.values].
    destruct (Pd.values vol); [congruence|]. destruct k; [lia|discriminate]. }
  rewrite (Floor.apply_vol_floor_unfold _ _ (Floor.reference_shape _ Hne')).
  f_equal. unfold Pd.np_maximum, Pd.with_values, first_days.
  cbn [Pd.index Pd.values]. f_equal.
  rewrite <- map2_firstn. f_equal.
  fold (first_days k vol). rewrite raw_reference_firstn.
  destruct k as [|k]; [lia|].
  pose proof (Floor.raw_reference_length vol) as Hlen.
  destruct (raw_reference vol) as [|q0 qs].
  - destruct (Pd.values vol); [congruence|discriminate].
  - cbn [firstn tl]. now rewrite ffill_from_firstn.
Qed.

Lemma pipeline_firstn (k : nat) (prices : Pd.Series) :
  1 <= k -> Pd.values prices <> [] ->
  exists out : Pd.Series,
    apply_vol_floor (apply_min_vol (simple_ewvol_calc prices)) = Py.Ok out /\
    apply_vol_floor (apply_min_vol (simple_ewvol_calc (first_days k prices)))
      = Py.Ok (first_days k out).
Proof.
  intros Hk Hne.
  set (cl := apply_min_vol (simple_ewvol_calc prices)).
  assert (Pd.values cl <> []) as Hcl.
  { intros E. pose proof (FloorMore.pipeline_values_length prices) as H.
    fold cl in H. rewrite E in H. destruct (Pd.values prices); [congruence|discriminate]. }
  eexists. split.
  - apply Floor.apply_vol_floor_unfold, Floor.reference_shape, Hcl.
  - rewrite estimator_firstn. fold cl. now apply floor_firstn.
Qed.

End Prefix.


(** ** The value of the estimator after the warm-up *)

Module EwmValue.















End EwmValue.

(** ** The sums of weights of the estimator *)

Module Weights.









(** *** Doubles that are not missing *)






(** *** The sums of weights on a series without missing days *)






(** *** Constant series *)






End Weights.

(** ** Sums and means of whole numbers *)

Module WholeSums.

Local Open Scope Z_scope.

(** *** Digits and shifts *)

Lemma digits2_size (p : positive) : digits2_pos p = Pos.size p.
Proof. induction p; simpl; try rewrite IHp; reflexivity. Qed.

Lemma shl_value (p q : positive) :
  Z.pos (Pos.iter xO p q) = Z.pos p * 2 ^ Z.pos q.
Proof.
  revert p. induction q as [|q IH] using Pos.peano_ind; intros p.
  - simpl. lia.
  - rewrite Pos.iter_succ, Pos2Z.inj_succ, Z.pow_succ_r by lia.
    change (Z.pos (Pos.iter xO p q)~0) with (2 * Z.pos (Pos.iter xO p q)).
    rewrite IH. lia.
Qed.

Lemma digits_shl (p q : positive) :
  Z.pos (digits2_pos (Pos.iter xO p q)) = Z.pos (digits2_pos p) + Z.pos q.
Proof.
  induction q as [|q IH] using Pos.peano_ind.
  - simpl. lia.
  - rewrite Pos.iter_succ. cbn [digits2_pos].
    change (PosDef.Pos.succ ?x) with (Pos.succ x). lia.
Qed.

Lemma digits_bounds (p : positive) :
  2 ^ (Z.pos (digits2_pos p) - 1) <= Z.pos p < 2 ^ Z.pos (digits2_pos p).
Proof.
  rewrite digits2_size.
  pose proof (Pos.size_gt p) as Hgt. pose proof (Pos.size_le p) as Hle.
  apply Pos2Z.pos_lt_pos in Hgt. apply Pos2Z.pos_le_pos in Hle.
  rewrite Pos2Z.inj_pow in Hgt, Hle.
  change (Z.pos p~0) with (2 * Z.pos p) in Hle.
  replace (Z.pos (Pos.size p)) with (Z.succ (Z.pos (Pos.size p) - 1)) in Hle at 1 by lia.
  rewrite Z.pow_succ_r in Hle by lia. lia.
Qed.

Lemma digits_below (p : positive) (k : Z) :
  0 <= k -> Z.pos p < 2 ^ k -> Z.pos (digits2_pos p) <= k.
Proof.
  intros Hk Hp. destruct (digits_bounds p) as [Hlo _].
  destruct (Z.le_gt_cases (Z.pos (digits2_pos p)) k) as [H|H]; [exact H|].
  exfalso. assert (2 ^ k <= 2 ^ (Z.pos (digits2_pos p) - 1)).
  { apply Z.pow_le_mono_r; lia. }
  lia.
Qed.

Lemma fexp_canonical (e : Z) : -1074 <= e -> fexp prec emax (53 + e) = e.
Proof. intros H. unfold fexp, SpecFloat.emin, prec, emax. lia. Qed.

(** *** Rounding what needs no rounding *)

Lemma round_canonical (s : bool) (m : positive) (e : Z) :
  Z.pos (digits2_pos m) = 53 -> -1074 <= e <= 971 ->
  binary_round_aux prec emax s (Z.pos m) e loc_Exact = S754_finite s m e.
Proof.
  intros Hd He. unfold binary_round_aux, shr_fexp.
  cbn [Zdigits2 shr_record_of_loc]. rewrite Hd, (fexp_canonical e) by lia.
  replace (e - e) with 0 by lia. cbn [shr shr_m loc_of_shr_record round_nearest_even
                                      Zdigits2 shr_record_of_loc].
  rewrite Hd, (fexp_canonical e) by lia.
  replace (e - e) with 0 by lia. cbn [shr shr_m].
  replace (e <=? emax - prec) with true; [reflexivity|].
  symmetry. apply Z.leb_le. unfold emax, prec. lia.
Qed.

Lemma shr_exact (q M : positive) :
  iter_pos shr_1 q
    {| shr_m := Z.pos (Pos.iter xO M q); shr_r := false; shr_s := false |}
  = {| shr_m := Z.pos M; shr_r := false; shr_s := false |}.
Proof.
  revert M. induction q as [q IH|q IH|]; intros M; cbn [iter_pos Pos.iter].
  - cbn [shr_1 orb]. rewrite IH, IH. reflexivity.
  - rewrite IH, IH. reflexivity.
  - reflexivity.
Qed.

(** A mantissa and an exponent that stand for the number of a canonical pair
    round to that pair. *)
Lemma binary_round_exact (s : bool) (p : positive) (e : Z) (M : positive) (e' : Z) :
  Z.pos (digits2_pos M) = 53 -> -1074 <= e' <= 971 ->
  Z.pos p * 2 ^ Z.max 0 (e - e') = Z.pos M * 2 ^ Z.max 0 (e' - e) ->
  binary_round prec emax s p e = S754_finite s M e'.
Proof.
  intros Hd He' Hv. unfold binary_round.
  destruct (Z.compare_spec e' e) as [Heq|Hlt|Hgt].
  - subst e'. rewrite Z.sub_diag in Hv. rewrite Z.max_id, Z.pow_0_r in Hv.
    assert (p = M) by lia. subst p.
    rewrite Hd, (fexp_canonical e) by lia.
    unfold shl_align. rewrite Z.sub_diag. now apply round_canonical.
  - rewrite Z.max_r in Hv by lia. rewrite Z.max_l in Hv by lia.
    rewrite Z.pow_0_r, Z.mul_1_r in Hv.
    destruct (e - e') as [|q|q] eqn:Eq; try lia.
    rewrite <- shl_value in Hv. apply Pos2Z.inj in Hv. rename Hv into HM.
    assert (Z.pos (digits2_pos p) + e = 53 + e') as Hdig.
    { rewrite <- Hd, <- HM, digits_shl. lia. }
    rewrite Hdig, (fexp_canonical e') by lia.
    unfold shl_align. replace (e' - e) with (Z.neg q) by lia.
    rewrite HM. now apply round_canonical.
  - rewrite Z.max_l in Hv by lia. rewrite Z.max_r in Hv by lia.
    rewrite Z.pow_0_r, Z.mul_1_r in Hv.
    destruct (e' - e) as [|q|q] eqn:Eq; try lia.
    rewrite <- shl_value in Hv. apply Pos2Z.inj in Hv. rename Hv into Hp.
    assert (Z.pos (digits2_pos p) + e = 53 + e') as Hdig.
    { rewrite Hp, digits_shl. lia. }
    rewrite Hdig, (fexp_canonical e') by lia.
    unfold shl_align. rewrite Eq.
    unfold binary_round_aux, shr_fexp.
    cbn [Zdigits2 shr_record_of_loc].
    rewrite Hdig, (fexp_canonical e') by lia. rewrite Eq.
    cbn [shr].
    assert (iter_pos shr_1 q {| shr_m := Z.pos p; shr_r := false; shr_s := false |}
            = {| shr_m := Z.pos M; shr_r := false; shr_s := false |}) as Eshr
      by (rewrite Hp; apply shr_exact).
    rewrite !Eshr.
    cbn [shr_m loc_of_shr_record round_nearest_even Zdigits2 shr_record_of_loc].
    replace (e + Z.pos q) with e' by lia.
    rewrite Hd, (fexp_canonical e') by lia.
    replace (e' - e') with 0 by lia. cbn [shr shr_m].
    replace (e' <=? emax - prec) with true; [reflexivity|].
    symmetry. apply Z.leb_le. unfold emax, prec. lia.
Qed.


(** *** Whole numbers below 2^53 *)

Lemma shl_align_value (m : positive) (e e' : Z) :
  e' <= e -> Z.pos (fst (shl_align m e e')) = Z.pos m * 2 ^ (e - e').
Proof.
  intros H. unfold shl_align.
  destruct (e' - e) as [|q|q] eqn:Eq; try lia.
  - replace (e - e') with 0 by lia. cbn [fst]. lia.
  - cbn [fst]. rewrite shl_value. f_equal. f_equal. lia.
Qed.

Lemma pow2_add (x y : Z) : 0 <= x -> 0 <= y -> 2 ^ x * 2 ^ y = 2 ^ (x + y).
Proof. intros. symmetry. now apply Z.pow_add_r. Qed.

(** The canonical pair of a whole number. *)
Lemma whole_pos (z : Z) :
  0 < z < 2 ^ 53 ->
  exists (M : positive) (e' : Z),
    whole z = S754_finite false M e' /\
    Z.pos (digits2_pos M) = 53 /\ -52 <= e' <= 0 /\
    Z.pos M = z * 2 ^ (- e').
Proof.
  intros Hz. destruct z as [|p|p]; try lia.
  pose proof (digits_below p 53 ltac:(lia) (proj2 Hz)) as Hd.
  assert (1 <= Z.pos (digits2_pos p)) as Hd1 by lia.
  set (d := Z.pos (digits2_pos p)) in *.
  assert (exists M, Z.pos M = Z.pos p * 2 ^ (53 - d) /\ Z.pos (digits2_pos M) = 53)
    as (M & HM & HdM).
  { destruct (53 - d) as [|q|q] eqn:Eq; try lia.
    - exists p. split; [lia|]. fold d. lia.
    - exists (Pos.iter xO p q). split; [apply shl_value|].
      rewrite digits_shl. fold d. lia. }
  exists M, (d - 53). split; [|split; [exact HdM|split; [lia|]]].
  - unfold whole, binary_normalize. apply binary_round_exact; [exact HdM|lia|].
    rewrite Z.max_r by lia. rewrite Z.max_l by lia.
    rewrite Z.pow_0_r, Z.mul_1_r, HM. f_equal. f_equal. lia.
  - rewrite HM. f_equal. f_equal. lia.
Qed.

Lemma whole_zero : whole 0 = S754_zero false.
Proof. reflexivity. Qed.

(** Two canonical pairs: the sum or difference of their aligned mantissas
    stands for the sum or difference of the numbers. *)
Lemma aligned_value (Ma Mb : positive) (ea eb a b : Z) :
  ea <= 0 -> eb <= 0 ->
  Z.pos Ma = a * 2 ^ (- ea) -> Z.pos Mb = b * 2 ^ (- eb) ->
  Z.pos (fst (shl_align Ma ea (Z.min ea eb))) = a * 2 ^ (- Z.min ea eb) /\
  Z.pos (fst (shl_align Mb eb (Z.min ea eb))) = b * 2 ^ (- Z.min ea eb).
Proof.
  intros Ha Hb HMa HMb.
  rewrite !shl_align_value by lia. rewrite HMa, HMb.
  rewrite <- !Z.mul_assoc, !pow2_add by lia.
  split; f_equal; f_equal; lia.
Qed.

Lemma round_whole (S : positive) (ez c : Z) :
  -52 <= ez <= 0 -> 0 < c < 2 ^ 53 -> Z.pos S = c * 2 ^ (- ez) ->
  binary_round prec emax false S ez = whole c.
Proof.
  intros Hez Hc HS.
  destruct (whole_pos c Hc) as (Mc & ec & -> & Hdc & Hec & HMc).
  apply binary_round_exact; [exact Hdc|lia|].
  rewrite HS, HMc, <- !Z.mul_assoc, !pow2_add by lia.
  f_equal. f_equal. lia.
Qed.

Lemma add_whole (a b : Z) :
  0 <= a -> 0 <= b -> a + b < 2 ^ 53 ->
  SFadd prec emax (whole a) (whole b) = whole (a + b).
Proof.
  intros Ha Hb Hab.
  destruct (Z.eq_dec a 0) as [->|Hza].
  { rewrite whole_zero, Z.add_0_l.
    destruct (Z.eq_dec b 0) as [->|Hzb]; [reflexivity|].
    destruct (whole_pos b ltac:(lia)) as (Mb & eb & -> & _). reflexivity. }
  destruct (Z.eq_dec b 0) as [->|Hzb].
  { rewrite whole_zero, Z.add_0_r.
    destruct (whole_pos a ltac:(lia)) as (Ma & ea & -> & _). reflexivity. }
  destruct (whole_pos a ltac:(lia)) as (Ma & ea & Ea & Hda & Hea & HMa).
  destruct (whole_pos b ltac:(lia)) as (Mb & eb & Eb & Hdb & Heb & HMb).
  rewrite Ea, Eb. cbv beta iota zeta delta [SFadd cond_Zopp].
  change (IntDef.Z.min ea eb) with (Z.min ea eb).
  destruct (aligned_value Ma Mb ea eb a b ltac:(lia) ltac:(lia) HMa HMb) as [-> ->].
  rewrite <- Z.mul_add_distr_r.
  assert (0 < 2 ^ (- Z.min ea eb)) as Hpow by (apply Z.pow_pos_nonneg; lia).
  destruct ((a + b) * 2 ^ (- Z.min ea eb)) as [|S|S] eqn:ES; try nia.
  cbn [binary_normalize]. apply round_whole; [lia|lia|symmetry; exact ES].
Qed.

Lemma sub_whole (c a : Z) :
  0 <= a -> a <= c -> c < 2 ^ 53 ->
  SFsub prec emax (whole c) (whole a) = whole (c - a).
Proof.
  intros Ha Hac Hc.
  destruct (Z.eq_dec a 0) as [->|Hza].
  { rewrite whole_zero, Z.sub_0_r.
    destruct (Z.eq_dec c 0) as [->|Hzc]; [reflexivity|].
    destruct (whole_pos c ltac:(lia)) as (Mc & ec & -> & _). reflexivity. }
  destruct (whole_pos c ltac:(lia)) as (Mc & ec & Ec & Hdc & Hec & HMc).
  destruct (whole_pos a ltac:(lia)) as (Ma & ea & Ea & Hda & Hea & HMa).
  rewrite Ec, Ea. cbv beta iota zeta delta [SFsub cond_Zopp].
  change (IntDef.Z.min ec ea) with (Z.min ec ea).
  destruct (aligned_value Mc Ma ec ea c a ltac:(lia) ltac:(lia) HMc HMa) as [-> ->].
  change (IntDef.Z.sub ?x ?y) with (Z.sub x y).
  rewrite <- Z.mul_sub_distr_r.
  assert (0 < 2 ^ (- Z.min ec ea)) as Hpow by (apply Z.pow_pos_nonneg; lia).
  destruct (Z.eq_dec c a) as [->|Hne].
  { rewrite Z.sub_diag. reflexivity. }
  destruct ((c - a) * 2 ^ (- Z.min ec ea)) as [|S|S] eqn:ES; try nia.
  cbn [binary_normalize]. apply round_whole; [lia|lia|symmetry; exact ES].
Qed.

(** *** The doubles of natural numbers *)

Lemma of_nat_spec (n : nat) :
  Z.of_nat n < 2 ^ 53 -> Prim2SF (Np.of_nat n) = whole (Z.of_nat n).
Proof.
  intros H. unfold Np.of_nat, whole.
  rewrite FloatAxioms.of_uint63_spec, Uint63.of_Z_spec, Z.mod_small; [reflexivity|].
  split; [lia|]. eapply Z.lt_trans; [exact H|reflexivity].
Qed.

Lemma add_nat (a b : nat) :
  Z.of_nat (a + b) < 2 ^ 53 ->
  (Np.of_nat a + Np.of_nat b)%float = Np.of_nat (a + b).
Proof.
  intros H. apply Prim2SF_inj.
  rewrite FloatAxioms.add_spec, !of_nat_spec by lia.
  rewrite Nat2Z.inj_add. apply add_whole; lia.
Qed.

Lemma sub_nat (c a : nat) :
  (a <= c)%nat -> Z.of_nat c < 2 ^ 53 ->
  (Np.of_nat c - Np.of_nat a)%float = Np.of_nat (c - a).
Proof.
  intros Hac H. apply Prim2SF_inj.
  rewrite FloatAxioms.sub_spec, !of_nat_spec by lia.
  rewrite Nat2Z.inj_sub by exact Hac. apply sub_whole; lia.
Qed.

Lemma of_nat_has_value (n : nat) :
  Z.of_nat n < 2 ^ 53 -> Np.isnan (Np.of_nat n) = false.
Proof.
  intros H. destruct (Np.isnan (Np.of_nat n)) eqn:E; [|reflexivity].
  apply FloatOrder.isnan_spec in E. rewrite of_nat_spec in E by exact H.
  destruct (Z.eq_dec (Z.of_nat n) 0) as [Hz|Hz].
  - rewrite Hz in E. discriminate.
  - destruct (whole_pos (Z.of_nat n) ltac:(lia)) as (M & e & E' & _). congruence.
Qed.

(** Compensated summation of whole numbers is exact: the sum is the double
    of the sum and the compensation stays 0. *)
Lemma kahan_step_nat (s v : nat) :
  Z.of_nat (s + v) < 2 ^ 53 ->
  Pd.kahan_step (Np.of_nat s, 0%float) (Np.of_nat v) = (Np.of_nat (s + v), 0%float).
Proof.
  intros H. unfold Pd.kahan_step.
  change 0%float with (Np.of_nat 0).
  rewrite (sub_nat v 0), Nat.sub_0_r by lia.
  rewrite (add_nat s v) by exact H.
  rewrite (sub_nat (s + v) s) by lia.
  replace (s + v - s)%nat with v by lia.
  rewrite (sub_nat v v), Nat.sub_diag by lia. reflexivity.
Qed.

Lemma kahan_fold_nat (ks : list nat) (s : nat) :
  Z.of_nat (s + list_sum ks) < 2 ^ 53 ->
  fold_left Pd.kahan_step (map Np.of_nat ks) (Np.of_nat s, 0%float)
    = (Np.of_nat (s + list_sum ks), 0%float).
Proof.
  revert s. induction ks as [|k ks IH]; intros s H.
  - cbn [map fold_left list_sum fold_right]. now rewrite Nat.add_0_r.
  - change (list_sum (k :: ks)) with (k + list_sum ks)%nat in *.
    cbn [map fold_left].
    rewrite kahan_step_nat by lia. rewrite IH by (rewrite <- Nat.add_assoc; exact H).
    now rewrite Nat.add_assoc.
Qed.

Lemma filter_of_nat (ks : list nat) :
  Z.of_nat (list_sum ks) < 2 ^ 53 ->
  filter (fun v => negb (Np.isnan v)) (map Np.of_nat ks) = map Np.of_nat ks.
Proof.
  induction ks as [|k ks IH]; intros H; [reflexivity|].
  change (list_sum (k :: ks)) with (k + list_sum ks)%nat in H.
  cbn [map filter].
  rewrite of_nat_has_value by lia. cbn [negb]. rewrite IH by lia. reflexivity.
Qed.

(** The grouped mean of whole numbers is the double nearest to their exact
    mean: the double of their sum divided by the double of their number. *)
Lemma group_mean_nat (ks : list nat) :
  ks <> [] -> Z.of_nat (list_sum ks) < 2 ^ 53 ->
  Pd.group_mean (map Np.of_nat ks)
    = (Np.of_nat (list_sum ks) / Np.of_nat (List.length ks))%float.
Proof.
  intros Hne H. unfold Pd.group_mean. rewrite filter_of_nat by exact H.
  destruct ks as [|k ks]; [congruence|].
  set (l := k :: ks) in *. change (map Np.of_nat l) with (Np.of_nat k :: map Np.of_nat ks).
  cbv iota. change (Np.of_nat k :: map Np.of_nat ks) with (map Np.of_nat l).
  change (0%float, 0%float) with (Np.of_nat 0, 0%float).
  rewrite kahan_fold_nat by exact H. cbn [fst]. rewrite length_map. reflexivity.
Qed.

(** The grouped mean is the mean of the statements. *)
Lemma fold_kahan (l : list float) (sum c : float) :
  fst (fold_left Pd.kahan_step l (sum, c)) = compensated_sum sum c l.
Proof.
  revert sum c. induction l as [|v l IH]; intros sum c; [reflexivity|].
  cbn [fold_left compensated_sum]. unfold Pd.kahan_step at 2. apply IH.
Qed.

Lemma group_mean_spec (l : list float) : Pd.group_mean l = arithmetic_mean l.
Proof.
  unfold Pd.group_mean, arithmetic_mean.
  destruct (filter (fun v => negb (Np.isnan v)) l) as [|v obs]; [reflexivity|].
  now rewrite fold_kahan.
Qed.

Lemma arithmetic_mean_nat (ks : list nat) :
  ks <> [] -> (Z.of_nat (list_sum ks) < 2 ^ 53)%Z ->
  arithmetic_mean (map Np.of_nat ks)
    = (Np.of_nat (list_sum ks) / Np.of_nat (List.length ks))%float.
Proof. rewrite <- group_mean_spec. apply group_mean_nat. Qed.

End WholeSums.

(** ** Further facts on [int()] *)

Module PyIntMore.

Lemma white_space_is_space (c : ascii) : white_space c -> Py.is_space c = true.
Proof.
  unfold white_space, Py.is_space. cbn [In]. intros H.
  repeat (destruct H as [<-|H]; [reflexivity|]). destruct H.
Qed.

Lemma is_space_white_space (c : ascii) : Py.is_space c = true -> white_space c.
Proof.
  unfold white_space, Py.is_space. cbn [In]. intros H.
  repeat (apply orb_true_iff in H; destruct H as [H|H]);
    try (apply Nat.eqb_eq in H; rewrite H; tauto).
  apply andb_true_iff in H. destruct H as [H1 H2].
  apply Nat.leb_le in H1, H2. lia.
Qed.

Lemma lstrip_spaces (l rest : list ascii) :
  Forall white_space l -> Py.lstrip (l ++ rest) = Py.lstrip rest.
Proof.
  induction 1 as [|c l Hc _ IH]; [reflexivity|].
  cbn [app Py.lstrip]. now rewrite (white_space_is_space c Hc).
Qed.

Lemma lstrip_all (l : list ascii) : Forall white_space l -> Py.lstrip l = [].
Proof.
  intros H. rewrite <- (app_nil_r l), (lstrip_spaces l [] H). reflexivity.
Qed.

Lemma space_not_digit (c : ascii) : white_space c -> Py.digit_value c = None.
Proof.
  unfold white_space. cbn [In]. intros H.
  repeat (destruct H as [H|H];
          [apply (f_equal ascii_of_nat) in H; rewrite ascii_nat_embedding in H;
           subst c; reflexivity|]).
  destruct H.
Qed.

Lemma space_not_underscore (c : ascii) : white_space c -> Ascii.eqb c "_" = false.
Proof.
  unfold white_space. cbn [In]. intros H.
  repeat (destruct H as [H|H];
          [apply (f_equal ascii_of_nat) in H; rewrite ascii_nat_embedding in H;
           subst c; reflexivity|]).
  destruct H.
Qed.

(** The scan of digits stops at white space. *)
Lemma more_digits_stop (l trail : list ascii) (acc : Z) (count : nat) :
  Forall is_digit l -> Forall white_space trail ->
  Py.more_digits acc count (l ++ trail)
    = Some (fold_left read_digit l acc, count + List.length l, trail).
Proof.
  intros Hl Ht. revert acc count.
  induction Hl as [|c l [d Hd] _ IH]; intros acc count.
  - cbn [app fold_left List.length]. rewrite Nat.add_0_r.
    destruct Ht as [|c t Hc Ht]; [reflexivity|].
    cbn [Py.more_digits].
    now rewrite (space_not_digit c Hc), (space_not_underscore c Hc).
  - assert (read_digit acc c = (10 * acc + d)%Z) as E
      by (unfold read_digit; now rewrite Hd).
    cbn [app Py.more_digits fold_left List.length]. rewrite Hd, IH, E.
    do 2 f_equal. f_equal. lia.
Qed.

Lemma digits_stop (l trail : list ascii) :
  l <> [] -> Forall is_digit l -> Forall white_space trail ->
  Py.digits (l ++ trail) = Some (fold_left read_digit l 0%Z, List.length l, trail).
Proof.
  intros Hne Hl Ht. destruct l as [|c l]; [congruence|].
  inversion Hl as [|? ? [d Hd] Hl']; subst.
  assert (read_digit 0 c = d) as E
    by (unfold read_digit; rewrite Hd; reflexivity).
  cbn [app Py.digits fold_left List.length].
  rewrite Hd, more_digits_stop, E by assumption. reflexivity.
Qed.

(** A numeral of at most 4300 digits, with an optional sign before it and
    white space around, converts to its number. *)
Lemma parse_padded (a : Z) (lead trail sign : list ascii) (negative : bool) :
  (0 <= a < 10 ^ 4300)%Z ->
  Forall white_space lead -> Forall white_space trail ->
  (sign = [] /\ negative = false) \/ (sign = ["+"%char] /\ negative = false)
  \/ (sign = ["-"%char] /\ negative = true) ->
  Py.parse_int
    (string_of_list_ascii
       (lead ++ sign ++ Py.numeral (Z.to_nat (Z.log2 a)) a [] ++ trail))
  = Py.Converted (if negative then - a else a)%Z.
Proof.
  intros Ha Hlead Htrail Hsign. unfold Py.parse_int.
  rewrite list_ascii_of_string_of_list_ascii, (lstrip_spaces lead _ Hlead).
  set (fuel := Z.to_nat (Z.log2 a)).
  pose proof (PyInt.numeral_value fuel a (PyInt.log2_bound a (proj1 Ha))) as Hv.
  destruct (PyInt.numeral_digits fuel a) as [Hall Hne].
  pose proof (digits_stop _ trail Hne Hall Htrail) as Hd. rewrite Hv in Hd.
  assert (List.length (Py.numeral fuel a []) <= 4300) as Hlen
    by (apply (PyInt.numeral_length fuel a 4299); exact Ha).
  assert ((Py.int_max_str_digits <? List.length (Py.numeral fuel a []))%nat = false)
    as Hlim by (apply Nat.ltb_ge; exact Hlen).
  destruct Hsign as [[-> ->]|[[-> ->]|[-> ->]]]; cbn [app].
  - destruct (Py.numeral fuel a []) as [|c l] eqn:E; [congruence|].
    inversion Hall as [|? ? Hc _]; subst.
    cbn [app Py.lstrip]. rewrite (PyInt.digit_not_space _ Hc).
    destruct (PyInt.digit_not_sign _ Hc) as [-> ->].
    change (c :: l ++ trail) with ((c :: l) ++ trail).
    rewrite Hd, Hlim, (lstrip_all trail Htrail). reflexivity.
  - cbn [Py.lstrip]. change (Py.is_space "+") with false. cbv iota.
    change (Ascii.eqb "+" "-") with false. change (Ascii.eqb "+" "+") with true.
    cbv iota. rewrite Hd, Hlim, (lstrip_all trail Htrail). reflexivity.
  - cbn [Py.lstrip]. change (Py.is_space "-") with false. cbv iota.
    change (Ascii.eqb "-" "-") with true. cbv iota.
    rewrite Hd, Hlim, (lstrip_all trail Htrail). reflexivity.
Qed.

(** A stray character before the numeral makes the literal invalid. *)
Lemma parse_stray (c : ascii) (rest : string) :
  stray c -> Py.parse_int (String c rest) = Py.Invalid.
Proof.
  intros (Hs & Hd & Hp & Hm). unfold Py.parse_int.
  cbn [list_ascii_of_string Py.lstrip].
  destruct (Py.is_space c) eqn:Es; [now apply is_space_white_space in Es|].
  destruct (Ascii.eqb_spec c "-") as [|_]; [contradiction|].
  destruct (Ascii.eqb_spec c "+") as [|_]; [contradiction|].
  cbn [Py.digits]. destruct (Py.digit_value c) as [d|] eqn:Ed; [|reflexivity].
  exfalso. apply Hd. now exists d.
Qed.

End PyIntMore.

(* ================================================================= *)
(** * Part III: the claims *)
(* ================================================================= *)

(** C1, as stated, fails where the clamped input is "no data": on a series
    with one day and no data on it the reference is 0.0, the output is NaN,
    and NaN is not above anything. *)
Lemma floor_output_not_above_on_no_data :
  vol_floor_reference only_no_data
    = Py.Ok {| Pd.index := [0%Z]; Pd.values := [0%float] |} /\
  apply_vol_floor only_no_data
    = Py.Ok {| Pd.index := [0%Z]; Pd.values := [PrimFloat.nan] |} /\
  ~ floored_above only_no_data
      {| Pd.index := [0%Z]; Pd.values := [0%float] |}
      {| Pd.index := [0%Z]; Pd.values := [PrimFloat.nan] |} 0.
Proof.
  split; [reflexivity|]. split; [reflexivity|].
  intros H. destruct (H PrimFloat.nan 0%float PrimFloat.nan eq_refl eq_refl eq_refl)
    as [H1 _].
  vm_compute in H1. discriminate.
Qed.

(** C1 (amended). On a clamped series that is not empty, QuantileFloor's
    reference is exactly 0.0 at position 0 and holds no NaN after the forward
    fill; reference and output keep the index and the length of the input;
    and at every position where the clamped input is not "no data" the output
    is above both the clamped input and the reference. *)
Theorem vol_floor_reference_and_output (vol : Pd.Series) :
  Pd.values vol <> [] ->
  exists ref out : Pd.Series,
    vol_floor_reference vol = Py.Ok ref /\
    apply_vol_floor vol = Py.Ok out /\
    Pd.index ref = Pd.index vol /\ Pd.index out = Pd.index vol /\
    List.length (Pd.values ref) = List.length (Pd.values vol) /\
    List.length (Pd.values out) = List.length (Pd.values vol) /\
    nth_error (Pd.values ref) 0 = Some 0%float /\
    Forall has_value (Pd.values ref) /\
    forall (i : nat) (v : float),
      nth_error (Pd.values vol) i = Some v -> has_value v ->
      floored_above vol ref out i.
Proof.
  intros Hne.
  pose proof (Floor.reference_shape vol Hne) as Href.
  set (ref := Pd.with_values vol
                (0%float :: Pd.ffill_from 0%float (tl (raw_reference vol)))) in *.
  assert (List.length (Pd.values ref) = List.length (Pd.values vol)) as Hlen
    by exact (Floor.reference_values_length vol ref Href).
  assert (Forall has_value (Pd.values ref)) as Hall.
  { subst ref. cbn [Pd.values Pd.with_values]. constructor; [reflexivity|].
    now apply Floor.ffill_from_has_value. }
  exists ref, (Pd.np_maximum vol ref).
  split; [exact Href|]. split; [now apply Floor.apply_vol_floor_unfold|].
  split; [reflexivity|]. split; [reflexivity|]. split; [exact Hlen|].
  split. { cbn [Pd.np_maximum Pd.values Pd.with_values].
           rewrite ListFacts.map2_length. lia. }
  split; [reflexivity|]. split; [exact Hall|].
  intros i v Hv Hhas v' r o Hv' Hr Ho.
  assert (v' = v) by congruence. subst v'.
  cbn [Pd.np_maximum Pd.values Pd.with_values] in Ho.
  rewrite (ListFacts.map2_nth_error _ _ _ _ _ _ Hv Hr) in Ho.
  inversion Ho; subst o.
  apply Floor.maximum_above; [exact Hhas|].
  rewrite Forall_forall in Hall. apply Hall. eapply nth_error_In; eassumption.
Qed.

Lemma vol_floor_reference_and_output_on_twelve_days :
  exists ref out : Pd.Series,
    vol_floor_reference (apply_min_vol (simple_ewvol_calc twelve_days)) = Py.Ok ref /\
    apply_vol_floor (apply_min_vol (simple_ewvol_calc twelve_days)) = Py.Ok out /\
    nth_error (Pd.values ref) 0 = Some 0%float /\
    Forall has_value (Pd.values ref) /\
    floored_above (apply_min_vol (simple_ewvol_calc twelve_days)) ref out 11.
Proof.
  destruct (vol_floor_reference_and_output
              (apply_min_vol (simple_ewvol_calc twelve_days)))
    as (ref & out & H1 & H2 & _ & _ & _ & _ & H3 & H4 & H5).
  - vm_compute. discriminate.
  - exists ref, out. repeat (split; [assumption|]).
    apply (H5 11%nat 3.5696594508677197%float); vm_compute; reflexivity.
Defined.

(** C2, as stated, fails where the window holds an infinite value: on 99
    valid days followed by a day with an infinite volatility the window of
    the last day holds 100 values that are not NaN, whose 5th percentile is
    5.95, and the raw reference of that day is NaN: the window routine counts
    99 observations. *)
Lemma raw_reference_no_data_on_infinity :
  List.length (not_nan (trailing_window 500 (Pd.values hundred_with_infinity) 99))
    = 100 /\
  percentile5_linear
    (Pd.sort_values (not_nan (trailing_window 500 (Pd.values hundred_with_infinity) 99)))
    = 5.95%float /\
  List.length (window_observations (Pd.values hundred_with_infinity) 99) = 99 /\
  nth_error (raw_reference hundred_with_infinity) 99 = Some PrimFloat.nan /\
  Pd.values hundred_with_infinity
    = Pd.values (apply_min_vol hundred_with_infinity).
Proof.
  split; [vm_compute; reflexivity|]. split; [vm_compute; reflexivity|].
  split; [vm_compute; reflexivity|]. split; vm_compute; reflexivity.
Qed.

(** C2 (amended). At every day of a clamped series the raw reference of
    QuantileFloor (line 78) is the 5th percentile, by linear interpolation
    between the order statistics, of the observations in the trailing window
    of 500 days (fewer at the start) when that window holds at least 100 of
    them, and NaN when it holds fewer, an observation being a value that is
    neither NaN nor infinite; the order statistics are the window's
    observations sorted.  After day 0 a raw reference that has a value is the
    reference [vol_floor_reference] returns for the day, and the output of
    [apply_vol_floor] that day is the maximum of the input and of it. *)
Theorem raw_reference_trailing_percentile (vol : Pd.Series) (i : nat) (v : float) :
  nth_error (Pd.values vol) i = Some v ->
  exists r : float,
    nth_error (raw_reference vol) i = Some r /\
    (100 <= List.length (window_observations (Pd.values vol) i) ->
     r = percentile5_linear
           (Pd.sort_values (window_observations (Pd.values vol) i))) /\
    (List.length (window_observations (Pd.values vol) i) < 100 ->
     r = PrimFloat.nan) /\
    Sorted fle (Pd.sort_values (window_observations (Pd.values vol) i)) /\
    Permutation (window_observations (Pd.values vol) i)
                (Pd.sort_values (window_observations (Pd.values vol) i)) /\
    exists ref out : Pd.Series,
      vol_floor_reference vol = Py.Ok ref /\
      apply_vol_floor vol = Py.Ok out /\
      (1 <= i -> has_value r ->
       nth_error (Pd.values ref) i = Some r /\
       nth_error (Pd.values out) i = Some (Np.maximum v r)).
Proof.
  intros Hv.
  assert (i < List.length (Pd.values vol)) as Hi by (apply nth_error_Some; congruence).
  pose proof (Rolling.raw_reference_spec vol i Hi) as Hr.
  exists (trailing_percentile (Pd.values vol) i).
  split; [exact Hr|].
  split; [|split; [|split; [|split]]].
  - unfold trailing_percentile. intros H. apply Nat.leb_le in H. now rewrite H.
  - unfold trailing_percentile. intros H. apply Nat.leb_gt in H. now rewrite H.
  - apply Rolling.sort_values_sorted, Rolling.observations_have_value.
  - apply Rolling.sort_values_perm.
  - pose proof (FloorMore.values_not_empty_nth vol i v Hv) as Hne.
    pose proof (Floor.reference_shape vol Hne) as Href.
    set (ref := Pd.with_values vol
                  (0%float :: Pd.ffill_from 0%float (tl (raw_reference vol)))) in *.
    exists ref, (Pd.np_maximum vol ref).
    split; [exact Href|]. split; [now apply Floor.apply_vol_floor_unfold|].
    intros Hpos Hhas.
    assert (nth_error (Pd.values ref) i
            = Some (trailing_percentile (Pd.values vol) i)) as Hrefi.
    { destruct i as [|j]; [lia|].
      subst ref. cbn [Pd.values Pd.with_values].
      change (0%float :: Pd.ffill_from 0%float (tl (raw_reference vol)))
        with (Pd.ffill_from PrimFloat.nan (0%float :: tl (raw_reference vol))).
      rewrite (FloorMore.ffill_from_step _ _ j (trailing_percentile (Pd.values vol) (S j))).
      - unfold has_value in Hhas. now rewrite Hhas.
      - destruct (raw_reference vol); [discriminate Hr|exact Hr]. }
    split; [exact Hrefi|].
    cbn [Pd.np_maximum Pd.values Pd.with_values].
    now apply ListFacts.map2_nth_error.
Qed.

Lemma raw_reference_on_hundred_and_one_days :
  nth_error (raw_reference hundred_and_one_days) 100 = Some 5%float /\
  nth_error (raw_reference hundred_and_one_days) 98 = Some PrimFloat.nan /\
  exists ref out : Pd.Series,
    vol_floor_reference hundred_and_one_days = Py.Ok ref /\
    apply_vol_floor hundred_and_one_days = Py.Ok out /\
    nth_error (Pd.values ref) 100 = Some 5%float /\
    nth_error (Pd.values out) 100 = Some 5%float.
Proof.
  destruct (raw_reference_trailing_percentile hundred_and_one_days 100 0%float eq_refl)
    as (r & Hr & Hge & _ & _ & _ & ref & out & Href & Hout & Hlink).
  assert (r = 5%float) as ->.
  { rewrite Hge; [vm_compute; reflexivity|]. vm_compute. lia. }
  split; [exact Hr|]. split.
  - destruct (raw_reference_trailing_percentile hundred_and_one_days 98 2%float eq_refl)
      as (r & Hr' & _ & Hlt & _).
    rewrite Hr'. f_equal. apply Hlt. vm_compute. lia.
  - exists ref, out. split; [exact Href|]. split; [exact Hout|].
    destruct (Hlink ltac:(lia) eq_refl) as [H1 H2]. split; [exact H1|exact H2].
Defined.

(** C3. MinimumClamp keeps the index and the length; position by position, a
    value strictly below 1e-10 becomes exactly 1e-10, a value at or above
    1e-10 is unchanged, NaN ("no data") is unchanged, and no output value is
    below 1e-10. *)
Theorem apply_min_vol_clamps (vol : Pd.Series) :
  Pd.index (apply_min_vol vol) = Pd.index vol /\
  List.length (Pd.values (apply_min_vol vol)) = List.length (Pd.values vol) /\
  forall (i : nat) (v : float),
    nth_error (Pd.values vol) i = Some v ->
    exists o : float,
      nth_error (Pd.values (apply_min_vol vol)) i = Some o /\
      (PrimFloat.ltb v vol_abs_min = true -> o = vol_abs_min) /\
      (PrimFloat.leb vol_abs_min v = true -> o = v) /\
      (no_data v -> o = v) /\
      PrimFloat.ltb o vol_abs_min = false.
Proof.
  split; [reflexivity|]. split.
  - rewrite Clamp.values_apply_min_vol. apply length_map.
  - intros i v Hv. exists (clamp v).
    rewrite Clamp.values_apply_min_vol, nth_error_map, Hv. simpl.
    split; [reflexivity|].
    split; [apply Clamp.clamp_below|].
    split; [apply Clamp.clamp_above|].
    split; [apply Clamp.clamp_nan|apply Clamp.clamp_not_below].
Qed.




(** C5, as stated, fails on time stamps that pandas cannot hold: line 63
    converts the index to nanosecond time stamps, which end in the year 2262,
    and on one observation at second 10000000000 (the year 2286) the
    aggregation raises [OutOfBoundsDatetime] and returns no series. *)
Lemma aggregation_raises_after_2262 :
  year_2286 <> [] /\
  exists m : string,
    aggregate_to_day_based_prices year_2286 = Py.Raise (Py.OutOfBoundsDatetime m).
Proof. split; [discriminate|]. eexists. reflexivity. Qed.

(** C5 (amended). On raw observations that are not empty and whose time
    stamps lie in the days pandas holds in full (1677-09-22 to 2262-04-10)
    DailyAggregator returns a series whose index is the calendar of
    consecutive days from the first to the last observed day, and whose value
    at each day is the arithmetic mean of the prices observed that day, each
    counting once: their sum, accumulated in double arithmetic with a
    compensation of the rounding error, divided by their number, and NaN for
    a day without observation.  Where the prices of a day are whole numbers
    with a sum below 2^53 the value is the double of their exact sum divided
    by the double of their number. *)
Theorem daily_aggregation_calendar_and_means (raw : list Dynamo.Item) :
  raw <> [] -> within_range raw ->
  exists s : Pd.Series,
    aggregate_to_day_based_prices raw = Py.Ok s /\
    Pd.index s = calendar (first_day raw)
                   (S (Z.to_nat (last_day raw - first_day raw))) /\
    (forall d : Z, In d (Pd.index s) <-> (first_day raw <= d <= last_day raw)%Z) /\
    Pd.values s = map (fun d => arithmetic_mean (day_prices raw d)) (Pd.index s) /\
    (forall d : Z, ~ In d (map row_day (observation_rows raw)) ->
                   arithmetic_mean (day_prices raw d) = PrimFloat.nan) /\
    (forall (d : Z) (ks : list nat),
        day_prices raw d = map Np.of_nat ks -> ks <> [] ->
        (Z.of_nat (list_sum ks) < 2 ^ 53)%Z ->
        arithmetic_mean (day_prices raw d)
          = (Np.of_nat (list_sum ks) / Np.of_nat (List.length ks))%float).
Proof.
  intros Hne Hin. eexists. split; [now apply Aggregation.aggregate_spec|].
  cbn [Pd.index Pd.values].
  split; [reflexivity|]. split; [|split; [|split]].
  - intros d. rewrite Aggregation.calendar_In.
    destruct (Aggregation.first_day_spec raw Hne) as ((r & Hr & _) & Hfirst).
    destruct (Aggregation.last_day_spec raw Hne) as (_ & Hlast).
    rewrite Forall_forall in Hfirst, Hlast.
    specialize (Hfirst r Hr). specialize (Hlast r Hr). lia.
  - apply map_ext. intros d. apply WholeSums.group_mean_spec.
  - intros d Hd. now rewrite Aggregation.day_prices_unobserved.
  - intros d ks -> Hks Hsum. now apply WholeSums.arithmetic_mean_nat.
Qed.

Lemma daily_aggregation_scenario_A :
  exists s : Pd.Series,
    aggregate_to_day_based_prices scenario_A = Py.Ok s /\
    Pd.index s = [19675%Z; 19676%Z] /\
    Pd.values s = [101%float; 101%float].
Proof.
  destruct (daily_aggregation_calendar_and_means scenario_A)
    as (s & Hs & Hi & _ & Hv & _ & Hwhole).
  - discriminate.
  - repeat constructor; unfold in_whole_days; simpl; lia.
  - assert (Pd.index s = [19675%Z; 19676%Z]) as Hdays
      by (rewrite Hi; reflexivity).
    exists s. split; [exact Hs|]. split; [exact Hdays|].
    rewrite Hv, Hdays. cbn [map].
    rewrite (Hwhole 19675%Z [100; 102]), (Hwhole 19676%Z [101]);
      try discriminate; try (vm_compute; reflexivity).
Defined.

(** C6: what the stages do on empty input. DailyAggregator raises [KeyError]
    on an empty observation list and QuantileFloor raises [IndexError] on an
    empty series; VolatilityEstimator and MinimumClamp return an empty series;
    and a request whose retrieval finds no observation ends in the
    [KeyError]. *)
Theorem empty_observations_raise :
  aggregate_to_day_based_prices []
    = Py.Raise (Py.KeyError "None of ['UnixDateTime'] are in the columns") /\
  simple_ewvol_calc empty_series = empty_series /\
  apply_min_vol empty_series = empty_series /\
  apply_vol_floor empty_series
    = Py.Raise (Py.IndexError "index 0 is out of bounds for axis 0 with size 0") /\
  forall (fuel : nat) (env : Runtime.Env) (i : Py.json) (st : Z) (w : Runtime.World),
    Runtime.table env (List.length (Runtime.queries w))
      (price_query "multiple_prices" i st (Runtime.now env) None)
      = Py.Ok {| Dynamo.Items := Some []; Dynamo.LastEvaluatedKey := None |} ->
    exists w' : Runtime.World,
      serve fuel env i st w =
        Some (Py.Raise (Py.KeyError "None of ['UnixDateTime'] are in the columns"), w').
Proof.
  split; [reflexivity|]. split; [reflexivity|]. split; [reflexivity|].
  split; [reflexivity|].
  intros fuel env i st w H. eexists.
  unfold serve, Runtime.bind at 1, retrieve_prices_from_dynamodb, Runtime.try_except.
  unfold Runtime.bind at 1, Runtime.table_query at 1. rewrite H.
  unfold Runtime.bind at 1, Runtime.lift at 1. cbn [Dynamo.get_Items Dynamo.Items].
  destruct fuel; reflexivity.
Qed.

(** C7. Whatever query of the retrieval fails (the store raises, or the
    response has no items), and however many pages were read before, the
    retrieval raises the one generic error, whose message is a constant that
    holds nothing of the cause; the cause is logged; and the failed query is
    the last one sent: nothing is retried. *)
Theorem retrieval_failure_is_generic (fuel : nat) (env : Runtime.Env)
    (i : Py.json) (st : Z) (w : Runtime.World) (m : nat) (cause : Py.exn) :
  fails_after env (price_query "multiple_prices" i st (Runtime.now env))
    (List.length (Runtime.queries w)) None m cause ->
  m <= fuel ->
  exists qs : list Dynamo.Query,
    retrieve_prices_from_dynamodb fuel env i st w =
      Some (Py.Raise (Py.ValueError retrieval_error_message),
            {| Runtime.log := Runtime.log w ++ [error_record cause];
               Runtime.queries := Runtime.queries w ++ qs |}) /\
    List.length qs = S m.
Proof. apply Handler.retrieve_fail. Qed.

Lemma retrieval_failure_on_second_page :
  exists qs : list Dynamo.Query,
    retrieve_prices_from_dynamodb 5 env_flaky (Py.JStr "CORN") 123 world0 =
      Some (Py.Raise (Py.ValueError retrieval_error_message),
            {| Runtime.log := [error_record throttled];
               Runtime.queries := qs |}) /\
    List.length qs = 2.
Proof.
  apply (retrieval_failure_is_generic 5 env_flaky (Py.JStr "CORN") 123 world0 1 throttled).
  - eapply fails_later; [reflexivity|]. apply fails_now. reflexivity.
  - lia.
Defined.

(** C8. At every position where the clamped volatility is "no data" the
    floored output is "no data" too, although the forward-filled reference
    has a value there. *)
Theorem vol_floor_keeps_no_data (vol : Pd.Series) (i : nat) (v : float) :
  nth_error (Pd.values vol) i = Some v -> no_data v ->
  exists (ref out : Pd.Series) (r o : float),
    vol_floor_reference vol = Py.Ok ref /\
    apply_vol_floor vol = Py.Ok out /\
    nth_error (Pd.values ref) i = Some r /\ has_value r /\
    nth_error (Pd.values out) i = Some o /\ no_data o.
Proof.
  intros Hv Hnan.
  assert (Pd.values vol <> []) as Hne by (intros E; rewrite E in Hv; now destruct i).
  pose proof (Floor.reference_shape vol Hne) as Href.
  set (ref := Pd.with_values vol
                (0%float :: Pd.ffill_from 0%float (tl (raw_reference vol)))) in *.
  assert (Forall has_value (Pd.values ref)) as Hall.
  { subst ref. cbn [Pd.values Pd.with_values]. constructor; [reflexivity|].
    now apply Floor.ffill_from_has_value. }
  destruct (ListFacts.nth_error_in_range (Pd.values ref) i) as [r Hr].
  { rewrite (Floor.reference_values_length vol ref Href).
    apply nth_error_Some. congruence. }
  exists ref, (Pd.np_maximum vol ref), r, (Np.maximum v r).
  split; [exact Href|]. split; [now apply Floor.apply_vol_floor_unfold|].
  split; [exact Hr|].
  split. { rewrite Forall_forall in Hall. apply Hall. eapply nth_error_In; eassumption. }
  split. { cbn [Pd.np_maximum Pd.values Pd.with_values].
           now apply ListFacts.map2_nth_error. }
  unfold no_data. now rewrite Floor.maximum_nan_l.
Qed.

Lemma vol_floor_keeps_no_data_on_twelve_days :
  exists (ref out : Pd.Series) (r o : float),
    vol_floor_reference (simple_ewvol_calc twelve_days) = Py.Ok ref /\
    apply_vol_floor (simple_ewvol_calc twelve_days) = Py.Ok out /\
    nth_error (Pd.values ref) 3 = Some r /\ has_value r /\
    nth_error (Pd.values out) 3 = Some o /\ no_data o.
Proof.
  apply (vol_floor_keeps_no_data (simple_ewvol_calc twelve_days) 3 PrimFloat.nan).
  - vm_compute. reflexivity.
  - reflexivity.
Defined.

(** C9. Two executions of the handler that complete without raising, on
    requests with the same instrument, return the same response, whatever
    the store, the clock and the fuel: the response is the rule name and the
    instrument of the request, and holds nothing of the computed series. *)
Theorem response_depends_on_instrument_only
    (fuel1 fuel2 : nat) (env1 env2 : Runtime.Env) (data1 data2 : Py.json)
    (w1 w2 w1' w2' : Runtime.World) (r1 r2 : Response) :
  Py.getitem data1 "instrument" = Py.getitem data2 "instrument" ->
  robust_volatility_calculation fuel1 env1 data1 w1 = Some (Py.Ok r1, w1') ->
  robust_volatility_calculation fuel2 env2 data2 w2 = Some (Py.Ok r2, w2') ->
  r1 = r2 /\
  exists i : Py.json,
    Py.getitem data1 "instrument" = Py.Ok i /\
    r1 = {| rule := "Robust Volatility Series"; instrument := i |}.
Proof.
  intros Hsame H1 H2.
  apply Handler.handler_ok_inv in H1, H2.
  destruct H1 as (i1 & Hi1 & ->), H2 as (i2 & Hi2 & ->).
  assert (i1 = i2) by congruence. subst i2. eauto.
Qed.

Lemma response_same_on_two_stores :
  exists (r1 r2 : Response) (w1 w2 : Runtime.World),
    robust_volatility_calculation 0 env_A (request (Py.JInt 123)) world0
      = Some (Py.Ok r1, w1) /\
    robust_volatility_calculation 0 env_B (request (Py.JInt 123)) world0
      = Some (Py.Ok r2, w2) /\
    r1 = r2.
Proof.
  destruct (robust_volatility_calculation 0 env_A (request (Py.JInt 123)) world0)
    as [[[r1|e1] w1]|] eqn:E1; [|vm_compute in E1; discriminate..].
  destruct (robust_volatility_calculation 0 env_B (request (Py.JInt 123)) world0)
    as [[[r2|e2] w2]|] eqn:E2; [|vm_compute in E2; discriminate..].
  exists r1, r2, w1, w2. split; [reflexivity|]. split; [reflexivity|].
  exact (proj1 (response_depends_on_instrument_only _ _ _ _ _ _ _ _ _ _ _ _
                  eq_refl E1 E2)).
Defined.

(** C10, as stated, fails on long numerals: [int()] converts at most 4300
    digits, and a request whose start_time is the decimal numeral of
    10^4300, a string of 4301 decimal digits, is not accepted: the handler
    raises [ValueError] and sends no query. *)
Lemma long_numeral_not_accepted :
  all_digits long_numeral = true /\
  String.length long_numeral = 4301 /\
  Py.int (Py.JStr long_numeral) = Py.Raise (Py.exceeds_limit 4301) /\
  robust_volatility_calculation 0 env_A (request (Py.JStr long_numeral)) world0
    = Some (Py.Raise (Py.exceeds_limit 4301), world0).
Proof.
  split; [vm_compute; reflexivity|]. split; [vm_compute; reflexivity|].
  split; vm_compute; reflexivity.
Qed.

(** C10 (amended). The handler converts start_time with [int()]: the decimal
    numeral of an integer converts to that integer when it has at most 4300
    digits; a request whose start_time is a string that [int()] converts is
    processed exactly as the request with the integer itself; and when
    [int()] raises, the handler raises that error and leaves the world as it
    was: no query was sent. *)
Theorem start_time_converted_by_int :
  (forall n : Z, (Z.abs n < 10 ^ 4300)%Z -> Py.int (Py.JStr (Py.str n)) = Py.Ok n) /\
  (forall (fuel : nat) (env : Runtime.Env) (data_s data_n : Py.json)
          (s : string) (n : Z) (w : Runtime.World),
      Py.getitem data_s "instrument" = Py.getitem data_n "instrument" ->
      Py.getitem data_s "start_time" = Py.Ok (Py.JStr s) ->
      Py.getitem data_n "start_time" = Py.Ok (Py.JInt n) ->
      Py.int (Py.JStr s) = Py.Ok n ->
      robust_volatility_calculation fuel env data_s w
        = robust_volatility_calculation fuel env data_n w) /\
  (forall (fuel : nat) (env : Runtime.Env) (data i f : Py.json) (e : Py.exn)
          (w : Runtime.World),
      Py.getitem data "instrument" = Py.Ok i ->
      Py.getitem data "start_time" = Py.Ok f ->
      Py.int f = Py.Raise e ->
      robust_volatility_calculation fuel env data w = Some (Py.Raise e, w)).
Proof.
  split; [exact PyInt.int_str|]. split.
  - intros fuel env data_s data_n s n w Hi Hs Hn Hint.
    destruct (Py.getitem data_n "instrument") as [i|e] eqn:Ei.
    + rewrite (Handler.handler_read fuel env data_s i _ n w Hi Hs Hint).
      now rewrite (Handler.handler_read fuel env data_n i _ n w Ei Hn eq_refl).
    + unfold robust_volatility_calculation, Runtime.bind at 1 3, Runtime.lift at 1 4.
      now rewrite Hi, Ei.
  - intros. now apply Handler.handler_bad_start_time with (i := i) (f := f).
Qed.

Lemma start_time_string_123 :
  Py.int (Py.JStr "123") = Py.Ok 123%Z /\
  robust_volatility_calculation 0 env_A (request (Py.JStr "123")) world0
    = robust_volatility_calculation 0 env_A (request (Py.JInt 123)) world0 /\
  robust_volatility_calculation 0 env_A (request (Py.JStr "12.5")) world0
    = Some (Py.Raise
              (Py.ValueError "invalid literal for int() with base 10: '12.5'"),
            world0).
Proof.
  destruct start_time_converted_by_int as (Hstr & Hsame & Hbad).
  split; [apply (Hstr 123%Z); vm_compute; reflexivity|]. split.
  - apply (Hsame 0 env_A _ _ "123"%string 123%Z world0); reflexivity.
  - apply (Hbad 0 env_A _ (Py.JStr "CORN") (Py.JStr "12.5")); reflexivity.
Defined.

(* ================================================================= *)
(** * Part IV: further properties *)
(* ================================================================= *)

(** X1. Every value MinimumClamp returns is "no data" or at least 1e-10, and
    clamping a second time changes nothing. *)
Theorem apply_min_vol_at_least_min (vol : Pd.Series) :
  Forall at_least_min (Pd.values (apply_min_vol vol)) /\
  apply_min_vol (apply_min_vol vol) = apply_min_vol vol.
Proof.
  split.
  - apply FloorMore.clamped_at_least_min.
  - unfold apply_min_vol, Pd.mask_lt_assign, Pd.with_values. cbn [Pd.index Pd.values].
    f_equal. rewrite map_map. apply map_ext. intros v.
    exact (FloatTrans.clamp_idempotent v).
Qed.

(** X2. On a clamped series that is not empty QuantileFloor returns a series
    whose every value is "no data" or at least 1e-10: the floor never lowers
    the clamped volatility below the absolute minimum. *)
Theorem apply_vol_floor_at_least_min (vol : Pd.Series) :
  Pd.values vol <> [] ->
  exists out : Pd.Series,
    apply_vol_floor (apply_min_vol vol) = Py.Ok out /\
    Forall at_least_min (Pd.values out).
Proof.
  intros Hne.
  assert (Pd.values (apply_min_vol vol) <> []) as Hne'.
  { rewrite Clamp.values_apply_min_vol. destruct (Pd.values vol); [congruence|discriminate]. }
  pose proof (Floor.reference_shape _ Hne') as Href.
  set (cl := apply_min_vol vol) in *.
  set (ref := Pd.with_values cl
                (0%float :: Pd.ffill_from 0%float (tl (raw_reference cl)))) in *.
  exists (Pd.np_maximum cl ref). split; [now apply Floor.apply_vol_floor_unfold|].
  assert (Forall has_value (Pd.values ref)) as Hall.
  { subst ref. cbn [Pd.values Pd.with_values]. constructor; [reflexivity|].
    now apply Floor.ffill_from_has_value. }
  assert (Forall at_least_min (Pd.values cl)) as Hcl
    by apply FloorMore.clamped_at_least_min.
  cbn [Pd.np_maximum Pd.values Pd.with_values].
  revert Hall Hcl. generalize (Pd.values ref), (Pd.values cl).
  intros rs vs Hrs. revert vs.
  induction Hrs as [|r rs Hr _ IH]; intros vs Hvs; destruct Hvs as [|v vs Hv Hvs];
    simpl; constructor.
  - now apply FloatTrans.maximum_at_least_min.
  - now apply IH.
Qed.

Lemma apply_vol_floor_at_least_min_on_twelve_days :
  exists out : Pd.Series,
    apply_vol_floor (apply_min_vol (simple_ewvol_calc twelve_days)) = Py.Ok out /\
    Forall at_least_min (Pd.values out).
Proof.
  apply (apply_vol_floor_at_least_min (simple_ewvol_calc twelve_days)).
  vm_compute. discriminate.
Defined.

(** X3. During the first 99 days the reference of QuantileFloor is exactly
    0.0 (no window holds 100 observations yet), and the floor leaves a value
    of a clamped series ("no data" or at least 1e-10) as it is. *)
Theorem floor_inactive_in_first_99_days (vol : Pd.Series) (i : nat) (v : float) :
  i < 99 -> nth_error (Pd.values vol) i = Some v ->
  exists ref out : Pd.Series,
    vol_floor_reference vol = Py.Ok ref /\
    apply_vol_floor vol = Py.Ok out /\
    nth_error (Pd.values ref) i = Some 0%float /\
    (at_least_min v -> nth_error (Pd.values out) i = Some v).
Proof.
  intros Hi Hv.
  pose proof (FloorMore.values_not_empty_nth vol i v Hv) as Hne.
  pose proof (Floor.reference_shape vol Hne) as Href.
  set (ref := Pd.with_values vol
                (0%float :: Pd.ffill_from 0%float (tl (raw_reference vol)))) in *.
  assert (nth_error (Pd.values ref) i = Some 0%float) as Hr.
  { apply FloorMore.reference_early; [exact Hi|].
    apply nth_error_Some. congruence. }
  exists ref, (Pd.np_maximum vol ref).
  split; [exact Href|]. split; [now apply Floor.apply_vol_floor_unfold|].
  split; [exact Hr|]. intros Hmin.
  cbn [Pd.np_maximum Pd.values Pd.with_values].
  rewrite (ListFacts.map2_nth_error _ _ _ _ _ _ Hv Hr).
  now rewrite FloatTrans.maximum_zero.
Qed.

Lemma floor_inactive_on_twelve_days :
  exists ref out : Pd.Series,
    vol_floor_reference (apply_min_vol (simple_ewvol_calc twelve_days)) = Py.Ok ref /\
    apply_vol_floor (apply_min_vol (simple_ewvol_calc twelve_days)) = Py.Ok out /\
    nth_error (Pd.values ref) 11 = Some 0%float /\
    nth_error (Pd.values out) 11 = Some 3.5696594508677197%float.
Proof.
  destruct (floor_inactive_in_first_99_days
              (apply_min_vol (simple_ewvol_calc twelve_days)) 11
              3.5696594508677197%float)
    as (ref & out & H1 & H2 & H3 & H4).
  - lia.
  - vm_compute. reflexivity.
  - exists ref, out. repeat (split; [assumption|]).
    apply H4. right. vm_compute. reflexivity.
Defined.

(** X4. The reference of QuantileFloor carries the last quantile forward:
    after day 0 it is the raw reference of the day when that has a value, and
    the reference of the day before otherwise. *)
Theorem reference_carried_forward (vol : Pd.Series) (i : nat) (q : float) :
  nth_error (raw_reference vol) (S i) = Some q ->
  exists ref : Pd.Series,
    vol_floor_reference vol = Py.Ok ref /\
    nth_error (Pd.values ref) (S i) =
      if Np.isnan q then nth_error (Pd.values ref) i else Some q.
Proof.
  intros Hq.
  assert (Pd.values vol <> []) as Hne.
  { intros E. pose proof (Floor.raw_reference_length vol) as H. rewrite E in H.
    destruct (raw_reference vol); [discriminate Hq|discriminate H]. }
  eexists. split; [now apply Floor.reference_shape|].
  cbn [Pd.values Pd.with_values].
  change (0%float :: Pd.ffill_from 0%float (tl (raw_reference vol)))
    with (Pd.ffill_from PrimFloat.nan (0%float :: tl (raw_reference vol))).
  apply FloorMore.ffill_from_step.
  destruct (raw_reference vol); [discriminate Hq|exact Hq].
Qed.

Lemma reference_carried_forward_on_hundred_and_one_days :
  exists ref : Pd.Series,
    vol_floor_reference hundred_and_one_days = Py.Ok ref /\
    nth_error (Pd.values ref) 50 = nth_error (Pd.values ref) 49.
Proof.
  apply (reference_carried_forward hundred_and_one_days 49 PrimFloat.nan).
  vm_compute. reflexivity.
Defined.

(** X5. Composition of the three numeric stages (lines 25-28): the floored
    volatility keeps the index of the daily prices and is "no data" at every
    day before 10 valid daily prices have accumulated, as the comment of
    line 24 says. *)
Theorem floored_volatility_warmup (prices : Pd.Series) (i : nat) (v : float) :
  nth_error (Pd.values prices) i = Some v ->
  accumulated (Pd.values prices) i < 10 ->
  exists out : Pd.Series,
    apply_vol_floor (apply_min_vol (simple_ewvol_calc prices)) = Py.Ok out /\
    Pd.index out = Pd.index prices /\
    nth_error (Pd.values out) i = Some PrimFloat.nan.
Proof.
  intros Hv Hacc.
  destruct (Ewm.simple_ewvol_calc_nth prices i v Hv) as (o & Ho & Hwarm & _).
  specialize (Hwarm Hacc). apply FloatOrder.isnan_eq in Hwarm. subst o.
  set (cl := apply_min_vol (simple_ewvol_calc prices)).
  assert (nth_error (Pd.values cl) i = Some PrimFloat.nan) as Hcl.
  { subst cl. rewrite Clamp.values_apply_min_vol, nth_error_map, Ho. reflexivity. }
  pose proof (FloorMore.values_not_empty_nth cl i _ Hcl) as Hne.
  pose proof (Floor.reference_shape cl Hne) as Href.
  set (ref := Pd.with_values cl
                (0%float :: Pd.ffill_from 0%float (tl (raw_reference cl)))) in *.
  destruct (ListFacts.nth_error_in_range (Pd.values ref) i) as [r Hr].
  { rewrite (Floor.reference_values_length cl ref Href).
    apply nth_error_Some. congruence. }
  exists (Pd.np_maximum cl ref).
  split; [now apply Floor.apply_vol_floor_unfold|]. split; [reflexivity|].
  cbn [Pd.np_maximum Pd.values Pd.with_values].
  rewrite (ListFacts.map2_nth_error _ _ _ _ _ _ Hcl Hr).
  now rewrite Floor.maximum_nan_l.
Qed.

Lemma floored_volatility_warmup_on_twelve_days :
  exists out : Pd.Series,
    apply_vol_floor (apply_min_vol (simple_ewvol_calc twelve_days)) = Py.Ok out /\
    Pd.index out = Pd.index twelve_days /\
    nth_error (Pd.values out) 8 = Some PrimFloat.nan.
Proof.
  apply (floored_volatility_warmup twelve_days 8 9%float).
  - reflexivity.
  - vm_compute. lia.
Defined.

(** X6. Composition of the four stages: on observations that are not empty
    and whose time stamps lie in the days pandas holds in full (1677-09-22
    to 2262-04-10) the pipeline raises nowhere, and the floored volatility is
    a series over the gap-free calendar from the first to the last observed
    day, one value per day. *)
Theorem pipeline_keeps_calendar (raw : list Dynamo.Item) :
  raw <> [] -> within_range raw ->
  exists prices out : Pd.Series,
    aggregate_to_day_based_prices raw = Py.Ok prices /\
    apply_vol_floor (apply_min_vol (simple_ewvol_calc prices)) = Py.Ok out /\
    Pd.index out = calendar (first_day raw)
                     (S (Z.to_nat (last_day raw - first_day raw))) /\
    List.length (Pd.values out) = List.length (Pd.index out).
Proof. apply FloorMore.pipeline_runs. Qed.

Lemma pipeline_keeps_calendar_scenario_A :
  exists prices out : Pd.Series,
    aggregate_to_day_based_prices scenario_A = Py.Ok prices /\
    apply_vol_floor (apply_min_vol (simple_ewvol_calc prices)) = Py.Ok out /\
    Pd.index out = [19675%Z; 19676%Z] /\
    List.length (Pd.values out) = 2.
Proof.
  destruct (pipeline_keeps_calendar scenario_A) as (prices & out & H1 & H2 & H3 & H4).
  - discriminate.
  - repeat constructor; unfold in_whole_days; simpl; lia.
  - exists prices, out. split; [exact H1|]. split; [exact H2|].
    rewrite H4, H3. split; reflexivity.
Defined.

(** X7. A retrieval whose pages all arrive returns the items of all pages,
    in page order; it sends one query per page, the first without a start
    key and each next one from the key the page before announced; and it
    logs nothing. *)
Theorem retrieval_returns_all_pages (fuel : nat) (env : Runtime.Env)
    (i : Py.json) (st : Z) (w : Runtime.World)
    (pages : list (list Dynamo.Item)) (qs : list Dynamo.Query) :
  reads_pages env (price_query "multiple_prices" i st (Runtime.now env))
    (List.length (Runtime.queries w)) None pages qs ->
  List.length pages <= S fuel ->
  retrieve_prices_from_dynamodb fuel env i st w =
    Some (Py.Ok (List.concat pages),
          {| Runtime.log := Runtime.log w;
             Runtime.queries := Runtime.queries w ++ qs |}).
Proof. apply Retrieval.retrieve_ok. Qed.

Lemma retrieval_returns_two_pages :
  retrieve_prices_from_dynamodb 1 env_two_pages (Py.JStr "CORN") 123 world0 =
    Some (Py.Ok (scenario_A ++ scenario_B),
          {| Runtime.log := [];
             Runtime.queries := [corn_query None; corn_query (Some (Py.JInt 1))] |}).
Proof.
  apply (retrieval_returns_all_pages 1 env_two_pages (Py.JStr "CORN") 123 world0
           [scenario_A; scenario_B]
           [corn_query None; corn_query (Some (Py.JInt 1))]).
  - apply reads_more with (key := Py.JInt 1); [reflexivity|].
    apply reads_last. reflexivity.
  - simpl. lia.
Defined.

(** X8. Whatever a finished retrieval did: every query it sent asks the
    table [multiple_prices] for the request's instrument between start_time
    and the clock, the first one without a start key; it either returns items
    and logs nothing, or raises the generic error and logs one record; it
    raises no other error. *)
Theorem retrieval_outcomes (fuel : nat) (env : Runtime.Env) (i : Py.json)
    (st : Z) (w w' : Runtime.World) (out : Py.result (list Dynamo.Item)) :
  retrieve_prices_from_dynamodb fuel env i st w = Some (out, w') ->
  (exists qs : list Dynamo.Query,
     Runtime.queries w' = Runtime.queries w
       ++ price_query "multiple_prices" i st (Runtime.now env) None :: qs /\
     Forall (scoped env i st) qs) /\
  ((exists items, out = Py.Ok items /\ Runtime.log w' = Runtime.log w) \/
   (exists cause, out = Py.Raise (Py.ValueError retrieval_error_message) /\
                  Runtime.log w' = Runtime.log w ++ [error_record cause])).
Proof. apply Retrieval.retrieve_outcome. Qed.

Lemma retrieval_outcomes_on_flaky_store :
  exists (w' : Runtime.World) (qs : list Dynamo.Query),
    Runtime.queries w' = corn_query None :: qs /\ Forall (scoped env_flaky (Py.JStr "CORN") 123) qs /\
    Runtime.log w' = [error_record throttled].
Proof.
  destruct (retrieve_prices_from_dynamodb 3 env_flaky (Py.JStr "CORN") 123 world0)
    as [[out w']|] eqn:E; [|vm_compute in E; discriminate].
  destruct (retrieval_outcomes _ _ _ _ _ _ _ E) as ((qs & Hqs & Hall) & _).
  exists w', qs. split; [exact Hqs|]. split; [exact Hall|].
  vm_compute in E. inversion E. reflexivity.
Defined.

(** X9. The pagination loop has no page limit: against a store that
    announces another page for ever the retrieval never finishes, whatever
    the fuel. *)
Theorem pagination_has_no_page_limit (fuel : nat) (env : Runtime.Env)
    (i : Py.json) (st : Z) (w : Runtime.World) :
  endless env -> retrieve_prices_from_dynamodb fuel env i st w = None.
Proof. apply Retrieval.retrieve_endless. Qed.

Lemma pagination_on_endless_store :
  retrieve_prices_from_dynamodb 1000 env_endless (Py.JStr "CORN") 123 world0 = None.
Proof.
  apply pagination_has_no_page_limit.
  intros n q. exists scenario_A, (Py.JInt (Z.of_nat n)). reflexivity.
Defined.

(** X10. A request that is read, whose retrieval gets all its pages and at
    least one observation, all with time stamps in the days pandas holds in
    full (1677-09-22 to 2262-04-10), completes: the handler returns the
    success response with the request's instrument, no stage raises, and
    nothing is logged. *)
Theorem handler_succeeds_on_observations (fuel : nat) (env : Runtime.Env)
    (data i f : Py.json) (st : Z) (w : Runtime.World)
    (pages : list (list Dynamo.Item)) (qs : list Dynamo.Query) :
  Py.getitem data "instrument" = Py.Ok i ->
  Py.getitem data "start_time" = Py.Ok f ->
  Py.int f = Py.Ok st ->
  reads_pages env (price_query "multiple_prices" i st (Runtime.now env))
    (List.length (Runtime.queries w)) None pages qs ->
  List.length pages <= S fuel ->
  List.concat pages <> [] ->
  within_range (List.concat pages) ->
  robust_volatility_calculation fuel env data w =
    Some (Py.Ok {| rule := "Robust Volatility Series"; instrument := i |},
          {| Runtime.log := Runtime.log w;
             Runtime.queries := Runtime.queries w ++ qs |}).
Proof.
  intros Hi Hf Hst Hread Hfuel Hne Hin.
  rewrite (Handler.handler_read fuel env data i f st w Hi Hf Hst).
  now apply HandlerMore.serve_ok with pages.
Qed.

Lemma handler_succeeds_on_two_pages :
  robust_volatility_calculation 1 env_two_pages (request (Py.JStr "123")) world0 =
    Some (Py.Ok {| rule := "Robust Volatility Series"; instrument := Py.JStr "CORN" |},
          {| Runtime.log := [];
             Runtime.queries := [corn_query None; corn_query (Some (Py.JInt 1))] |}).
Proof.
  apply (handler_succeeds_on_observations 1 env_two_pages _ (Py.JStr "CORN")
           (Py.JStr "123") 123 world0 [scenario_A; scenario_B]
           [corn_query None; corn_query (Some (Py.JInt 1))]).
  - reflexivity.
  - reflexivity.
  - reflexivity.
  - apply reads_more with (key := Py.JInt 1); [reflexivity|].
    apply reads_last. reflexivity.
  - simpl. lia.
  - discriminate.
  - repeat constructor; unfold in_whole_days; simpl; lia.
Defined.

(** X11. A request that is read and whose retrieval fails, at whatever page,
    ends in the generic retrieval error: the handler raises it unchanged,
    aggregates nothing, and the log holds the cause. *)
Theorem handler_surfaces_retrieval_failure (fuel : nat) (env : Runtime.Env)
    (data i f : Py.json) (st : Z) (w : Runtime.World) (m : nat) (cause : Py.exn) :
  Py.getitem data "instrument" = Py.Ok i ->
  Py.getitem data "start_time" = Py.Ok f ->
  Py.int f = Py.Ok st ->
  fails_after env (price_query "multiple_prices" i st (Runtime.now env))
    (List.length (Runtime.queries w)) None m cause ->
  m <= fuel ->
  exists qs : list Dynamo.Query,
    robust_volatility_calculation fuel env data w =
      Some (Py.Raise (Py.ValueError retrieval_error_message),
            {| Runtime.log := Runtime.log w ++ [error_record cause];
               Runtime.queries := Runtime.queries w ++ qs |}) /\
    List.length qs = S m.
Proof.
  intros Hi Hf Hst Hfail Hfuel.
  rewrite (Handler.handler_read fuel env data i f st w Hi Hf Hst).
  now apply HandlerMore.serve_fail.
Qed.

Lemma handler_on_flaky_store :
  exists qs : list Dynamo.Query,
    robust_volatility_calculation 5 env_flaky (request (Py.JInt 123)) world0 =
      Some (Py.Raise (Py.ValueError retrieval_error_message),
            {| Runtime.log := [error_record throttled]; Runtime.queries := qs |}) /\
    List.length qs = 2.
Proof.
  apply (handler_surfaces_retrieval_failure 5 env_flaky _ (Py.JStr "CORN")
           (Py.JInt 123) 123 world0 1 throttled).
  - reflexivity.
  - reflexivity.
  - reflexivity.
  - eapply fails_later; [reflexivity|]. apply fails_now. reflexivity.
  - lia.
Defined.

(** X12. A malformed request raises before anything is sent or logged: a
    body without "instrument" raises KeyError('instrument'), also when
    start_time is missing or bad as well; a body with an instrument and
    without "start_time" raises KeyError('start_time'); a body that is not
    an object raises TypeError. *)
Theorem malformed_request_raises_before_retrieval (fuel : nat)
    (env : Runtime.Env) (w : Runtime.World) :
  (forall kvs, Py.dict_get "instrument" kvs = None ->
     robust_volatility_calculation fuel env (Py.JObj kvs) w
       = Some (Py.Raise (Py.KeyError "instrument"), w)) /\
  (forall kvs i, Py.dict_get "instrument" kvs = Some i ->
     Py.dict_get "start_time" kvs = None ->
     robust_volatility_calculation fuel env (Py.JObj kvs) w
       = Some (Py.Raise (Py.KeyError "start_time"), w)) /\
  (forall data, (forall kvs, data <> Py.JObj kvs) ->
     exists m, robust_volatility_calculation fuel env data w
                 = Some (Py.Raise (Py.TypeError m), w)).
Proof.
  split; [|split].
  - intros kvs H. apply HandlerMore.handler_no_instrument. simpl. now rewrite H.
  - intros kvs i Hi H. apply HandlerMore.handler_no_start_time with i; simpl.
    + now rewrite Hi.
    + now rewrite H.
  - intros data Hd.
    destruct data as [| | | | |l|kvs];
      try (eexists; apply HandlerMore.handler_no_instrument; reflexivity).
    now destruct (Hd kvs).
Qed.

Lemma malformed_request_examples :
  robust_volatility_calculation 0 env_A (Py.JObj []) world0
    = Some (Py.Raise (Py.KeyError "instrument"), world0) /\
  robust_volatility_calculation 0 env_A
      (Py.JObj [("instrument"%string, Py.JStr "CORN")]) world0
    = Some (Py.Raise (Py.KeyError "start_time"), world0).
Proof.
  destruct (malformed_request_raises_before_retrieval 0 env_A world0) as (H1 & H2 & _).
  split.
  - apply H1. reflexivity.
  - apply (H2 _ (Py.JStr "CORN")); reflexivity.
Defined.

(** X13. DailyAggregator does not depend on the order in which the store
    returned the observations, as long as no two of them bear the same time
    stamp. *)
Theorem aggregation_order_independent (raw raw' : list Dynamo.Item) :
  Permutation raw raw' -> NoDup (map Dynamo.UnixDateTime raw) ->
  aggregate_to_day_based_prices raw' = aggregate_to_day_based_prices raw.
Proof. apply AggregationMore.aggregate_perm. Qed.

Lemma aggregation_of_reversed_scenario_A :
  aggregate_to_day_based_prices (rev scenario_A)
    = aggregate_to_day_based_prices scenario_A.
Proof.
  apply aggregation_order_independent.
  - apply Permutation_rev.
  - repeat constructor; simpl; intuition discriminate.
Defined.



(** X15. The numeric stages never look ahead and never revise: the floored
    volatility of the first k days of a price series is the first k days of
    the floored volatility of the whole series. *)
Theorem floored_volatility_of_first_days (k : nat) (prices : Pd.Series) :
  1 <= k -> Pd.values prices <> [] ->
  exists out : Pd.Series,
    apply_vol_floor (apply_min_vol (simple_ewvol_calc prices)) = Py.Ok out /\
    apply_vol_floor (apply_min_vol (simple_ewvol_calc (first_days k prices)))
      = Py.Ok (first_days k out).
Proof. apply Prefix.pipeline_firstn. Qed.

Lemma floored_volatility_of_first_eleven_days :
  exists out : Pd.Series,
    apply_vol_floor (apply_min_vol (simple_ewvol_calc twelve_days)) = Py.Ok out /\
    apply_vol_floor (apply_min_vol (simple_ewvol_calc (first_days 11 twelve_days)))
      = Py.Ok (first_days 11 out).
Proof.
  apply (floored_volatility_of_first_days 11 twelve_days).
  - lia.
  - vm_compute. discriminate.
Defined.



(** X17. What [int()] takes for the start_time of line 21: the decimal
    numeral of an integer of at most 4300 digits converts to that integer
    also with white space around it (tab, line feed, vertical tab, form feed,
    carriage return, space, NEL, no-break space) and, when it is not
    negative, with a plus sign before it; and a string that starts with a
    character that is neither white space, nor a sign, nor a digit raises
    ValueError. *)
Theorem int_accepts_padded_numerals (n : Z) (lead trail : list ascii) :
  (Z.abs n < 10 ^ 4300)%Z ->
  Forall white_space lead -> Forall white_space trail ->
  Py.int (Py.JStr (string_of_list_ascii
                     (lead ++ list_ascii_of_string (Py.str n) ++ trail)))
    = Py.Ok n /\
  ((0 <= n)%Z ->
   Py.int (Py.JStr (string_of_list_ascii
                      (lead ++ "+"%char :: list_ascii_of_string (Py.str n) ++ trail)))
     = Py.Ok n) /\
  (forall (c : ascii) (rest : string),
      stray c ->
      Py.int (Py.JStr (String c rest))
        = Py.Raise (Py.invalid_literal (String c rest))).
Proof.
  intros Hn Hlead Htrail.
  assert (0 <= Z.abs n < 10 ^ 4300)%Z as Ha by (split; [apply Z.abs_nonneg|exact Hn]).
  split; [|split].
  - unfold Py.str. rewrite list_ascii_of_string_of_list_ascii. cbn [Py.int].
    destruct (Z.ltb_spec n 0) as [Hneg|Hpos].
    + pose proof (PyIntMore.parse_padded (Z.abs n) lead trail ["-"%char] true
                    Ha Hlead Htrail ltac:(tauto)) as H.
      cbn [app] in H |- *. rewrite H. f_equal. lia.
    + pose proof (PyIntMore.parse_padded (Z.abs n) lead trail [] false
                    Ha Hlead Htrail ltac:(tauto)) as H.
      cbn [app] in H |- *. rewrite H. f_equal. lia.
  - intros Hpos. unfold Py.str. rewrite list_ascii_of_string_of_list_ascii.
    cbn [Py.int].
    replace (n <? 0)%Z with false by (symmetry; apply Z.ltb_ge; exact Hpos).
    pose proof (PyIntMore.parse_padded (Z.abs n) lead trail ["+"%char] false
                  Ha Hlead Htrail ltac:(tauto)) as H.
    cbn [app] in H |- *. rewrite H. f_equal. lia.
  - intros c rest Hc. cbn [Py.int]. now rewrite PyIntMore.parse_stray.
Qed.

Lemma int_accepts_padded_123 :
  Py.int (Py.JStr (String (ascii_of_nat 160) " 123 "))
    = Py.Ok 123%Z /\
  Py.int (Py.JStr "x123")
    = Py.Raise (Py.ValueError "invalid literal for int() with base 10: 'x123'").
Proof.
  destruct (int_accepts_padded_numerals 123 [ascii_of_nat 160; " "%char] [" "%char])
    as (H1 & _ & H3).
  - vm_compute. reflexivity.
  - repeat constructor; unfold white_space; simpl; tauto.
  - repeat constructor; unfold white_space; simpl; tauto.
  - split; [exact H1|].
    apply (H3 "x"%char "123"%string). unfold stray, white_space.
    repeat split.
    + simpl. intros H. repeat (destruct H as [H|H]; [discriminate H|]). exact H.
    + intros [d Hd]. discriminate Hd.
    + discriminate.
    + discriminate.
Defined.
